(** * Deployment orchestration of ocs-ci: a shallow embedding

    The Python sources modelled here are
    - [ocs_ci/deployment/deployment.py]  (class [Deployment]),
    - [tests/helpers.py]                 ([wait_for_resource_state]),
    - [ocs_ci/ocs/constants.py]          (string constants).

    The code is a sequence of calls into collaborators (the [oc] command
    line, the resource client, validation helpers, the logger) glued by
    [try]/[except] blocks.  It is embedded as a state-and-exception monad:
    the state carries the journal of every collaborator call made so far
    together with the few attributes the code assigns, and the answers of
    the collaborators come from an environment that may look at the whole
    journal (so the same call can fail first and succeed later). *)

From Stdlib Require Import String Ascii List Bool Arith ZArith QArith Lia.
From Stdlib Require Import DecimalString.
Import ListNotations.
Local Close Scope Q_scope.
Local Open Scope list_scope.
Local Open Scope string_scope.

(** ** Python strings *)

Module Py.

(** [needle in hay] on [str]. *)
Fixpoint contains (needle hay : string) : bool :=
  if String.prefix needle hay then true
  else match hay with
       | EmptyString => false
       | String _ rest => contains needle rest
       end.

Definition lower_ascii (c : ascii) : ascii :=
  let n := nat_of_ascii c in
  if (65 <=? n)%nat && (n <=? 90)%nat then ascii_of_nat (n + 32) else c.

(** [s.lower()] on ASCII text. *)
Fixpoint lower (s : string) : string :=
  match s with
  | EmptyString => EmptyString
  | String c rest => String (lower_ascii c) (lower rest)
  end.

(** [str(n)] for an [int]. *)
Definition str_of_Z (n : Z) : string := NilZero.string_of_int (Z.to_int n).

(** Truth value of an optional string ([None] and [""] are falsy). *)
Definition truthy (o : option string) : bool :=
  match o with
  | Some s => negb (s =? "")
  | None => false
  end.

Fixpoint last_char (s : string) : option ascii :=
  match s with
  | EmptyString => None
  | String c EmptyString => Some c
  | String _ rest => last_char rest
  end.

(** [os.path.join a b]. *)
Definition path_join (a b : string) : string :=
  if String.prefix "/" b then b
  else match last_char a with
       | None => b
       | Some c => if Ascii.eqb c "/" then a ++ b else a ++ "/" ++ b
       end.

(** Smallest element of a list of strings: [l.sort(); l[0]]. *)
Definition min_str (l : list string) : option string :=
  match l with
  | [] => None
  | x :: rest => Some (fold_left (fun m y => if String.leb y m then y else m) rest x)
  end.

Definition is_digit (c : ascii) : bool :=
  let n := nat_of_ascii c in (48 <=? n)%nat && (n <=? 57)%nat.

Definition digit_val (c : ascii) : Z := Z.of_nat (nat_of_ascii c - 48).

(** A Python [float]: an IEEE 754 binary64 value.  A finite value is
    kept as the rational number it denotes; the two zeros are one value,
    as they are for the comparisons. *)
Inductive pyfloat : Type :=
| Finite (q : Q)
| Infinite (negative : bool)
| NaN.

(** [a / b] rounded to the nearest integer, a tie to the even one
    ([0 <= a], [0 < b]). *)
Definition round_half_even (a b : Z) : Z :=
  let fl := (a / b)%Z in
  match (2 * (a mod b) ?= b)%Z with
  | Lt => fl
  | Gt => (fl + 1)%Z
  | Eq => if Z.even fl then fl else (fl + 1)%Z
  end.

(** The largest [e] with [2^e <= n / d] ([0 < n], [0 < d]). *)
Definition floor_log2 (n d : Z) : Z :=
  let e := (Z.log2 n - Z.log2 d)%Z in
  if (n * 2 ^ Z.max 0 (- e) <? d * 2 ^ Z.max 0 e)%Z then (e - 1)%Z else e.

(** The binary64 value nearest to [n / d] ([0 < n], [0 < d]), ties to
    even: 53 significant bits, the unit in the last place not below
    [2^-1074], and infinity from [2^1024] on. *)
Definition round64_pos (n d : Z) : pyfloat :=
  let p := Z.max (floor_log2 n d - 52) (-1074) in
  let m := round_half_even (n * 2 ^ Z.max 0 (- p)) (d * 2 ^ Z.max 0 p) in
  if (971 <? p)%Z || ((p =? 971)%Z && (m =? 2 ^ 53)%Z) then Infinite false
  else Finite (Qred (Qmake (m * 2 ^ Z.max 0 p) (Z.to_pos (2 ^ Z.max 0 (- p))))).

Definition neg (x : pyfloat) : pyfloat :=
  match x with
  | Finite q => Finite (Qred (- q))
  | Infinite b => Infinite (negb b)
  | NaN => NaN
  end.

(** The binary64 value nearest to a rational number. *)
Definition round64 (q : Q) : pyfloat :=
  match Qnum q with
  | Z0 => Finite 0
  | Zpos n => round64_pos (Zpos n) (Zpos (Qden q))
  | Zneg n => neg (round64_pos (Zpos n) (Zpos (Qden q)))
  end.

(** [a < b] and [a >= b] on floats; a comparison with [nan] is false. *)
Definition lt (a b : pyfloat) : bool :=
  match a, b with
  | NaN, _ | _, NaN => false
  | Finite x, Finite y => negb (Qle_bool y x)
  | Finite _, Infinite negative => negb negative
  | Infinite negative, Finite _ => negative
  | Infinite n1, Infinite n2 => n1 && negb n2
  end.

Definition ge (a b : pyfloat) : bool :=
  match a, b with
  | NaN, _ | _, NaN => false
  | _, _ => negb (lt a b)
  end.

(** The white space that [float] strips from ASCII text. *)
Definition is_space (c : ascii) : bool :=
  let n := nat_of_ascii c in ((9 <=? n)%nat && (n <=? 13)%nat) || (n =? 32)%nat.

Fixpoint lstrip (s : string) : string :=
  match s with
  | EmptyString => EmptyString
  | String c rest => if is_space c then lstrip rest else s
  end.

Fixpoint rstrip (s : string) : string :=
  match s with
  | EmptyString => EmptyString
  | String c rest =>
      let r := rstrip rest in
      if is_space c && (r =? "") then EmptyString else String c r
  end.

Definition starts_with_digit (s : string) : bool :=
  match s with
  | String c _ => is_digit c
  | EmptyString => false
  end.

(** The longest [digitpart ::= digit (["_"] digit)*] at the head of [s]:
    its value on top of [acc], the number of its digits on top of [n],
    and what follows it. *)
Fixpoint digitpart (s : string) (acc : Z) (n : nat) : Z * nat * string :=
  match s with
  | EmptyString => (acc, n, s)
  | String c rest =>
      if is_digit c then digitpart rest (10 * acc + digit_val c)%Z (S n)
      else if Ascii.eqb c "_" && (0 <? n)%nat && starts_with_digit rest
           then digitpart rest acc n
           else (acc, n, s)
  end.

(** [exponent ::= ("e" | "E") ["+" | "-"] digitpart], up to the end of
    the text; no exponent is the exponent 0. *)
Definition exponent (s : string) : option Z :=
  match s with
  | EmptyString => Some 0%Z
  | String c rest =>
      if Ascii.eqb c "e" || Ascii.eqb c "E" then
        let (negative, digits) :=
          match rest with
          | String "-" r => (true, r)
          | String "+" r => (false, r)
          | _ => (false, rest)
          end in
        match digitpart digits 0 0 with
        | (v, S _, EmptyString) => Some (if negative then (- v)%Z else v)
        | _ => None
        end
      else None
  end.

(** [floatnumber ::= ([digitpart] "." digitpart | digitpart ["."])
    [exponent]]: the decimal number written, as [m * 10^e]. *)
Definition floatnumber (s : string) : option (Z * Z) :=
  let '(i, ni, rest) := digitpart s 0 0 in
  match rest with
  | String "." after =>
      let '(m, nf, rest) := digitpart after i 0 in
      if ((ni + nf)%nat =? 0)%nat then None
      else match exponent rest with
           | Some e => Some (m, (e - Z.of_nat nf)%Z)
           | None => None
           end
  | _ =>
      if (ni =? 0)%nat then None
      else match exponent rest with
           | Some e => Some (i, e)
           | None => None
           end
  end.

Definition absfloatvalue (s : string) : option pyfloat :=
  let word := lower s in
  if (word =? "inf") || (word =? "infinity") then Some (Infinite false)
  else if word =? "nan" then Some NaN
  else match floatnumber s with
       | Some (m, e) =>
           Some (round64 (if (0 <=? e)%Z then inject_Z (m * 10 ^ e)
                          else Qmake m (Z.to_pos (10 ^ (- e)))))
       | None => None
       end.

(** [float(s)] on ASCII text; [None] stands for [ValueError].  The text
    is stripped of white space, an optional sign is read, and the decimal
    number is rounded to the nearest binary64 value. *)
Definition float (s : string) : option pyfloat :=
  match lstrip (rstrip s) with
  | String "-" rest => option_map neg (absfloatvalue rest)
  | String "+" rest => absfloatvalue rest
  | text => absfloatvalue text
  end.

End Py.

(** ** Exceptions

    [exn] stands for an instance of a subclass of Python's [Exception]:
    its class and the text [str(e)].  The classes are the ones the
    modelled code raises or names in an [except] clause; none of them
    derives from another one here. *)

Inductive exn_class : Type :=
| AssertionError
| IndexError
| KeyError
| TypeError
| ValueError
| UnboundLocalError
| NotImplementedError
| CommandFailed
| CephHealthException
| ResourceWrongStatusException
| TimeoutExpiredError
| UnavailableResourceException
| UnsupportedPlatformError
| UnsupportedFeatureError
| ExternalClusterDetailsException
| OtherException (name : string).

Record exn : Type := Exn { exn_cls : exn_class; exn_msg : string }.

Definition exn_class_eqb (a b : exn_class) : bool :=
  match a, b with
  | AssertionError, AssertionError
  | IndexError, IndexError
  | KeyError, KeyError
  | TypeError, TypeError
  | ValueError, ValueError
  | UnboundLocalError, UnboundLocalError
  | NotImplementedError, NotImplementedError
  | CommandFailed, CommandFailed
  | CephHealthException, CephHealthException
  | ResourceWrongStatusException, ResourceWrongStatusException
  | TimeoutExpiredError, TimeoutExpiredError
  | UnavailableResourceException, UnavailableResourceException
  | UnsupportedPlatformError, UnsupportedPlatformError
  | UnsupportedFeatureError, UnsupportedFeatureError
  | ExternalClusterDetailsException, ExternalClusterDetailsException => true
  | OtherException n, OtherException m => (n =? m)
  | _, _ => false
  end.

(** [isinstance(e, classes)] for a tuple of classes. *)
Definition isinstance (e : exn) (classes : list exn_class) : bool :=
  existsb (exn_class_eqb (exn_cls e)) classes.

(** ** Documents written as YAML manifests *)

(** A [{"limits": {...}, "requests": {...}}] entry. *)
Record ResourceReq : Type := mkReq {
  limits_cpu : Z; limits_memory : string;
  requests_cpu : Z; requests_memory : string
}.

(** A resources entry: a limits/requests pair, or the
    [{"Requests": None, "Limits": None}] entry of the lowered setup. *)
Inductive resources : Type :=
| NoneResources
| Resources (r : ResourceReq).

(** One element of [spec.storageDeviceSets]. *)
Record DeviceSet : Type := mkDeviceSet {
  ds_count : Z;
  ds_portable : option bool;
  ds_storage : string;                  (* dataPVCTemplate.spec.resources.requests.storage *)
  ds_storageClassName : option string;  (* dataPVCTemplate.spec.storageClassName *)
  ds_resources : option resources
}.

(** The StorageCluster custom resource, with the entries the driver
    reads or writes. *)
Record StorageCluster : Type := mkStorageCluster {
  sc_name : string;                                   (* metadata.name *)
  sc_annotations : option (list (string * string));   (* metadata.annotations *)
  sc_manageNodes : option bool;
  sc_monDataDirHostPath : option string;
  sc_hostNetwork : option bool;
  sc_resources : option (list (string * resources));
  sc_encryption : option bool;                        (* spec.encryption.enable *)
  sc_storageDeviceSets : list DeviceSet
}.

(** The [spec] of the Subscription manifest. *)
Record Subscription : Type := mkSubscription {
  installPlanApproval : option string;
  channel : option string;
  source : option string
}.

(** The secret of an external cluster. *)
Record Secret : Type := mkSecret { external_cluster_details : option string }.

Inductive document : Type :=
| SubscriptionDoc (d : Subscription)
| StorageClusterDoc (d : StorageCluster)
| SecretDoc (d : Secret).

(** ** Journal of collaborator calls *)

Inductive level : Type := DEBUG | INFO | WARNING | ERROR.

(** One entry per call that leaves the modelled code: a logger call, a
    [time.sleep], a manifest written by [dump_data_to_temp_yaml], or a
    call [fn(args)] of a collaborator, with the arguments rendered as the
    source writes them. *)
Inductive event : Type :=
| Log (lvl : level) (msg : string)
| Sleep (seconds : nat)
| DumpYaml (data : document) (path : string)
| Call (fn : string) (args : list string).

Definition journal := list event.

(** ** Run configuration ([ocs_ci.framework.config]) *)

Record Config : Type := mkConfig {
  (* ENV_DATA *)
  platform : string;
  cluster_path : string;
  cluster_namespace : string;
  storage_cluster_name : string;
  skip_ocp_deployment : bool;
  skip_ocs_deployment : bool;
  number_of_storage_nodes : nat;
  device_size : option Z;
  ocs_version : string;
  encryption_at_rest : bool;
  monitoring_enabled : bool;
  persistent_monitoring : bool;
  telemeter_server_url : option string;
  (* DEPLOYMENT *)
  ui_deployment : bool;
  live_deployment : bool;
  live_content_source : option string;
  local_storage : bool;
  stage : bool;
  external_mode : bool;
  infra_nodes : bool;
  allow_lower_instance_requirements : bool;
  host_network : bool;
  subscription_plan_approval : option string;
  ocs_csv_channel : option string;
  csv_change_from : option string;
  csv_change_to : option string;
  deployment_browser : option string;
  (* REPORTING *)
  gather_on_deploy_failure : bool;
  collect_logs_on_success_run : bool;
  (* EXTERNAL_MODE *)
  cfg_external_cluster_details : option string;
  (* class attributes of the platform's Deployment class *)
  DEFAULT_STORAGECLASS_LSO : option string;
  CUSTOM_STORAGE_CLASS_PATH : option string
}.

(** Names that [deployment.py] takes from [constants] and [defaults] but
    that the constants module at hand does not define, and [TOP_DIR],
    which is computed from the location of the installed package. *)
Record Names : Type := mkNames {
  TOP_DIR : string;
  IBM_POWER_PLATFORM : string;
  BAREMETAL_PLATFORM : string;
  IBM_STORAGE_CLUSTER_YAML : string;
  EXTERNAL_CLUSTER_SECRET_YAML : string;
  EXTERNAL_STORAGE_CLUSTER_YAML : string;
  RH_NTP_CLOCK : string;
  NODE_SELECTOR_ANNOTATION : string;
  OCS_OPERATOR_NAME : string;
  DEVICE_SIZE : Z;
  ROOK_CLUSTER_NAMESPACE : string;
  OCS_MONITORING_NAMESPACE : string;
  LIVE_CONTENT_SOURCE : string
}.

(** [ocs_ci/ocs/constants.py] *)
Module constants.
Definition STATUS_RUNNING := "Running".
Definition CEPHFILESYSTEM := "CephFileSystem".
Definition CEPHBLOCKPOOL := "CephBlockPool".
Definition POD := "Pod".
Definition DEFAULT_CLUSTERNAME := "ocs-storagecluster".
Definition DEFAULT_STORAGECLASS_CEPHFS := DEFAULT_CLUSTERNAME ++ "-cephfs".
Definition DEFAULT_STORAGECLASS_RBD := DEFAULT_CLUSTERNAME ++ "-ceph-rbd".
Definition OPERATOR_SOURCE_NAME := "ocs-operatorsource".
Definition AWS_PLATFORM := "aws".
Definition VSPHERE_PLATFORM := "vsphere".
Definition CHROME_BROWSER := "chrome".

Definition TEMPLATE_DIR (top : string) :=
  Py.path_join (Py.path_join top "ocs_ci") "templates".
Definition TEMPLATE_DEPLOYMENT_DIR (top : string) :=
  Py.path_join (TEMPLATE_DIR top) "ocs-deployment".
Definition OLM_YAML (top : string) :=
  Py.path_join (TEMPLATE_DEPLOYMENT_DIR top) "deploy-with-olm.yaml".
Definition SUBSCRIPTION_YAML (top : string) :=
  Py.path_join (TEMPLATE_DEPLOYMENT_DIR top) "subscription.yaml".
Definition STORAGE_CLUSTER_YAML (top : string) :=
  Py.path_join (TEMPLATE_DEPLOYMENT_DIR top) "storage-cluster.yaml".
End constants.

(** ** The environment

    The answer of a collaborator to a call, given the journal of
    everything that happened before the call: either an exception or a
    value of the type the caller uses. *)
Record Env : Type := mkEnv {
  ans_unit : journal -> event -> exn + unit;
  ans_bool : journal -> event -> exn + bool;
  ans_str : journal -> event -> exn + string;
  ans_strs : journal -> event -> exn + list string;
  (* [OCP.get()]: the names of the objects under ["items"], when the
     answer has that key *)
  ans_items : journal -> event -> exn + option (list string);
  ans_subscription : journal -> event -> exn + Subscription;
  ans_cluster : journal -> event -> exn + StorageCluster;
  ans_secret : journal -> event -> exn + Secret
}.

(** ** Mutable state

    The journal, and the attributes the code assigns while it runs. *)
Record state : Type := mkState {
  st_journal : journal;
  DEFAULT_STORAGECLASS : option string;     (* self.DEFAULT_STORAGECLASS *)
  CEPHFILESYSTEM_NAME : option string;      (* defaults.CEPHFILESYSTEM_NAME, once assigned *)
  is_ocp_deployment_failed : bool           (* config.RUN["is_ocp_deployment_failed"] *)
}.

Definition initial_state (default_sc : option string) : state :=
  mkState [] default_sc None false.

(** ** The monad of Python statements *)

Definition M (A : Type) : Type := state -> state * (exn + A).

Definition ret {A} (a : A) : M A := fun s => (s, inr a).

Definition raise {A} (e : exn) : M A := fun s => (s, inl e).

Definition bind {A B} (m : M A) (f : A -> M B) : M B :=
  fun s => match m s with
           | (s', inl e) => (s', inl e)
           | (s', inr a) => f a s'
           end.

Declare Scope py_scope.
Delimit Scope py_scope with py.
Notation "x <- m ;; k" := (bind m (fun x => k))
  (at level 61, m at next level, right associativity) : py_scope.
Notation "m ;; k" := (bind m (fun _ => k))
  (at level 61, right associativity) : py_scope.
Notation "' pat <- m ;; k" := (bind m (fun x => match x with pat => k end))
  (at level 61, pat pattern, m at next level, right associativity) : py_scope.
Local Open Scope py_scope.

(** [try: body  except classes as e: handler e]; an exception of another
    class passes through. *)
Definition try_except {A} (body : M A) (classes : list exn_class)
    (handler : exn -> M A) : M A :=
  fun s => match body s with
           | (s', inl e) => if isinstance e classes then handler e s' else (s', inl e)
           | r => r
           end.

(** [try: body  except Exception as e: handler e]. *)
Definition try_except_Exception {A} (body : M A) (handler : exn -> M A) : M A :=
  fun s => match body s with
           | (s', inl e) => handler e s'
           | r => r
           end.

Definition when (b : bool) (m : M unit) : M unit := if b then m else ret tt.

(** [assert v]. *)
Definition assert (v : bool) : M unit :=
  if v then ret tt else raise (Exn AssertionError "").

Definition push (ev : event) (s : state) : state :=
  mkState (st_journal s ++ [ev])%list (DEFAULT_STORAGECLASS s)
          (CEPHFILESYSTEM_NAME s) (is_ocp_deployment_failed s).

Definition logger (lvl : level) (msg : string) : M unit :=
  fun s => (push (Log lvl msg) s, inr tt).

Definition sleep (seconds : nat) : M unit :=
  fun s => (push (Sleep seconds) s, inr tt).

(** A call of a collaborator: it is entered in the journal, and the
    environment answers from the journal before it. *)
Definition ask {A} (answer : journal -> event -> exn + A) (ev : event) : M A :=
  fun s => (push ev s, answer (st_journal s) ev).

Definition get_DEFAULT_STORAGECLASS : M (option string) :=
  fun s => (s, inr (DEFAULT_STORAGECLASS s)).

Definition set_DEFAULT_STORAGECLASS (v : option string) : M unit :=
  fun s => (mkState (st_journal s) v (CEPHFILESYSTEM_NAME s)
                    (is_ocp_deployment_failed s), inr tt).

Definition set_CEPHFILESYSTEM_NAME (v : string) : M unit :=
  fun s => (mkState (st_journal s) (DEFAULT_STORAGECLASS s) (Some v)
                    (is_ocp_deployment_failed s), inr tt).

Definition set_is_ocp_deployment_failed (v : bool) : M unit :=
  fun s => (mkState (st_journal s) (DEFAULT_STORAGECLASS s)
                    (CEPHFILESYSTEM_NAME s) v, inr tt).

(** Rendering of arguments. *)
Definition kw (name value : string) : string := name ++ "=" ++ value.
Definition repr_nat (n : nat) : string := Py.str_of_Z (Z.of_nat n).
Definition repr_opt (o : option string) : string :=
  match o with Some s => s | None => "None" end.
Definition repr_bool (b : bool) : string := if b then "True" else "False".

(** What a Python function hands back where the caller may test it:
    [None] or a truth value. *)
Inductive pyvalue : Type := PyNone | PyBool (b : bool).

Definition pytruth (v : pyvalue) : bool :=
  match v with PyNone => false | PyBool b => b end.

(** [for x in l: acc = body x acc]. *)
Fixpoint for_each {A S : Type} (l : list A) (body : A -> S -> M S) (acc : S) : M S :=
  match l with
  | [] => ret acc
  | x :: rest => acc' <- body x acc ;; for_each rest body acc'
  end.

(** [d[key] = v] on a dict kept in insertion order. *)
Fixpoint dict_set {V : Type} (key : string) (v : V) (d : list (string * V))
    : list (string * V) :=
  match d with
  | [] => [(key, v)]
  | (k, w) :: rest => if k =? key then (k, v) :: rest else (k, w) :: dict_set key v rest
  end.

(** ** [ocs_ci/utility/retry.py] *)

(** Modelled from the spec: the [retry] decorator of
    [ocs_ci/utility/retry.py], whose source is not at hand.  The wrapped
    callable is invoked again when it raises one of [classes], up to
    [tries] invocations in all, with a sleep of [delay * backoff^(k-1)]
    seconds after the k-th failed attempt; the exception of the last
    attempt is raised; an exception of another class is raised at once;
    [tries <= 1] is one attempt and no sleep. *)
Fixpoint retry_from {A : Type} (classes : list exn_class) (more : nat)
    (delay backoff : nat) (f : M A) : M A :=
  match more with
  | O => f
  | S n => try_except f classes
             (fun _ => sleep delay ;; retry_from classes n (delay * backoff) backoff f)
  end.

Definition retry {A : Type} (classes : list exn_class) (tries delay backoff : nat)
    (f : M A) : M A :=
  retry_from classes (tries - 1) delay backoff f.

(** ** [tests/helpers.py] *)

(** The resource object handed to [wait_for_resource_state]. *)
Record Resource : Type := mkResource { res_kind : string; res_name : string }.

Section Helpers.

Variable env : Env.

(** [helpers.wait_for_resource_state(resource, state, timeout=60)] *)
Definition wait_for_resource_state (resource : Resource) (state : string)
    (timeout : nat) : M pyvalue :=
  if (res_name resource =? constants.DEFAULT_STORAGECLASS_CEPHFS)
     || (res_name resource =? constants.DEFAULT_STORAGECLASS_RBD)
  then
    logger INFO "Attempt to default default Secret or StorageClass" ;;
    ret PyNone
  else
    try_except
      (_ <- ask (ans_bool env)
              (Call "resource.ocp.wait_for_resource"
                    [kw "condition" state; kw "resource_name" (res_name resource);
                     kw "timeout" (repr_nat timeout)]) ;;
       ret tt)
      [TimeoutExpiredError]
      (fun _ =>
         logger ERROR (res_kind resource ++ " " ++ res_name resource
                       ++ " failed to reach " ++ state) ;;
         ask (ans_unit env) (Call "resource.reload" [res_name resource]) ;;
         description <- ask (ans_str env) (Call "resource.describe" [res_name resource]) ;;
         raise (Exn ResourceWrongStatusException
                    (res_name resource ++ ", " ++ description))) ;;
    logger INFO (res_kind resource ++ " " ++ res_name resource
                 ++ " reached state " ++ state) ;;
    ret PyNone.

End Helpers.

(** ** [ocs_ci/deployment/deployment.py], class [Deployment]

    The methods are those of the base class.  Calls of collaborators from
    other modules, and of [label_and_taint_nodes],
    [create_stage_operator_source], [create_catalog_source],
    [setup_local_storage] and [destroy_ocs], are entered in the journal
    and answered by the environment.  Such an entry stands for all that
    the callee does: [create_catalog_source] and
    [create_stage_operator_source] write manifests of their own and run
    [oc create] on them, [setup_local_storage] labels nodes, writes the
    manifests of the local storage operator (a Subscription among them)
    and runs [oc] commands, [label_and_taint_nodes] runs [oc label] and
    [oc adm taint].  The journal of a method therefore shows the calls
    that the statements of the method make, not what its callees do
    inside.  [label_and_taint_nodes] and [create_catalog_source] are
    modelled on their own further down. *)

Definition dq : string := String (ascii_of_nat 34) EmptyString.

(** The float literals [4.5] and [4.6] of the source. *)
Definition v4_5 : Py.pyfloat := Py.round64 (45 # 10).
Definition v4_6 : Py.pyfloat := Py.round64 (46 # 10).

Section Deployment.

Variable K : Names.
Variable cfg : Config.
Variable env : Env.
(** [self.__class__.__name__] *)
Variable class_name : string.

Definition call_unit (fn : string) (args : list string) : M unit :=
  ask (ans_unit env) (Call fn args).
Definition call_bool (fn : string) (args : list string) : M bool :=
  ask (ans_bool env) (Call fn args).
Definition call_str (fn : string) (args : list string) : M string :=
  ask (ans_str env) (Call fn args).
Definition call_strs (fn : string) (args : list string) : M (list string) :=
  ask (ans_strs env) (Call fn args).

(** [run_cmd(cmd)] and [run_cmd(cmd, timeout=t)] *)
Definition run_cmd (cmd : string) (timeout : option nat) : M string :=
  call_str "run_cmd"
    (cmd :: match timeout with
            | Some t => [kw "timeout" (repr_nat t)]
            | None => []
            end).

(** [tempfile.NamedTemporaryFile(mode="w+", prefix=p, delete=False).name] *)
Definition NamedTemporaryFile (prefix : string) : M string :=
  call_str "tempfile.NamedTemporaryFile"
    [kw "mode" "w+"; kw "prefix" prefix; kw "delete" "False"].

Definition dump_data_to_temp_yaml (data : document) (path : string) : M unit :=
  ask (ans_unit env) (DumpYaml data path).

(** [ocp.OCP(kind=kind, namespace=ns).get()]: the ["items"] entry. *)
Definition OCP_get (kind ns : string) : M (option (list string)) :=
  ask (ans_items env) (Call "OCP.get" [kw "kind" kind; kw "namespace" ns]).

(** [ocp.OCP(kind=kind, namespace=ns).wait_for_resource(...)] *)
Definition OCP_wait_for_resource (kind ns condition selector : string)
    (resource_count : option nat) (timeout : nat) : M bool :=
  call_bool "OCP.wait_for_resource"
    ([kw "kind" kind; kw "namespace" ns; kw "condition" condition;
      kw "selector" selector]
     ++ match resource_count with
        | Some n => [kw "resource_count" (repr_nat n)]
        | None => []
        end
     ++ [kw "timeout" (repr_nat timeout)])%list.

(** [deploy_ocp] *)
Definition deploy_ocp (log_cli_level : string) : M unit :=
  call_unit "OCPDeployment" [] ;;
  call_unit "OCPDeployment.deploy_prereq" [] ;;
  call_unit "OCPDeployment.deploy" [log_cli_level] ;;
  cluster_id <- run_cmd "oc get clusterversion version -o jsonpath='{.spec.clusterID}'" None ;;
  logger INFO ("clusterID (UUID): " ++ cluster_id).

(** [post_ocp_deploy] *)
Definition post_ocp_deploy : M unit :=
  call_unit "set_selinux_permissions" [] ;;
  call_unit "set_registry_to_managed_state" [] ;;
  call_unit "add_stage_cert" [].

(** [create_ocs_operator_source] *)
Definition create_ocs_operator_source : M unit :=
  if stage cfg then call_unit "self.create_stage_operator_source" []
  else call_unit "create_catalog_source" [].

(** [config.DEPLOYMENT.get("subscription_plan_approval") == "Manual"] *)
Definition plan_approval_is_manual : bool :=
  match subscription_plan_approval cfg with
  | Some mode => mode =? "Manual"
  | None => false
  end.

(** [subscribe_ocs] *)
Definition subscribe_ocs : M unit :=
  operator_selector <- call_str "get_selector_for_ocs_operator" [] ;;
  call_unit "PackageManifest.wait_for_resource"
    [kw "resource_name" (OCS_OPERATOR_NAME K); kw "selector" operator_selector;
     kw "timeout" "300"] ;;
  default_channel <- call_str "PackageManifest.get_default_channel"
    [kw "resource_name" (OCS_OPERATOR_NAME K); kw "selector" operator_selector] ;;
  subscription_yaml_data <-
    ask (ans_subscription env)
        (Call "templating.load_yaml" [constants.SUBSCRIPTION_YAML (TOP_DIR K)]) ;;
  let subscription_yaml_data :=
    if Py.truthy (subscription_plan_approval cfg)
    then mkSubscription (subscription_plan_approval cfg)
                        (channel subscription_yaml_data)
                        (source subscription_yaml_data)
    else subscription_yaml_data in
  subscription_yaml_data <-
    (if Py.truthy (ocs_csv_channel cfg) then
       logger INFO ("Custom channel will be used: " ++ repr_opt (ocs_csv_channel cfg)) ;;
       ret (mkSubscription (installPlanApproval subscription_yaml_data)
                           (ocs_csv_channel cfg)
                           (source subscription_yaml_data))
     else
       logger INFO ("Default channel will be used: " ++ default_channel) ;;
       ret (mkSubscription (installPlanApproval subscription_yaml_data)
                           (Some default_channel)
                           (source subscription_yaml_data))) ;;
  let subscription_yaml_data :=
    if stage cfg
    then mkSubscription (installPlanApproval subscription_yaml_data)
                        (channel subscription_yaml_data)
                        (Some constants.OPERATOR_SOURCE_NAME)
    else subscription_yaml_data in
  let subscription_yaml_data :=
    if live_deployment cfg
    then mkSubscription (installPlanApproval subscription_yaml_data)
                        (channel subscription_yaml_data)
                        (Some match live_content_source cfg with
                              | Some src => src
                              | None => LIVE_CONTENT_SOURCE K
                              end)
    else subscription_yaml_data in
  subscription_manifest <- NamedTemporaryFile "subscription_manifest" ;;
  dump_data_to_temp_yaml (SubscriptionDoc subscription_yaml_data) subscription_manifest ;;
  run_cmd ("oc create -f " ++ subscription_manifest) None ;;
  if plan_approval_is_manual
  then call_unit "wait_for_install_plan_and_approve" [cluster_namespace cfg]
  else ret tt.

(** [deployment_with_ui] *)
Definition deployment_with_ui : M unit :=
  logger INFO "Deployment of OCS will be done by openshift-console" ;;
  call_unit "OpenshiftConsole"
    [match deployment_browser cfg with
     | Some b => b
     | None => constants.CHROME_BROWSER
     end] ;;
  let live_deploy := if live_deployment cfg then "1" else "0" in
  call_unit "OpenshiftConsole.run_openshift_console"
    [kw "suite" "ceph-storage-install"; kw "env_vars" (kw "OCS_LIVE" live_deploy);
     kw "log_suffix" "ui-deployment"].

(** [patch_default_sc_to_non_default] *)
Definition patch_default_sc_to_non_default : M unit :=
  default_sc <- get_DEFAULT_STORAGECLASS ;;
  if negb (Py.truthy default_sc) then
    logger INFO ("Default StorageClass is not set for this class: " ++ class_name)
  else
    logger INFO ("Patch " ++ repr_opt default_sc ++ " storageclass as non-default") ;;
    let patch := " '{" ++ dq ++ "metadata" ++ dq ++ ": {" ++ dq ++ "annotations" ++ dq
                 ++ ":{" ++ dq ++ "storageclass.kubernetes.io/is-default-class" ++ dq
                 ++ ":" ++ dq ++ "false" ++ dq ++ "}}}' " in
    run_cmd ("oc patch storageclass " ++ repr_opt default_sc ++ " -p " ++ patch
             ++ " --request-timeout=120s") None ;;
    ret tt.

(** [external_post_deploy_validation] *)
Definition external_post_deploy_validation : M unit :=
  call_unit "CephClusterExternal" [] ;;
  call_unit "CephClusterExternal.cluster_health_check" [kw "timeout" "300"].

(** The wait for the operator's CSV that follows [subscribe_ocs], in
    [deploy_ocs_via_operator] and [deploy_with_external_mode] alike;
    it hands back [csv_name]. *)
Definition wait_for_csv : M string :=
  operator_selector <- call_str "get_selector_for_ocs_operator" [] ;;
  call_unit "PackageManifest.wait_for_resource"
    [kw "resource_name" (OCS_OPERATOR_NAME K); kw "selector" operator_selector;
     kw "subscription_plan_approval" (repr_opt (subscription_plan_approval cfg));
     kw "timeout" "300"] ;;
  csv_name <- call_str "PackageManifest.get_current_csv"
    [kw "channel" (repr_opt (ocs_csv_channel cfg))] ;;
  call_unit "CSV.wait_for_phase"
    [kw "resource_name" csv_name; kw "namespace" (cluster_namespace cfg);
     "Succeeded"; kw "timeout" "720"] ;;
  ret csv_name.

(** [deploy_with_external_mode] *)
Definition deploy_with_external_mode : M unit :=
  logger INFO "Deploying OCS with external mode RHCS" ;;
  logger INFO "Creating namespace and operator group" ;;
  run_cmd ("oc create -f " ++ constants.OLM_YAML (TOP_DIR K)) None ;;
  when (negb (live_deployment cfg)) create_ocs_operator_source ;;
  subscribe_ocs ;;
  wait_for_csv ;;
  secret_data <- ask (ans_secret env)
                     (Call "templating.load_yaml" [EXTERNAL_CLUSTER_SECRET_YAML K]) ;;
  (if negb (Py.truthy (cfg_external_cluster_details cfg)) then
     raise (Exn ExternalClusterDetailsException "No external cluster data found")
   else ret tt) ;;
  let secret_data := mkSecret (cfg_external_cluster_details cfg) in
  secret_data_yaml <- NamedTemporaryFile "external_cluster_secret" ;;
  dump_data_to_temp_yaml (SecretDoc secret_data) secret_data_yaml ;;
  logger INFO "Creating external cluster secret" ;;
  run_cmd ("oc create -f " ++ secret_data_yaml) None ;;
  cluster_data <- ask (ans_cluster env)
                      (Call "templating.load_yaml" [EXTERNAL_STORAGE_CLUSTER_YAML K]) ;;
  let cluster_data :=
    mkStorageCluster (storage_cluster_name cfg) (sc_annotations cluster_data)
      (sc_manageNodes cluster_data) (sc_monDataDirHostPath cluster_data)
      (sc_hostNetwork cluster_data) (sc_resources cluster_data)
      (sc_encryption cluster_data) (sc_storageDeviceSets cluster_data) in
  cluster_data_yaml <- NamedTemporaryFile "external_cluster_storage" ;;
  dump_data_to_temp_yaml (StorageClusterDoc cluster_data) cluster_data_yaml ;;
  run_cmd ("oc create -f " ++ cluster_data_yaml) (Some 2400) ;;
  external_post_deploy_validation ;;
  call_unit "setup_ceph_toolbox" [].

(** *** Assembly of the StorageCluster document

    The part of [deploy_ocs_via_operator] from the comment
    "creating StorageCluster" to the encryption check. *)

Definition with_storage (d : DeviceSet) (v : string) : DeviceSet :=
  mkDeviceSet (ds_count d) (ds_portable d) v (ds_storageClassName d) (ds_resources d).
Definition with_storageClassName (d : DeviceSet) (v : option string) : DeviceSet :=
  mkDeviceSet (ds_count d) (ds_portable d) (ds_storage d) v (ds_resources d).
Definition with_portable (d : DeviceSet) (v : bool) : DeviceSet :=
  mkDeviceSet (ds_count d) (Some v) (ds_storage d) (ds_storageClassName d) (ds_resources d).
Definition with_count (d : DeviceSet) (v : Z) : DeviceSet :=
  mkDeviceSet v (ds_portable d) (ds_storage d) (ds_storageClassName d) (ds_resources d).
Definition with_ds_resources (d : DeviceSet) (v : resources) : DeviceSet :=
  mkDeviceSet (ds_count d) (ds_portable d) (ds_storage d) (ds_storageClassName d) (Some v).

Definition with_name (c : StorageCluster) (v : string) : StorageCluster :=
  mkStorageCluster v (sc_annotations c) (sc_manageNodes c) (sc_monDataDirHostPath c)
    (sc_hostNetwork c) (sc_resources c) (sc_encryption c) (sc_storageDeviceSets c).
Definition with_annotations (c : StorageCluster) (v : list (string * string)) :=
  mkStorageCluster (sc_name c) (Some v) (sc_manageNodes c) (sc_monDataDirHostPath c)
    (sc_hostNetwork c) (sc_resources c) (sc_encryption c) (sc_storageDeviceSets c).
(** The two assignments of the local-storage tweak. *)
Definition with_lso_spec (c : StorageCluster) : StorageCluster :=
  mkStorageCluster (sc_name c) (sc_annotations c) (Some false) (Some "/var/lib/rook")
    (sc_hostNetwork c) (sc_resources c) (sc_encryption c) (sc_storageDeviceSets c).
Definition with_hostNetwork (c : StorageCluster) (v : bool) : StorageCluster :=
  mkStorageCluster (sc_name c) (sc_annotations c) (sc_manageNodes c)
    (sc_monDataDirHostPath c) (Some v) (sc_resources c) (sc_encryption c)
    (sc_storageDeviceSets c).
Definition with_sc_resources (c : StorageCluster) (v : list (string * resources)) :=
  mkStorageCluster (sc_name c) (sc_annotations c) (sc_manageNodes c)
    (sc_monDataDirHostPath c) (sc_hostNetwork c) (Some v) (sc_encryption c)
    (sc_storageDeviceSets c).
Definition with_encryption (c : StorageCluster) (v : bool) : StorageCluster :=
  mkStorageCluster (sc_name c) (sc_annotations c) (sc_manageNodes c)
    (sc_monDataDirHostPath c) (sc_hostNetwork c) (sc_resources c) (Some v)
    (sc_storageDeviceSets c).
Definition with_storageDeviceSets (c : StorageCluster) (v : list DeviceSet) :=
  mkStorageCluster (sc_name c) (sc_annotations c) (sc_manageNodes c)
    (sc_monDataDirHostPath c) (sc_hostNetwork c) (sc_resources c) (sc_encryption c) v.

(** [l[i]] *)
Definition index {A : Type} (l : list A) (i : nat) : M A :=
  match nth_error l i with
  | Some x => ret x
  | None => raise (Exn IndexError "list index out of range")
  end.

(** [float(s)] *)
Definition float (s : string) : M Py.pyfloat :=
  match Py.float s with
  | Some q => ret q
  | None => raise (Exn ValueError ("could not convert string to float: '" ++ s ++ "'"))
  end.

(** [int(config.ENV_DATA.get("device_size", defaults.DEVICE_SIZE))] *)
Definition configured_device_size : Z :=
  match device_size cfg with
  | Some z => z
  | None => DEVICE_SIZE K
  end.

(** [pv_size_list = helpers.get_pv_size(...); pv_size_list.sort();
    pv_size_list[0]] *)
Definition smallest_pv_size : M string :=
  pv_size_list <- call_strs "helpers.get_pv_size"
                    [kw "storageclass" (repr_opt (DEFAULT_STORAGECLASS_LSO cfg))] ;;
  match Py.min_str pv_size_list with
  | Some m => ret m
  | None => raise (Exn IndexError "list index out of range")
  end.

(** The body of the loop over the storage nodes of IBM Power. *)
Definition ibm_power_deviceset (i : nat) (acc : StorageCluster * list DeviceSet)
    : M (StorageCluster * list DeviceSet) :=
  let (cluster_data, deviceset) := acc in
  deviceset_data <- index (sc_storageDeviceSets cluster_data) i ;;
  let device_size := configured_device_size in
  deviceset_data <-
    (if Py.lower (platform cfg) =? "powervs" then
       smallest <- smallest_pv_size ;;
       ret (with_storage deviceset_data smallest)
     else
       ret (with_storage deviceset_data (Py.str_of_Z device_size ++ "Gi"))) ;;
  let deviceset_data :=
    if Py.truthy (DEFAULT_STORAGECLASS_LSO cfg)
    then with_storageClassName deviceset_data (DEFAULT_STORAGECLASS_LSO cfg)
    else deviceset_data in
  if local_storage cfg then
    ret (with_lso_spec cluster_data,
         (deviceset ++ [with_storageClassName (with_portable deviceset_data false)
                          (DEFAULT_STORAGECLASS_LSO cfg)])%list)
  else
    ret (cluster_data, (deviceset ++ [deviceset_data])%list).

Definition lower_requirement_names (ocs_version : Py.pyfloat) : list string :=
  (["mon"; "mds"; "rgw"; "mgr"; "noobaa-core"; "noobaa-db"]
   ++ (if Py.ge ocs_version v4_5 then ["noobaa-endpoint"] else []))%list.

(** The branch for every other platform: the document with its first
    device set adjusted, the device set, and [ocs_version]. *)
Definition generic_deviceset (cluster_data : StorageCluster)
    : M (StorageCluster * DeviceSet * Py.pyfloat) :=
  deviceset_data <- index (sc_storageDeviceSets cluster_data) 0 ;;
  let device_size := configured_device_size in
  deviceset_data <-
    (if Py.lower (platform cfg) =? BAREMETAL_PLATFORM K then
       smallest <- smallest_pv_size ;;
       ret (with_storage deviceset_data smallest)
     else
       ret (with_storage deviceset_data (Py.str_of_Z device_size ++ "Gi"))) ;;
  default_sc <- get_DEFAULT_STORAGECLASS ;;
  let deviceset_data :=
    if Py.truthy default_sc
    then with_storageClassName deviceset_data default_sc
    else deviceset_data in
  ocs_version <- float (ocs_version cfg) ;;
  ocp_version_str <- call_str "get_ocp_version" [] ;;
  ocp_version <- float ocp_version_str ;;
  let (cluster_data, deviceset_data) :=
    if local_storage cfg then
      let c := with_lso_spec cluster_data in
      let d := with_storageClassName (with_portable deviceset_data false)
                 (DEFAULT_STORAGECLASS_LSO cfg) in
      let d := if Py.lower (platform cfg) =? constants.AWS_PLATFORM
               then with_count d 2 else d in
      let d := if Py.ge ocs_version v4_5
               then with_ds_resources d (Resources (mkReq 2 "5Gi" 1 "5Gi")) else d in
      let c := if Py.ge ocp_version v4_6 && Py.ge ocs_version v4_6
               then with_annotations c [("cluster.ocs.openshift.io/local-devices", "true")]
               else c in
      (c, d)
    else (cluster_data, deviceset_data) in
  if allow_lower_instance_requirements cfg then
    let d := with_ds_resources deviceset_data NoneResources in
    let res := map (fun r => (r, NoneResources)) (lower_requirement_names ocs_version) in
    let res := if Py.ge ocs_version v4_5
               then dict_set "noobaa-endpoint"
                      (Resources (mkReq 1 "500Mi" 1 "500Mi")) res
               else res in
    ret (with_sc_resources cluster_data res, d, ocs_version)
  else if local_storage cfg && (Py.lower (platform cfg) =? "aws") then
    let res := [("mds", Resources (mkReq 3 "8Gi" 1 "8Gi"))] in
    let res := if Py.lt ocs_version v4_5
               then dict_set "noobaa-db" (Resources (mkReq 2 "8Gi" 1 "8Gi"))
                      (dict_set "noobaa-core" (Resources (mkReq 2 "8Gi" 1 "8Gi")) res)
               else res in
    ret (with_sc_resources cluster_data res, deviceset_data, ocs_version)
  else
    ret (cluster_data, deviceset_data, ocs_version).

(** The method from "creating StorageCluster" to the encryption check:
    the document that will be submitted. *)
Definition storage_cluster_spec : M StorageCluster :=
  cluster_data <-
    ask (ans_cluster env)
        (Call "templating.load_yaml"
              [if platform cfg =? IBM_POWER_PLATFORM K
               then IBM_STORAGE_CLUSTER_YAML K
               else constants.STORAGE_CLUSTER_YAML (TOP_DIR K)]) ;;
  let cluster_data := with_name cluster_data (storage_cluster_name cfg) in
  '(cluster_data, deviceset, ocs_version) <-
    (if platform cfg =? IBM_POWER_PLATFORM K then
       '(c, ds) <- for_each (seq 0 (number_of_storage_nodes cfg))
                            ibm_power_deviceset (cluster_data, []) ;;
       ret (c, ds, None)
     else
       '(c, d, v) <- generic_deviceset cluster_data ;;
       ret (c, [d], Some v)) ;;
  let cluster_data :=
    if host_network cfg then with_hostNetwork cluster_data true else cluster_data in
  let cluster_data := with_storageDeviceSets cluster_data deviceset in
  if encryption_at_rest cfg then
    match ocs_version with
    | None =>
        (* [ocs_version] is assigned in the other branch only *)
        raise (Exn UnboundLocalError
                   "local variable 'ocs_version' referenced before assignment")
    | Some ocs_version =>
        if Py.lt ocs_version v4_6 then
          let error_message := "Encryption at REST can be enabled only on OCS >= 4.6!" in
          logger ERROR error_message ;;
          raise (Exn UnsupportedFeatureError error_message)
        else
          logger INFO "Enabling encryption at REST!" ;;
          ret (with_encryption cluster_data true)
    end
  else ret cluster_data.

(** [deploy_ocs_via_operator] *)
Definition deploy_ocs_via_operator : M unit :=
  when (local_storage cfg)
    (call_unit "setup_local_storage"
               [kw "storageclass" (repr_opt (DEFAULT_STORAGECLASS_LSO cfg))]) ;;
  if ui_deployment cfg then
    when (negb (live_deployment cfg)) create_ocs_operator_source ;;
    deployment_with_ui
  else
    logger INFO "Deployment of OCS via OCS operator" ;;
    call_unit "self.label_and_taint_nodes" [] ;;
    logger INFO "Creating namespace and operator group." ;;
    run_cmd ("oc create -f " ++ constants.OLM_YAML (TOP_DIR K)) None ;;
    when (negb (live_deployment cfg)) create_ocs_operator_source ;;
    subscribe_ocs ;;
    csv_name <- wait_for_csv ;;
    match csv_change_from cfg, csv_change_to cfg with
    | Some replace_from, Some replace_to =>
        call_unit "modify_csv"
          [kw "csv" csv_name; kw "replace_from" replace_from; kw "replace_to" replace_to]
    | _, _ => ret tt
    end ;;
    match CUSTOM_STORAGE_CLASS_PATH cfg with
    | Some path =>
        custom_sc_name <- call_str "yaml.load" [path] ;;
        set_DEFAULT_STORAGECLASS (Some custom_sc_name) ;;
        run_cmd ("oc create -f " ++ path) None ;;
        ret tt
    | None => ret tt
    end ;;
    cluster_data <- storage_cluster_spec ;;
    cluster_data_yaml <- NamedTemporaryFile "cluster_storage" ;;
    dump_data_to_temp_yaml (StorageClusterDoc cluster_data) cluster_data_yaml ;;
    run_cmd ("oc create -f " ++ cluster_data_yaml) (Some 2400) ;;
    when (infra_nodes cfg)
      (call_unit "OCP.exec_oc_cmd"
         [kw "kind" "node";
          kw "command" ("annotate namespace " ++ ROOK_CLUSTER_NAMESPACE K ++ " "
                        ++ NODE_SELECTOR_ANNOTATION K)]).

(** *** [deploy_ocs] *)

(** The probe for an existing cluster:
    [ceph_cluster.get().get("items")[0]]. *)
Definition probe_ceph_cluster : M string :=
  items <- OCP_get "CephCluster" (cluster_namespace cfg) ;;
  match items with
  | None => raise (Exn TypeError "'NoneType' object is not subscriptable")
  | Some l => index l 0
  end.

(** The branch "Change monitoring backend to OCS" and its [elif]. *)
Definition configure_monitoring : M unit :=
  if monitoring_enabled cfg && persistent_monitoring cfg then
    sc_name <- call_str "helpers.default_storage_class"
                 [kw "interface_type" constants.CEPHBLOCKPOOL] ;;
    pods_list <- call_strs "get_all_pods"
                   [kw "namespace" (OCS_MONITORING_NAMESPACE K);
                    kw "selector" "['prometheus', 'alertmanager']"] ;;
    call_unit "create_configmap_cluster_monitoring_pod"
      [kw "sc_name" sc_name;
       kw "telemeter_server_url" (repr_opt (telemeter_server_url cfg))] ;;
    let waiting_time := 45 in
    logger INFO ("Waiting " ++ repr_nat waiting_time ++ " seconds...") ;;
    sleep waiting_time ;;
    retry [CommandFailed; ResourceWrongStatusException] 3 15 1
      (call_unit "validate_pods_are_respinned_and_running_state" pods_list) ;;
    call_unit "validate_pvc_created_and_bound_on_monitoring_pods" [] ;;
    retry [CommandFailed; AssertionError] 3 15 1
      (call_unit "validate_pvc_are_mounted_on_monitoring_pods" pods_list)
  else if monitoring_enabled cfg && Py.truthy (telemeter_server_url cfg) then
    call_unit "create_configmap_cluster_monitoring_pod"
      [kw "telemeter_server_url" (repr_opt (telemeter_server_url cfg))]
  else ret tt.

Definition ceph_health_check (tries delay : nat) : M bool :=
  call_bool "ceph_health_check"
    [kw "namespace" (cluster_namespace cfg); kw "tries" (repr_nat tries);
     kw "delay" (repr_nat delay)].

(** The block "Verify health of ceph cluster". *)
Definition verify_ceph_health : M unit :=
  logger INFO "Done creating rook resources, waiting for HEALTH_OK" ;;
  try_except
    (ceph_health_check 30 10 ;; ret tt)
    [CephHealthException]
    (fun ex =>
       let err := exn_msg ex in
       logger WARNING ("Ceph health check failed with " ++ err) ;;
       if Py.contains "clock skew detected" err then
         logger INFO ("Changing NTP on compute nodes to" ++ " " ++ RH_NTP_CLOCK K) ;;
         when (platform cfg =? constants.VSPHERE_PLATFORM)
              (call_unit "update_ntp_compute_nodes" []) ;;
         healthy <- ceph_health_check 60 10 ;;
         assert healthy
       else ret tt).

(** What [deploy_ocs] does once the probe found no cluster. *)
Definition install_ocs : M unit :=
  if external_mode cfg then
    logger INFO "Deploying OCS on external mode RHCS" ;;
    deploy_with_external_mode
  else
    deploy_ocs_via_operator ;;
    let ns := cluster_namespace cfg in
    ok <- OCP_wait_for_resource constants.POD ns "Running" "app=rook-ceph-mon"
            (Some 3) 600 ;;
    assert ok ;;
    ok <- OCP_wait_for_resource constants.POD ns "Running" "app=rook-ceph-mgr"
            None 600 ;;
    assert ok ;;
    ok <- OCP_wait_for_resource constants.POD ns "Running" "app=rook-ceph-osd"
            (Some 3) 600 ;;
    assert ok ;;
    call_unit "validate_cluster_on_pvc" [] ;;
    call_unit "validate_pdb_creation" [] ;;
    call_unit "setup_ceph_toolbox" [] ;;
    ok <- OCP_wait_for_resource constants.POD ns constants.STATUS_RUNNING
            "app=rook-ceph-tools" (Some 1) 600 ;;
    assert ok ;;
    cfs_data <- OCP_get constants.CEPHFILESYSTEM ns ;;
    cfs_name <- match cfs_data with
                | None => raise (Exn KeyError "'items'")
                | Some l => index l 0
                end ;;
    valid <- call_bool "helpers.validate_cephfilesystem" [cfs_name] ;;
    (if valid then
       logger INFO "MDS deployment is successful!" ;;
       set_CEPHFILESYSTEM_NAME cfs_name
     else
       logger ERROR "MDS deployment Failed! Please check logs!") ;;
    configure_monitoring ;;
    call_unit "registry.change_registry_backend_to_ocs" [] ;;
    verify_ceph_health ;;
    patch_default_sc_to_non_default.

(** [deploy_ocs]: the probe hands back [true] when the method returns
    from inside the [try] block. *)
Definition deploy_ocs : M unit :=
  exists_already <-
    try_except
      (probe_ceph_cluster ;;
       logger WARNING "OCS cluster already exists" ;;
       ret true)
      [IndexError; CommandFailed]
      (fun _ => logger INFO "Running OCS basic installation" ;; ret false) ;;
  if exists_already then ret tt else install_ocs.

(** *** [deploy_cluster] and [destroy_cluster] *)

Definition collect_ocs_logs (args : list string) : M unit :=
  call_unit "collect_ocs_logs" args.

(** The first block of [deploy_cluster], under
    [if not config.ENV_DATA["skip_ocp_deployment"]]. *)
Definition deploy_cluster_ocp (log_cli_level : string) : M unit :=
  when (negb (skip_ocp_deployment cfg))
    (running <- call_bool "is_cluster_running" [cluster_path cfg] ;;
     if running then
       logger WARNING "OCP cluster is already running, skipping installation"
     else
       try_except_Exception
         (deploy_ocp log_cli_level ;;
          post_ocp_deploy)
         (fun e =>
            set_is_ocp_deployment_failed true ;;
            logger ERROR (exn_msg e) ;;
            when (gather_on_deploy_failure cfg)
                 (collect_ocs_logs ["deployment"; kw "ocs" "False"]) ;;
            raise e)).

(** The body of the [try] of the second block. *)
Definition deploy_ocs_and_collect : M unit :=
  deploy_ocs ;;
  when (collect_logs_on_success_run cfg)
       (collect_ocs_logs ["deployment"; kw "ocp" "False";
                          kw "status_failure" "False"]).

(** The second block of [deploy_cluster], under
    [if not config.ENV_DATA["skip_ocs_deployment"]]. *)
Definition deploy_cluster_ocs : M unit :=
  if negb (skip_ocs_deployment cfg) then
    try_except_Exception
      deploy_ocs_and_collect
      (fun e =>
         logger ERROR (exn_msg e) ;;
         when (gather_on_deploy_failure cfg)
              (collect_ocs_logs ["deployment"; kw "ocs" "False"] ;;
               collect_ocs_logs ["deployment"; kw "ocp" "False"]) ;;
         raise e)
  else
    logger WARNING "OCS deployment will be skipped".

(** [deploy_cluster] *)
Definition deploy_cluster (log_cli_level : string) : M unit :=
  deploy_cluster_ocp log_cli_level ;;
  deploy_cluster_ocs.

(** [destroy_cluster] *)
Definition destroy_cluster (log_level : string) : M unit :=
  if platform cfg =? IBM_POWER_PLATFORM K then
    when (negb (skip_ocs_deployment cfg)) (call_unit "self.destroy_ocs" []) ;;
    when (negb (skip_ocp_deployment cfg))
         (logger INFO "Destroy of OCP not implemented yet.")
  else
    call_unit "OCPDeployment" [] ;;
    try_except_Exception
      (call_unit "uninstall_ocs" [] ;;
       logger INFO "OCS uninstalled succesfully")
      (fun ex =>
         logger ERROR ("Failed to uninstall OCS. Exception is: " ++ exn_msg ex) ;;
         logger INFO "resuming teardown") ;;
    call_unit "OCPDeployment.destroy" [log_level].

End Deployment.

(** ** Reading a run *)

Definition run {A : Type} (m : M A) (s : state) : state * (exn + A) := m s.

(** The entries a run adds to the journal. *)
Definition added {A : Type} (m : M A) (s : state) : journal :=
  skipn (length (st_journal s)) (st_journal (fst (m s))).

Definition outcome {A : Type} (m : M A) (s : state) : exn + A := snd (m s).

(** The name of the callee of a journal entry. *)
Definition callee (ev : event) : string :=
  match ev with
  | Log _ _ => "logger"
  | Sleep _ => "time.sleep"
  | DumpYaml _ _ => "templating.dump_data_to_temp_yaml"
  | Call fn _ => fn
  end.

Definition is_call (fn : string) (ev : event) : bool := callee ev =? fn.

(** How often [fn] was called in a journal. *)
Definition calls (fn : string) (j : journal) : nat :=
  length (filter (is_call fn) j).

(** [run_cmd("oc create ...")] *)
Definition is_create_call (ev : event) : bool :=
  match ev with
  | Call fn (cmd :: _) => (fn =? "run_cmd") && String.prefix "oc create" cmd
  | _ => false
  end.


Definition is_approval (ev : event) : bool := is_call "wait_for_install_plan_and_approve" ev.
Definition is_csv_poll (ev : event) : bool := is_call "CSV.wait_for_phase" ev.
Definition is_collection (ev : event) : bool := is_call "collect_ocs_logs" ev.
Definition is_remediation (ev : event) : bool := is_call "update_ntp_compute_nodes" ev.

(** The journal of [k] attempts of one call with a sleep in between. *)
Fixpoint attempts (ev : event) (delay : nat) (k : nat) : journal :=
  match k with
  | O => []
  | 1 => [ev]
  | S n => ev :: Sleep delay :: attempts ev delay n
  end.

(** Every collaborator answers every call, with the few answers the
    driver takes apart being well formed. *)
Definition cooperative (env : Env) : Prop :=
  (forall j ev, ans_unit env j ev = inr tt) /\
  (forall j ev, exists v, ans_bool env j ev = inr v) /\
  (forall j ev, exists v, ans_str env j ev = inr v) /\
  (forall j, exists v q, ans_str env j (Call "get_ocp_version" []) = inr v
                         /\ Py.float v = Some q) /\
  (forall j ev, exists x l, ans_strs env j ev = inr (x :: l)) /\
  (forall j ev, exists v, ans_subscription env j ev = inr v) /\
  (forall j ev, exists c d ds, ans_cluster env j ev = inr c
                               /\ sc_storageDeviceSets c = d :: ds).

(** ** Concrete runs *)

Module Demo.

Definition names : Names :=
  mkNames "/opt/ocs-ci" "powervs" "baremetal"
    "/opt/ocs-ci/ocs_ci/templates/ocs-deployment/ibm-storage-cluster.yaml"
    "/opt/ocs-ci/ocs_ci/templates/ocs-deployment/external-cluster-secret.yaml"
    "/opt/ocs-ci/ocs_ci/templates/ocs-deployment/external-storage-cluster.yaml"
    "clock1.rdu2.redhat.com"
    "openshift.io/node-selector="
    "ocs-operator" 512 "openshift-storage" "openshift-monitoring" "redhat-operators".

(** A converged deployment on [plat]; the remaining switches are given
    one by one. *)
Definition config (plat version : string) (encryption monitoring gather : bool)
    (approval : option string) : Config :=
  mkConfig plat "/clusters/c1" "openshift-storage" "ocs-storagecluster"
    true false 3 None version encryption monitoring monitoring None
    false false None false false false false false false
    approval None None None None
    gather false
    None
    (Some "localblock") None.

Definition template_cluster : StorageCluster :=
  mkStorageCluster "ocs-storagecluster" None None None None None None
    [mkDeviceSet 1 (Some true) "2Ti" (Some "gp2") None].

(** A scripted failure: the [n]-th call (from 0) of [fn] raises [e]. *)
Definition failure : Type := string * nat * exn.

Fixpoint scripted (fs : list failure) (fn : string) (n : nat) : option exn :=
  match fs with
  | [] => None
  | (f, k, e) :: rest =>
      if (f =? fn) && (k =? n)%nat then Some e else scripted rest fn n
  end.

Definition answer {A : Type} (fs : list failure) (v : event -> A)
    (j : journal) (ev : event) : exn + A :=
  match scripted fs (callee ev) (calls (callee ev) j) with
  | Some e => inl e
  | None => inr (v ev)
  end.

Definition answer_str (ev : event) : string :=
  match ev with
  | Call fn args =>
      if fn =? "get_ocp_version" then "4.6"
      else if fn =? "tempfile.NamedTemporaryFile"
      then "/tmp/" ++ substring 7 64 (nth 1 args "") ++ "k3xw0a"
      else if fn =? "get_selector_for_ocs_operator" then "ocs-operator-internal=true"
      else if fn =? "PackageManifest.get_default_channel" then "stable-4.6"
      else if fn =? "PackageManifest.get_current_csv" then "ocs-operator.v4.6.0"
      else if fn =? "helpers.default_storage_class" then "ocs-storagecluster-ceph-rbd"
      else ""
  | _ => ""
  end.

Definition answer_strs (ev : event) : list string :=
  if is_call "get_all_pods" ev then ["prometheus-k8s-0"; "alertmanager-main-0"]
  else ["100Gi"].

(** What [OCP.get] finds: [clusters] for the kind CephCluster, one
    file system for any other kind. *)
Definition answer_items (clusters : option (list string)) (ev : event)
    : option (list string) :=
  match ev with
  | Call _ (k :: _) =>
      if k =? "kind=CephCluster" then clusters
      else Some ["ocs-storagecluster-cephfilesystem"]
  | _ => Some []
  end.

(** The environment in which everything works, apart from the scripted
    failures [fs]. *)
Definition environment (fs : list failure) (clusters : option (list string)) : Env :=
  mkEnv (answer fs (fun _ => tt))
        (answer fs (fun _ => true))
        (answer fs answer_str)
        (answer fs answer_strs)
        (answer fs (answer_items clusters))
        (answer fs (fun _ => mkSubscription None None None))
        (answer fs (fun _ => template_cluster))
        (answer fs (fun _ => mkSecret None)).

Definition start : state := initial_state (Some "gp2").

End Demo.

(** ** Properties of computations *)

(** Every run of [m] adds to the journal only entries satisfying [P]. *)
Definition emits {A : Type} (P : event -> bool) (m : M A) : Prop :=
  forall s, exists l,
    st_journal (fst (m s)) = (st_journal s ++ l)%list /\ forallb P l = true.

(** A run of [m] never returns normally. *)
Definition fails {A : Type} (m : M A) : Prop :=
  forall s, exists e, snd (m s) = inl e.

(** A run of [m] always returns normally. *)
Definition succeeds {A : Type} (m : M A) : Prop :=
  forall s, exists a, snd (m s) = inr a.

(** Whatever [m] returns satisfies [R]. *)
Definition yields {A : Type} (R : A -> Prop) (m : M A) : Prop :=
  forall s a, snd (m s) = inr a -> R a.

(** Every run of [m] raises [e]. *)
Definition raises {A : Type} (e : exn) (m : M A) : Prop :=
  forall s, snd (m s) = inl e.

(** ** Properties of the specification that the code does not meet, as they are worded *)

(** C2 as worded, for a run of the health block whose first check fails
    with a clock-skew message and whose recheck succeeds: exactly one
    remediation action, then the recheck with 60 tries, and success. *)
Definition stated_C2 (K : Names) (cfg : Config) (env : Env) (s : state) : Prop :=
  calls "update_ntp_compute_nodes" (added (verify_ceph_health K cfg env) s) = 1
  /\ In (Call "ceph_health_check"
              [kw "namespace" (cluster_namespace cfg); kw "tries" "60"; kw "delay" "10"])
        (added (verify_ceph_health K cfg env) s)
  /\ outcome (verify_ceph_health K cfg env) s = inr tt.

(** C4 as worded, for the storage phase: whenever [deploy_ocs] raises,
    the collection of diagnostics is called and the exception raised by
    [deploy_cluster] is the original one. *)
Definition stated_C4 (K : Names) (cfg : Config) (env : Env) (class_name : string)
    (s : state) : Prop :=
  forall s1 s2 e,
    deploy_cluster_ocp cfg env "DEBUG" s = (s1, inr tt) ->
    deploy_ocs_and_collect K cfg env class_name s1 = (s2, inl e) ->
    existsb is_collection (added (deploy_cluster K cfg env class_name "DEBUG") s) = true
    /\ outcome (deploy_cluster K cfg env class_name "DEBUG") s = inl e.

(** C8 as worded, for a resource with one of the two default names: the
    call returns true, and nothing is fetched. *)
Definition stated_C8 (env : Env) (resource : Resource) (condition : string)
    (timeout : nat) (s : state) : Prop :=
  outcome (wait_for_resource_state env resource condition timeout) s = inr (PyBool true)
  /\ calls "resource.ocp.wait_for_resource"
           (added (wait_for_resource_state env resource condition timeout) s) = 0.

(** An entry that leaves the platform alone: neither the installer nor
    the uninstall of the storage layer. *)
Definition infrastructure_untouched (ev : event) : bool :=
  negb (is_call "OCPDeployment" ev) && negb (is_call "OCPDeployment.destroy" ev)
  && negb (is_call "uninstall_ocs" ev).

(** C7 as worded, for a run of [destroy_cluster] on IBM Power: the run
    does not end silently; it says that the teardown of the cluster is
    not implemented, in the log or with an exception. *)
Definition stated_C7 (K : Names) (cfg : Config) (env : Env) (log_level : string)
    (s : state) : Prop :=
  (exists lvl msg, In (Log lvl msg) (added (destroy_cluster K cfg env log_level) s))
  \/ (exists e, outcome (destroy_cluster K cfg env log_level) s = inl e).

(** The two names [wait_for_resource_state] does not wait for. *)
Definition default_class_name (name : string) : Prop :=
  name = constants.DEFAULT_STORAGECLASS_CEPHFS
  \/ name = constants.DEFAULT_STORAGECLASS_RBD.

(** The journal entry of [ceph_health_check(namespace, tries, delay=10)]. *)
Definition health_check_call (cfg : Config) (tries : nat) : event :=
  Call "ceph_health_check"
       [kw "namespace" (cluster_namespace cfg); kw "tries" (repr_nat tries);
        kw "delay" (repr_nat 10)].

(** The entries that open the health block when the first check fails
    with the text [err]. *)
Definition health_failure_entries (K : Names) (cfg : Config) (err : string)
    : journal :=
  [Log INFO "Done creating rook resources, waiting for HEALTH_OK";
   health_check_call cfg 30;
   Log WARNING ("Ceph health check failed with " ++ err)].

(** The remediation of a clock skew: the NTP servers of the compute
    nodes are changed on vSphere, and nowhere else. *)
Definition remediation_entries (cfg : Config) : journal :=
  if platform cfg =? constants.VSPHERE_PLATFORM
  then [Call "update_ntp_compute_nodes" []]
  else [].

(** The calls of [collect_ocs_logs] made when a phase failed. *)
Definition collect_ocp_logs_call : event :=
  Call "collect_ocs_logs" ["deployment"; kw "ocs" "False"].
Definition collect_ocs_logs_call : event :=
  Call "collect_ocs_logs" ["deployment"; kw "ocp" "False"].

(** Whatever [m] does, it returns normally, with a value satisfying [R]. *)
Definition returns {A : Type} (R : A -> Prop) (m : M A) : Prop :=
  forall s, exists a, snd (m s) = inr a /\ R a.

Definition not_create_call (ev : event) : bool := negb (is_create_call ev).
Definition not_approval (ev : event) : bool := negb (is_approval ev).

Definition encryption_error : exn :=
  Exn UnsupportedFeatureError "Encryption at REST can be enabled only on OCS >= 4.6!".

(** A StorageCluster manifest being written. *)
Definition is_cluster_manifest (ev : event) : bool :=
  match ev with
  | DumpYaml (StorageClusterDoc _) _ => true
  | _ => false
  end.

Definition no_cluster_manifest (ev : event) : bool := negb (is_cluster_manifest ev).

(** [run_cmd("oc create -f " + path, ...)] *)
Definition creates (path : string) (ev : event) : bool :=
  match ev with
  | Call fn (cmd :: _) => (fn =? "run_cmd") && (cmd =? "oc create -f " ++ path)
  | _ => false
  end.

(** The journal shows a StorageCluster submitted to the cluster: its
    manifest was written to a file, and a later command creates the
    objects of that file. *)
Fixpoint submitted (j : journal) : bool :=
  match j with
  | [] => false
  | DumpYaml (StorageClusterDoc _) path :: rest =>
      existsb (creates path) rest || submitted rest
  | _ :: rest => submitted rest
  end.

(** C3 as worded, for a run of [deploy_ocs_via_operator] with encryption
    at rest requested on a version below 4.6: UnsupportedFeatureError is
    raised, and no create call was issued before. *)
Definition stated_C3 (K : Names) (cfg : Config) (env : Env) (s : state) : Prop :=
  outcome (deploy_ocs_via_operator K cfg env) s = inl encryption_error
  /\ forallb not_create_call (added (deploy_ocs_via_operator K cfg env) s) = true.

(** ** The order of the operator installation

    How far the subscription has come, read off a journal. *)
Inductive sub_phase : Type :=
| NotSubscribed
| ManifestWritten      (* the Subscription manifest was written *)
| SubscriptionCreated  (* ... and a create command was run after it *)
| PlanApproved.        (* ... and the install plan was approved after that *)

Definition is_subscription_manifest (ev : event) : bool :=
  match ev with
  | DumpYaml (SubscriptionDoc _) _ => true
  | _ => false
  end.

(** One entry more.  A CSV poll is in order only once the plan is
    approved, an approval only once the subscription is created. *)
Definition advance (q : sub_phase) (ev : event) : option sub_phase :=
  if is_csv_poll ev then
    match q with PlanApproved => Some q | _ => None end
  else if is_approval ev then
    match q with
    | SubscriptionCreated | PlanApproved => Some PlanApproved
    | _ => None
    end
  else
    match q with
    | NotSubscribed => if is_subscription_manifest ev then Some ManifestWritten else Some q
    | ManifestWritten => if is_create_call ev then Some SubscriptionCreated else Some q
    | _ => Some q
    end.

Fixpoint scan (q : sub_phase) (j : journal) : option sub_phase :=
  match j with
  | [] => Some q
  | ev :: rest =>
      match advance q ev with
      | Some q' => scan q' rest
      | None => None
      end
  end.

(** Started in phase [q], every run of [m] writes a journal that is in
    order, and leaves phase [q'] when it returns normally. *)
Definition tracks {A : Type} (q : sub_phase) (m : M A) (q' : sub_phase) : Prop :=
  forall s, exists l qe,
    st_journal (fst (m s)) = (st_journal s ++ l)%list
    /\ scan q l = Some qe
    /\ (forall a, snd (m s) = inr a -> qe = q').

Definition anything (ev : event) : bool := true.

(** ** The validations of the monitoring stack *)

Definition respin_validation : string := "validate_pods_are_respinned_and_running_state".
Definition bound_validation : string := "validate_pvc_created_and_bound_on_monitoring_pods".
Definition mounted_validation : string := "validate_pvc_are_mounted_on_monitoring_pods".

(** An answer on which [retry] tries again: an exception of one of its
    classes. *)
Definition retried {X : Type} (classes : list exn_class) (r : exn + X) : bool :=
  match r with
  | inl e => isinstance e classes
  | inr _ => false
  end.

(** The journal of [k] failed attempts of one call, each followed by
    the sleep. *)
Fixpoint failed_attempts (ev : event) (delay : nat) (k : nat) : journal :=
  match k with
  | O => []
  | S n => ev :: Sleep delay :: failed_attempts ev delay n
  end.

(** The number of attempts of the call [ev] that the answers allow,
    from the journal [j] on, when [more] attempts may follow the first
    one: the first attempt, and the further ones when it is answered by
    an exception of the classes. *)
Fixpoint attempts_from {X : Type} (answer : journal -> event -> exn + X)
    (classes : list exn_class) (more delay : nat) (j : journal) (ev : event) : nat :=
  match more with
  | O => 1
  | S n =>
      if retried classes (answer j ev)
      then S (attempts_from answer classes n delay (j ++ [ev; Sleep delay])%list ev)
      else 1
  end.

Definition attempts_made {X : Type} (answer : journal -> event -> exn + X)
    (classes : list exn_class) (tries delay : nat) (j : journal) (ev : event) : nat :=
  attempts_from answer classes (tries - 1) delay j ev.

(** [k] attempts of the call [ev], from the journal [j] on, are those
    of a call retried on [classes] with [tries] attempts and a sleep of
    [delay] seconds in between: there is at least one attempt and at
    most [tries]; every attempt before the last was answered by an
    exception of the classes; and the last one is the [tries]-th, or was
    answered otherwise. *)
Definition retry_law {X : Type} (answer : journal -> event -> exn + X)
    (classes : list exn_class) (tries delay : nat) (j : journal) (ev : event)
    (k : nat) : Prop :=
  1 <= k <= tries
  /\ (forall i, i < k - 1 ->
        retried classes (answer (j ++ failed_attempts ev delay i)%list ev) = true)
  /\ (k < tries ->
        retried classes (answer (j ++ failed_attempts ev delay (k - 1))%list ev) = false).

(** The calls that reconfigure the monitoring stack. *)
Definition default_class_call : event :=
  Call "helpers.default_storage_class" [kw "interface_type" constants.CEPHBLOCKPOOL].
Definition monitoring_pods_call (K : Names) : event :=
  Call "get_all_pods" [kw "namespace" (OCS_MONITORING_NAMESPACE K);
                       kw "selector" "['prometheus', 'alertmanager']"].
Definition configmap_call (cfg : Config) (sc_name : string) : event :=
  Call "create_configmap_cluster_monitoring_pod"
       [kw "sc_name" sc_name;
        kw "telemeter_server_url" (repr_opt (telemeter_server_url cfg))].

(** The reconfiguration of the monitoring stack and the settle delay
    that precede the validations. *)
Definition monitoring_settled (K : Names) (cfg : Config) (sc_name : string) : journal :=
  [default_class_call; monitoring_pods_call K; configmap_call cfg sc_name;
   Log INFO "Waiting 45 seconds..."; Sleep 45].

(** C9 as worded, for a run in which the second validation fails at
    every attempt: being retried with 3 attempts, it is called 3 times. *)
Definition stated_C9 (K : Names) (cfg : Config) (env : Env) (s : state) : Prop :=
  calls bound_validation (added (configure_monitoring K cfg env) s) = 3.

(** ** The installation after the probe *)

(** Every run of [m] begins with the entry [ev]. *)
Definition begins {A : Type} (ev : event) (m : M A) : Prop :=
  forall s, exists rest, st_journal (fst (m s)) = (st_journal s ++ ev :: rest)%list.

(** The probe of [deploy_ocs] for an existing cluster. *)
Definition ceph_cluster_probe (cfg : Config) : event :=
  Call "OCP.get" [kw "kind" "CephCluster"; kw "namespace" (cluster_namespace cfg)].

(** The first entry of an installation: the announcement of the
    external mode; or else the set-up of the local storage, when it is
    requested; or else, in a UI deployment, the operator source (unless
    the deployment is live) or the announcement of the console; or else
    the announcement of the deployment via the operator. *)
Definition first_installation_entry (cfg : Config) : event :=
  if external_mode cfg then Log INFO "Deploying OCS on external mode RHCS"
  else if local_storage cfg then
    Call "setup_local_storage"
         [kw "storageclass" (repr_opt (DEFAULT_STORAGECLASS_LSO cfg))]
  else if ui_deployment cfg then
    if live_deployment cfg
    then Log INFO "Deployment of OCS will be done by openshift-console"
    else if stage cfg then Call "self.create_stage_operator_source" []
         else Call "create_catalog_source" []
  else Log INFO "Deployment of OCS via OCS operator".

(** The wait for the three mon pods that follows the installation via
    the operator. *)
Definition mon_pods_wait (cfg : Config) : event :=
  Call "OCP.wait_for_resource"
       [kw "kind" constants.POD; kw "namespace" (cluster_namespace cfg);
        kw "condition" "Running"; kw "selector" "app=rook-ceph-mon";
        kw "resource_count" (repr_nat 3); kw "timeout" (repr_nat 600)].

(** ** Scenarios *)

Module Scenario.

Import Demo.

(** AWS, OCS 4.6, nothing special. *)
Definition aws : Config := config "aws" "4.6" false false true None.

(** vSphere, OCS 4.6. *)
Definition vsphere : Config := config "vsphere" "4.6" false false true None.

(** AWS, OCS 4.5, encryption at rest requested. *)
Definition encrypted_4_5 : Config := config "aws" "4.5" true false true None.

(** AWS, encryption at rest requested, and an OCS version written with
    so many digits that its float is the float 4.6. *)
Definition encrypted_4_6_rounded : Config :=
  config "aws" "4.59999999999999999" true false true None.

(** AWS, manual approval of install plans. *)
Definition manual : Config := config "aws" "4.6" false false true (Some "Manual").

(** AWS, persistent monitoring. *)
Definition monitored : Config := config "aws" "4.6" false true true None.

(** AWS, no collection of logs on failure. *)
Definition no_gather : Config := config "aws" "4.6" false false false None.

(** IBM Power. *)
Definition power : Config :=
  mkConfig "powervs" "/clusters/c1" "openshift-storage" "ocs-storagecluster"
    false false 3 None "4.6" false false false None
    false false None true false false false false false
    None None None None None
    true false None (Some "localblock") None.

(** IBM Power, on a cluster whose OCP was not deployed by this run
    ([skip_ocp_deployment]). *)
Definition power_on_existing_ocp : Config :=
  mkConfig "powervs" "/clusters/c1" "openshift-storage" "ocs-storagecluster"
    true false 3 None "4.6" false false false None
    false false None true false false false false false
    None None None None None
    true false None (Some "localblock") None.

(** IBM Power, with both deployments skipped. *)
Definition power_all_skipped : Config :=
  mkConfig "powervs" "/clusters/c1" "openshift-storage" "ocs-storagecluster"
    true true 3 None "4.6" false false false None
    false false None true false false false false false
    None None None None None
    true false None (Some "localblock") None.

Definition unhealthy : exn := Exn CephHealthException "HEALTH_ERR 1 osds down".
Definition skewed : exn :=
  Exn CephHealthException "HEALTH_WARN clock skew detected on mon.b, mon.c".
Definition no_workers : exn := Exn UnavailableResourceException "No worker node found!".
Definition not_bound : exn := Exn CommandFailed "pvc is not bound".
Definition uninstall_failed : exn := Exn CommandFailed "storagecluster not found".

(** No cluster yet; the first health check fails for another reason
    than a clock skew. *)
Definition env_unhealthy : Env := environment [("ceph_health_check", 0, unhealthy)] (Some []).

(** No cluster yet; the first health check reports a clock skew. *)
Definition env_skewed : Env := environment [("ceph_health_check", 0, skewed)] (Some []).

(** No cluster yet; everything works. *)
Definition env_fine : Env := environment [] (Some []).

(** A CephCluster is there already. *)
Definition env_installed : Env :=
  environment [] (Some ["ocs-storagecluster-cephcluster"]).

(** The query for CephCluster objects fails. *)
Definition env_unknown_kind : Env :=
  environment [("OCP.get", 0, Exn CommandFailed "the server doesn't have a resource type")]
              (Some []).

(** The labelling of the worker nodes fails. *)
Definition env_no_workers : Env :=
  environment [("self.label_and_taint_nodes", 0, no_workers)] (Some []).

(** The second validation of the monitoring stack fails whenever it is
    called. *)
Definition env_never_bound : Env :=
  environment [(bound_validation, 0, not_bound); (bound_validation, 1, not_bound);
               (bound_validation, 2, not_bound)] (Some []).

(** The respin validation fails twice, the mount validation once. *)
Definition env_slow_respin : Env :=
  environment [(respin_validation, 0, Exn CommandFailed "pods not running");
               (respin_validation, 1, Exn ResourceWrongStatusException "Pending");
               (mounted_validation, 0, Exn AssertionError "not mounted")] (Some []).

(** The uninstall of the storage layer fails. *)
Definition env_uninstall_fails : Env :=
  environment [("uninstall_ocs", 0, uninstall_failed)] (Some []).

Definition cephfs_class : Resource :=
  mkResource "StorageClass" constants.DEFAULT_STORAGECLASS_CEPHFS.

Definition some_pvc : Resource := mkResource "PersistentVolumeClaim" "pvc-test-1".

End Scenario.

(** What [destroy_cluster] logs after [uninstall_ocs], by its outcome. *)
Definition uninstall_entries (r : exn + unit) : journal :=
  match r with
  | inl ex => [Log ERROR ("Failed to uninstall OCS. Exception is: " ++ exn_msg ex);
               Log INFO "resuming teardown"]
  | inr _ => [Log INFO "OCS uninstalled succesfully"]
  end.

(** * Further behaviour of the driver and of the helpers *)

From Stdlib Require Import Permutation FunInd Recdef.

(** ** Predicates on journal entries *)

(** The entries of a deployment through the console: the preparation of
    local storage, the operator source, the console itself, the log. *)
Definition console_entry (ev : event) : bool :=
  is_call "logger" ev || is_call "setup_local_storage" ev
  || is_call "self.create_stage_operator_source" ev
  || is_call "create_catalog_source" ev
  || is_call "OpenshiftConsole" ev
  || is_call "OpenshiftConsole.run_openshift_console" ev.

(** What [deploy_ocs_via_operator] calls in a deployment through the
    console, in this order: the set-up of local storage when it is
    requested, the creation of the operator source unless the deployment
    is a live one, and the console. *)
Definition console_calls (cfg : Config) : journal :=
  ((if local_storage cfg
    then [Call "setup_local_storage"
               [kw "storageclass" (repr_opt (DEFAULT_STORAGECLASS_LSO cfg))]]
    else [])
   ++ (if live_deployment cfg then []
       else [if stage cfg then Call "self.create_stage_operator_source" []
             else Call "create_catalog_source" []])
   ++ [Log INFO "Deployment of OCS will be done by openshift-console";
       Call "OpenshiftConsole"
            [match deployment_browser cfg with
             | Some b => b
             | None => constants.CHROME_BROWSER
             end];
       Call "OpenshiftConsole.run_openshift_console"
            [kw "suite" "ceph-storage-install";
             kw "env_vars" (kw "OCS_LIVE" (if live_deployment cfg then "1" else "0"));
             kw "log_suffix" "ui-deployment"]])%list.

(** An entry that belongs to the supervision of a converged cluster:
    the waits for the ceph pods, the validations, the toolbox of the
    converged path, the registry, the health check with its recheck. *)
Definition converged_check (ev : event) : bool :=
  is_call "OCP.wait_for_resource" ev || is_call "validate_cluster_on_pvc" ev
  || is_call "validate_pdb_creation" ev || is_call "helpers.validate_cephfilesystem" ev
  || is_call "registry.change_registry_backend_to_ocs" ev
  || is_call "ceph_health_check" ev || is_call "update_ntp_compute_nodes" ev.

Definition no_converged_check (ev : event) : bool := negb (converged_check ev).

(** A manifest of a Secret or of a StorageCluster being written. *)
Definition is_secret_or_cluster_manifest (ev : event) : bool :=
  match ev with
  | DumpYaml (SecretDoc _) _ => true
  | DumpYaml (StorageClusterDoc _) _ => true
  | _ => false
  end.

Definition no_secret_or_cluster_manifest (ev : event) : bool :=
  negb (is_secret_or_cluster_manifest ev).

Definition missing_details : exn :=
  Exn ExternalClusterDetailsException "No external cluster data found".


(** The call of [collect_ocs_logs] after a successful storage phase. *)
Definition collect_success_call : event :=
  Call "collect_ocs_logs" ["deployment"; kw "ocp" "False"; kw "status_failure" "False"].

(** Every run of [m] leaves the attribute [f] of the state as it was. *)
Definition keeps {A X : Type} (f : state -> X) (m : M A) : Prop :=
  forall s, f (fst (m s)) = f s.

Definition option_string_eqb (a b : option string) : bool :=
  match a, b with
  | Some x, Some y => x =? y
  | None, None => true
  | _, _ => false
  end.

(** The only exceptions a run of [m] raises are those satisfying [P]. *)
Definition throws_only {A : Type} (P : exn -> Prop) (m : M A) : Prop :=
  forall s e, snd (m s) = inl e -> P e.

(** ** Entries of a journal in a given order *)

(** What is still looked for, of the entries satisfying [ps] one after
    the other, once the journal [j] has been read. *)
Fixpoint remaining (ps : list (event -> bool)) (j : journal) : list (event -> bool) :=
  match j with
  | [] => ps
  | ev :: rest =>
      match ps with
      | [] => []
      | p :: ps' => if p ev then remaining ps' rest else remaining ps rest
      end
  end.

(** The journal has entries that satisfy [ps], in this order. *)
Definition in_order (ps : list (event -> bool)) (j : journal) : bool :=
  match remaining ps j with
  | [] => true
  | _ :: _ => false
  end.

(** Every run of [m] adds entries to the journal that take what is
    looked for from [ps] to [ps']. *)
Definition advances {A : Type} (ps : list (event -> bool)) (m : M A)
    (ps' : list (event -> bool)) : Prop :=
  forall s, exists l,
    st_journal (fst (m s)) = (st_journal s ++ l)%list /\ remaining ps l = ps'.

(** The operator subscribed and awaited: the Subscription manifest
    written, a create command run, the phase of the CSV polled. *)
Definition subscribed_and_awaited : list (event -> bool) :=
  [is_subscription_manifest; is_create_call; is_csv_poll].

(** [assert v, msg]. *)
Definition assert_msg (v : bool) (msg : string) : M unit :=
  if v then ret tt else raise (Exn AssertionError msg).

(** [[x for x in l if p x]] where the test may raise. *)
Fixpoint filter_m {A : Type} (p : A -> M bool) (l : list A) : M (list A) :=
  match l with
  | [] => ret []
  | x :: rest =>
      keep <- p x ;;
      rest' <- filter_m p rest ;;
      ret (if keep then x :: rest' else rest')
  end.

(** ** Python strings and lists, continued *)

Module PyText.

(** [s.split(sep)] for a separator of one character. *)
Fixpoint split (sep : ascii) (s : string) : list string :=
  match s with
  | EmptyString => [EmptyString]
  | String c rest =>
      if Ascii.eqb c sep then EmptyString :: split sep rest
      else match split sep rest with
           | [] => [String c EmptyString]
           | part :: parts => String c part :: parts
           end
  end.

(** [sep.join(l)] *)
Fixpoint join (sep : string) (l : list string) : string :=
  match l with
  | [] => EmptyString
  | [x] => x
  | x :: rest => x ++ sep ++ join sep rest
  end.

(** [l[:n]] for an [int] [n]: a negative [n] counts from the end. *)
Definition slice_to {A : Type} (l : list A) (n : Z) : list A :=
  if (n <? 0)%Z then firstn (length l - Z.to_nat (- n)) l
  else firstn (Z.to_nat n) l.

Definition newline : ascii := ascii_of_nat 10.

(** [c not in s] for a character. *)
Fixpoint lacks (c : ascii) (s : string) : bool :=
  match s with
  | EmptyString => true
  | String d rest => negb (Ascii.eqb d c) && lacks c rest
  end.

End PyText.

(** ** [ocs_ci/ocs/constants.py], further names *)

Definition ROOT_DISK_NAME : string := "sda".
Definition OPERATOR_NODE_LABEL : string := "cluster.ocs.openshift.io/openshift-storage=''".
Definition OPERATOR_NODE_TAINT : string := "node.ocs.openshift.io/storage=true:NoSchedule".
Definition PV : string := "PersistentVolume".

(** ** [deployment.py]: the device paths of local storage *)

Section DevicePaths.

Variable K : Names.
Variable cfg : Config.
Variable env : Env.
(** [config.ENV_DATA.get("disk_pattern")] *)
Variable disk_pattern : option string.
(** The default [tries], [delay] and [backoff] of the [retry] decorator,
    which [_get_disk_by_id] is wrapped with and which are fixed in
    [ocs_ci/utility/retry.py]. *)
Variables retry_tries retry_delay retry_backoff : nat.

(** [_get_disk_by_id(worker)] *)
Definition _get_disk_by_id (worker : string) : M string :=
  retry [CommandFailed] retry_tries retry_delay retry_backoff
    (run_cmd env ("oc debug nodes/" ++ worker ++ " "
                  ++ "-- chroot /host ls -la /dev/disk/by-id/") None).

(** [pattern in text], where [pattern] may be [None]. *)
Definition str_in (pattern : option string) (text : string) : M bool :=
  match pattern with
  | Some p => ret (Py.contains p text)
  | None =>
      raise (Exn TypeError "'in <string>' requires string as left operand, not NoneType")
  end.

(** [str(e)] of an exception built from two arguments is the text of
    the pair. *)
Definition unsupported_platform (platform : string) : exn :=
  Exn UnsupportedPlatformError
      ("('LSO deployment is not supported for platform: %s', '" ++ platform ++ "')").

(** The chain of [if]/[elif] that chooses the pattern. *)
Definition device_pattern (platform : string) : M (option string) :=
  if platform =? "aws" then ret (Some "nvme-Amazon_EC2_NVMe_Instance_Storage")
  else if platform =? "vsphere" then ret (Some "wwn")
  else if platform =? "baremetal" then ret disk_pattern
  else if platform =? "baremetalpsi" then ret (Some "virtio")
  else raise (unsupported_platform platform).

(** The body of the loop over [nvme_lines]. *)
Definition add_device_path (pattern : option string) (nvme_line : string)
    (device_paths : list string) : M (list string) :=
  parts <- filter_m (str_in pattern) (PyText.split " " nvme_line) ;;
  device_path <- index parts 0 ;;
  logger INFO ("Adding " ++ device_path ++ " to device paths") ;;
  ret (device_paths ++ [("/dev/disk/by-id/" ++ device_path)%string])%list.

(** [pattern in line and constants.ROOT_DISK_NAME not in line] *)
Definition is_device_line (pattern : option string) (line : string) : M bool :=
  found <- str_in pattern line ;;
  if found then ret (negb (Py.contains ROOT_DISK_NAME line)) else ret false.

(** The body of the loop over [worker_names]. *)
Definition add_worker_paths (pattern : option string) (worker : string)
    (device_paths : list string) : M (list string) :=
  logger INFO ("Retrieving device path for node: " ++ worker) ;;
  out <- _get_disk_by_id worker ;;
  let out_lines := PyText.split PyText.newline out in
  nvme_lines <- filter_m (is_device_line pattern) out_lines ;;
  for_each nvme_lines (add_device_path pattern) device_paths.

(** [get_device_paths(worker_names)] *)
Definition get_device_paths (worker_names : list string) : M (list string) :=
  let platform := Py.lower (platform cfg) in
  if platform =? IBM_POWER_PLATFORM K then
    match disk_pattern with
    | Some p => ret [Py.lower p]
    | None =>
        raise (Exn (OtherException "AttributeError")
                   "'NoneType' object has no attribute 'lower'")
    end
  else
    pattern <- device_pattern platform ;;
    for_each worker_names (add_worker_paths pattern) [].

End DevicePaths.

(** The platforms for which [get_device_paths] has a pattern of its own. *)
Definition builtin_pattern_platform (platform : string) : bool :=
  (platform =? "aws") || (platform =? "vsphere") || (platform =? "baremetalpsi").

(** The platforms [get_device_paths] knows. *)
Definition lso_platform (K : Names) (platform : string) : bool :=
  (platform =? IBM_POWER_PLATFORM K) || builtin_pattern_platform platform
  || (platform =? "baremetal").

(** A device path as [get_device_paths] builds it from a part of a line
    of the listing. *)
Definition by_id_path (pattern : string) (path : string) : Prop :=
  exists part,
    path = "/dev/disk/by-id/" ++ part
    /\ Py.contains pattern part = true
    /\ PyText.lacks " " part = true.

Definition is_run_cmd (ev : event) : bool := is_call "run_cmd" ev.

(** ** [deployment.py]: [label_and_taint_nodes]

    In the driver above the call of this method is an entry of the
    journal that the environment answers; here its body is modelled on
    its own. *)

(** A node as [oc get node] describes it: [metadata.name] and
    [metadata.labels]. *)
Record Node : Type := mkNode {
  node_name : string;
  node_labels : list (string * string)
}.

(** [key in labels] and [labels.get(key)] *)
Definition has_label (key : string) (node : Node) : bool :=
  existsb (fun kv => fst kv =? key) (node_labels node).

Fixpoint label_get (key : string) (labels : list (string * string)) : option string :=
  match labels with
  | [] => None
  | (k, v) :: rest => if k =? key then Some v else label_get key rest
  end.

(** The dict [az_worker_nodes]: from a zone, or [None], to the workers
    of the zone, in the order in which the zones were met. *)
Definition zones : Type := list (option string * list Node).

Fixpoint zone_get (az : option string) (d : zones) : option (list Node) :=
  match d with
  | [] => None
  | (k, v) :: rest => if option_string_eqb k az then Some v else zone_get az rest
  end.

Fixpoint zone_set (az : option string) (v : list Node) (d : zones) : zones :=
  match d with
  | [] => [(az, v)]
  | (k, w) :: rest =>
      if option_string_eqb k az then (k, v) :: rest else (k, w) :: zone_set az v rest
  end.

Fixpoint zone_del (az : option string) (d : zones) : zones :=
  match d with
  | [] => []
  | (k, w) :: rest =>
      if option_string_eqb k az then rest else (k, w) :: zone_del az rest
  end.

Definition zone_of (node : Node) : option string :=
  label_get "failure-domain.beta.kubernetes.io/zone" (node_labels node).

(** The loop that fills [az_worker_nodes]. *)
Definition group_by_zone (worker_nodes : list Node) : zones :=
  fold_left
    (fun d node =>
       let az := zone_of node in
       let az_node_list := match zone_get az d with Some l => l | None => [] end in
       zone_set az (az_node_list ++ [node])%list d)
    worker_nodes [].

(** One pass of [for az in list(az_worker_nodes.keys())]: the first
    worker of each zone that still has one is taken, a zone without
    workers is deleted.  [inl az] stands for the [KeyError] of the [del]
    of a key [az] that is not there. *)
Fixpoint take_round (keys : list (option string)) (d : zones) (taken : list string)
    : option string + zones * list string :=
  match keys with
  | [] => inr (d, taken)
  | az :: rest =>
      match zone_get az d with
      | Some (node :: az_node_list) =>
          take_round rest (zone_set az az_node_list d) (taken ++ [node_name node])%list
      | Some [] => take_round rest (zone_del az d) taken
      | None => inl az
      end
  end.

(** Workers and zones left in the dict: each pass over a dict that is
    not empty makes this number smaller. *)
Definition zones_size (d : zones) : nat :=
  fold_right (fun kv n => S (length (snd kv) + n)) 0 d.

(** [while az_worker_nodes: ...]: pass after pass until the dict is
    empty.  The recursion is on the size of the dict: a pass that raises
    no [KeyError] takes a worker or deletes a zone for each key of the
    dict, and a dict that is not empty has a key. *)
Function take_rounds (d : zones) (taken : list string) {measure zones_size d}
    : option string + list string :=
  match d with
  | [] => inr taken
  | _ :: _ =>
      match take_round (map fst d) d taken with
      | inr (d', taken') => take_rounds d' taken'
      | inl az => inl az
      end
  end.
Proof.
  intros d taken kv rest Ed p d' taken' Ep E.
  assert (smaller : forall keys d0 t0,
             take_round keys d0 t0 = inr (d', taken') ->
             zones_size d' + length keys = zones_size d0).
  { clear. induction keys as [| az keys IH]; intros d0 t0 E; simpl in E.
    - injection E as <- _. simpl. lia.
    - destruct (zone_get az d0) as [[| node tl] |] eqn:G; [| | discriminate].
      + apply IH in E. simpl.
        assert (H : zones_size (zone_del az d0) + 1 = zones_size d0).
        { clear E IH. induction d0 as [| [k v] r IHd]; [discriminate |].
          simpl in G |- *. destruct (option_string_eqb k az).
          - injection G as ->. simpl. lia.
          - simpl. specialize (IHd G). lia. }
        lia.
      + apply IH in E. simpl.
        assert (H : zones_size (zone_set az tl d0) + 1 = zones_size d0).
        { clear E IH. induction d0 as [| [k v] r IHd]; [discriminate |].
          simpl in G |- *. destruct (option_string_eqb k az).
          - injection G as ->. simpl. lia.
          - simpl. specialize (IHd G). lia. }
        lia. }
  apply smaller in E. simpl length in E. lia.
Defined.

(** [distributed_worker_nodes] *)
Definition distribute (d : zones) : option string + list string :=
  take_rounds d [].

(** [KeyError(az)] *)
Definition key_error (az : option string) : exn :=
  Exn KeyError match az with
               | Some z => "'" ++ z ++ "'"
               | None => "None"
               end.

Definition zone_names (d : zones) : list string :=
  flat_map (fun kv => map node_name (snd kv)) d.

Section LabelAndTaint.

Variable cfg : Config.
Variable env : Env.
(** [ocp.OCP(kind="node").get()]: what is under ["items"], if the key is
    there. *)
Variable ans_nodes : journal -> event -> exn + option (list Node).
(** [config.DEPLOYMENT.get("ocs_operator_nodes_to_label", 3)] and
    [config.DEPLOYMENT.get("ocs_operator_nodes_to_taint", 0)] *)
Variables to_label to_taint : Z.
(** Truth value of [config.ENV_DATA.get("infra_replicas")] *)
Variable infra_replicas : bool.
(** [constants.INFRA_NODE_LABEL], which the constants module at hand does
    not define *)
Variable INFRA_NODE_LABEL : string.
(** The text Python gives for the dicts and lists that are logged. *)
Variable repr_zones : zones -> string.
Variable repr_nodes : list Node -> string.
Variable repr_names : list string -> string.

Definition no_worker_found : exn :=
  Exn UnavailableResourceException "No worker node found!".

Definition not_enough_workers (worker_count : Z) : exn :=
  Exn UnavailableResourceException
      ("Not enough worker nodes: " ++ Py.str_of_Z worker_count ++ " to label: "
       ++ Py.str_of_Z to_label ++ " or taint: " ++ Py.str_of_Z to_taint ++ "!").

Definition exec_oc_cmd (command : string) : M unit :=
  call_unit env "OCP.exec_oc_cmd" [kw "kind" "node"; kw "command" command].

(** [label_and_taint_nodes] *)
Definition label_and_taint_nodes : M unit :=
  items <- ask ans_nodes (Call "OCP.get" [kw "kind" "node"]) ;;
  let nodes := match items with Some l => l | None => [] end in
  let worker_nodes := filter (has_label "node-role.kubernetes.io/worker") nodes in
  (match worker_nodes with
   | [] => raise no_worker_found
   | _ :: _ => ret tt
   end) ;;
  let az_worker_nodes := group_by_zone worker_nodes in
  logger DEBUG ("Found the worker nodes in AZ: " ++ repr_zones az_worker_nodes) ;;
  distributed_worker_nodes <-
    match distribute az_worker_nodes with
    | inr l => ret l
    | inl az => raise (key_error az)
    end ;;
  logger INFO ("Distributed worker nodes for AZ: "
               ++ repr_names distributed_worker_nodes) ;;
  let worker_count := Z.of_nat (length worker_nodes) in
  (if (worker_count <? to_label)%Z || (worker_count <? to_taint)%Z then
     logger INFO ("All nodes: " ++ repr_nodes nodes) ;;
     logger INFO ("Worker nodes: " ++ repr_nodes worker_nodes) ;;
     raise (not_enough_workers worker_count)
   else ret tt) ;;
  let workers_to_label :=
    PyText.join " " (PyText.slice_to distributed_worker_nodes to_label) in
  when (negb (workers_to_label =? ""))
    (logger INFO ("Label nodes: " ++ workers_to_label ++ " with label: "
                  ++ OPERATOR_NODE_LABEL) ;;
     let label_cmds :=
       ["label nodes " ++ workers_to_label ++ " " ++ OPERATOR_NODE_LABEL
        ++ " --overwrite"] in
     label_cmds <-
       (if infra_nodes cfg && negb infra_replicas then
          logger INFO ("Label nodes: " ++ workers_to_label ++ " with label: "
                       ++ INFRA_NODE_LABEL) ;;
          ret (label_cmds ++ [("label nodes " ++ workers_to_label ++ " "
                               ++ INFRA_NODE_LABEL ++ " --overwrite")%string])%list
        else ret label_cmds) ;;
     for_each label_cmds (fun cmd _ => exec_oc_cmd cmd) tt) ;;
  let workers_to_taint :=
    PyText.join " " (PyText.slice_to distributed_worker_nodes to_taint) in
  when (negb (workers_to_taint =? ""))
    (logger INFO ("Taint nodes: " ++ workers_to_taint ++ " with taint: "
                  ++ OPERATOR_NODE_TAINT) ;;
     exec_oc_cmd ("adm taint nodes " ++ workers_to_taint ++ " " ++ OPERATOR_NODE_TAINT)).

End LabelAndTaint.

Definition is_exec_oc_cmd (ev : event) : bool := is_call "OCP.exec_oc_cmd" ev.
Definition no_exec_oc_cmd (ev : event) : bool := negb (is_exec_oc_cmd ev).

(** The first worker of each zone, in the order of the zones. *)
Definition zone_heads (d : zones) : list string :=
  flat_map (fun kv => match snd kv with
                      | node :: _ => [node_name node]
                      | [] => []
                      end) d.

(** The name of the first worker of a zone, if it has one. *)
Definition head_of (d : zones) (az : option string) : list string :=
  match zone_get az d with
  | Some (node :: _) => [node_name node]
  | _ => []
  end.

(** ** [deployment.py]: [verify_pvs_created] *)

(** A persistent volume of the listing: [metadata.name] and
    [status.phase]. *)
Record PersistentVolume : Type := mkPV { pv_name : string; pv_phase : string }.

Definition pv_available (pv : PersistentVolume) : bool := pv_phase pv =? "Available".

Section VerifyPVs.

(** [json.loads(run_cmd("oc get pv -o json"))["items"]]: the answer of
    the command, read as JSON. *)
Variable ans_pvs : journal -> event -> exn + list PersistentVolume.

Definition get_pv : event := Call "run_cmd" ["oc get pv -o json"].

(** The body of the loop that checks the state of each PV. *)
Definition check_pv (pv : PersistentVolume) (_ : unit) : M unit :=
  let pv_state := pv_phase pv in
  let pv_name := pv_name pv in
  logger INFO (pv_name ++ " is in " ++ pv_state ++ " state") ;;
  assert_msg (pv_state =? "Available")
    (pv_name ++ " not in 'Available' state. Current state is " ++ pv_state).

(** The function under the decorator. *)
Definition verify_pvs_created_once (expected_pvs : Z) : M unit :=
  logger INFO "Verifying PVs are created" ;;
  items <- ask ans_pvs get_pv ;;
  assert_msg (match items with [] => false | _ :: _ => true end)
    ("No PVs created but we are expecting " ++ Py.str_of_Z expected_pvs) ;;
  let num_pvs := Z.of_nat (length items) in
  assert_msg (num_pvs =? expected_pvs)%Z
    (Py.str_of_Z num_pvs ++ " PVs created but we are expecting "
     ++ Py.str_of_Z expected_pvs) ;;
  for_each items check_pv tt ;;
  logger DEBUG ("PVs, Workers: " ++ Py.str_of_Z num_pvs ++ ", "
                ++ Py.str_of_Z expected_pvs).

(** [verify_pvs_created(expected_pvs)], under
    [@retry(AssertionError, 120, 10, 1)] *)
Definition verify_pvs_created (expected_pvs : Z) : M unit :=
  retry [AssertionError] 120 10 1 (verify_pvs_created_once expected_pvs).

End VerifyPVs.

(** ** [tests/helpers.py]: [validate_pv_delete] *)

Section ValidatePVDelete.

Variable K : Names.
Variable env : Env.

(** The journal entry of [ocp_pv_obj.get(resource_name=pv_name)]; the
    answer is the truth value of what [get] returns. *)
Definition get_pv_by_name (pv_name : string) : event :=
  Call "OCP.get" [kw "kind" PV; kw "namespace" (ROOK_CLUSTER_NAMESPACE K);
                  kw "resource_name" pv_name].

(** The function under the decorator; it falls off its end, and so
    hands back [None], when [get] answers with something falsy. *)
Definition validate_pv_delete_once (pv_name : string) : M pyvalue :=
  try_except
    (found <- ask (ans_bool env) (get_pv_by_name pv_name) ;;
     if found then
       raise (Exn AssertionError (PV ++ " " ++ pv_name ++ " is not deleted after PVC deletion"))
     else ret PyNone)
    [CommandFailed]
    (fun _ => ret (PyBool true)).

(** [validate_pv_delete(pv_name)], under
    [@retry(AssertionError, tries=20, delay=10, backoff=1)] *)
Definition validate_pv_delete (pv_name : string) : M pyvalue :=
  retry [AssertionError] 20 10 1 (validate_pv_delete_once pv_name).

End ValidatePVDelete.

(** ** [tests/helpers.py]: [is_volume_present_in_backend] *)

Section VolumeInBackend.

Variable env : Env.
(** The value [defaults.CEPHFILESYSTEM_NAME] has before [deploy_ocs]
    assigns it. *)
Variable initial_CEPHFILESYSTEM_NAME : string.

(** [defaults.CEPHFILESYSTEM_NAME] *)
Definition get_CEPHFILESYSTEM_NAME : M string :=
  fun s => (s, inr match CEPHFILESYSTEM_NAME s with
                   | Some v => v
                   | None => initial_CEPHFILESYSTEM_NAME
                   end).

(** A local variable that may not have been assigned. *)
Definition local (name : string) (v : option string) : M string :=
  match v with
  | Some x => ret x
  | None =>
      raise (Exn UnboundLocalError
                 ("local variable '" ++ name ++ "' referenced before assignment"))
  end.

Definition exec_ceph_cmd (cmd : string) : event :=
  Call "ct_pod.exec_ceph_cmd" [kw "ceph_cmd" cmd; kw "format" "json"].

(** [is_volume_present_in_backend(interface, image_uuid, pool_name=None)] *)
Definition is_volume_present_in_backend (interface image_uuid : string)
    (pool_name : option string) : M bool :=
  ask (ans_unit env) (Call "pod.get_ceph_tools_pod" []) ;;
  fs_name <- get_CEPHFILESYSTEM_NAME ;;
  let valid_error : option string := None in
  let cmd : option string := None in
  let '(valid_error, cmd) :=
    if interface =? constants.CEPHBLOCKPOOL
    then (Some ("error opening image csi-vol-" ++ image_uuid),
          Some ("rbd info -p " ++ repr_opt pool_name ++ " csi-vol-" ++ image_uuid))
    else (valid_error, cmd) in
  let '(valid_error, cmd) :=
    if interface =? constants.CEPHFILESYSTEM
    then (Some ("Subvolume 'csi-vol-" ++ image_uuid ++ "' not found"),
          Some ("ceph fs subvolume getpath " ++ fs_name
                ++ " csi-vol-" ++ image_uuid ++ " csi"))
    else (valid_error, cmd) in
  try_except
    (cmd <- local "cmd" cmd ;;
     ask (ans_unit env) (exec_ceph_cmd cmd) ;;
     logger INFO ("Verified: Volume corresponding to uuid " ++ image_uuid
                  ++ " exists " ++ "in backend") ;;
     ret true)
    [CommandFailed]
    (fun ecf =>
       valid_error <- local "valid_error" valid_error ;;
       assert_msg (Py.contains valid_error (exn_msg ecf))
         ("Error occurred while verifying volume is present in backend: "
          ++ exn_msg ecf ++ " ImageUUID: " ++ image_uuid
          ++ ". Interface type: " ++ interface) ;;
       logger INFO ("Volume corresponding to uuid " ++ image_uuid
                    ++ " does not exist " ++ "in backend") ;;
       ret false).

End VolumeInBackend.

(** ** [tests/helpers.py]: [verify_pv_mounted_on_node] *)

(** [d[key].append(v)] on a dict kept in insertion order; [None] stands
    for [KeyError]. *)
Fixpoint dict_append (key v : string) (d : list (string * list string))
    : option (list (string * list string)) :=
  match d with
  | [] => None
  | (k, l) :: rest =>
      if k =? key then Some ((k, l ++ [v])%list :: rest)
      else match dict_append key v rest with
           | Some rest' => Some ((k, l) :: rest')
           | None => None
           end
  end.

Section PVMounted.

Variable env : Env.

(** The body of the loop over [pvs]. *)
Definition note_mounted (node_name df_on_node pv_name : string)
    (existing_pvs : list (string * list string)) : M (list (string * list string)) :=
  if Py.contains ("/pv/" ++ pv_name ++ "/") df_on_node then
    match dict_append node_name pv_name existing_pvs with
    | Some d => ret d
    | None => raise (Exn KeyError ("'" ++ node_name ++ "'"))
    end
  else ret existing_pvs.

(** The body of the loop over [node_pv_dict.items()]. *)
Definition check_node (entry : string * list string)
    (existing_pvs : list (string * list string)) : M (list (string * list string)) :=
  let '(node_name, pvs) := entry in
  let cmd := "oc debug nodes/" ++ node_name ++ " -- df" in
  df_on_node <- run_cmd env cmd None ;;
  let existing_pvs := dict_set node_name [] existing_pvs in
  for_each pvs (note_mounted node_name df_on_node) existing_pvs.

(** [verify_pv_mounted_on_node(node_pv_dict)] *)
Definition verify_pv_mounted_on_node (node_pv_dict : list (string * list string))
    : M (list (string * list string)) :=
  for_each node_pv_dict check_node [].

End PVMounted.

(** The PVs of [pvs] that the output of [df] shows as mounted. *)
Definition mounted_among (df_on_node : string) (pvs : list string) : list string :=
  filter (fun pv_name => Py.contains ("/pv/" ++ pv_name ++ "/") df_on_node) pvs.

(** ** The Subscription manifest *)

(** What the configuration asks of the Subscription: the approval mode
    when one is configured, the configured channel when there is one,
    and the source of a live deployment before that of a stage one. *)
Definition subscription_as_configured (K : Names) (cfg : Config) (d : Subscription)
    : bool :=
  (if Py.truthy (subscription_plan_approval cfg)
   then option_string_eqb (installPlanApproval d) (subscription_plan_approval cfg)
   else true)
  && (if Py.truthy (ocs_csv_channel cfg)
      then option_string_eqb (channel d) (ocs_csv_channel cfg)
      else true)
  && (if live_deployment cfg
      then option_string_eqb (source d)
             (Some match live_content_source cfg with
                   | Some src => src
                   | None => LIVE_CONTENT_SOURCE K
                   end)
      else if stage cfg
           then option_string_eqb (source d) (Some constants.OPERATOR_SOURCE_NAME)
           else true)
  && match channel d with Some _ => true | None => false end.

Definition manifest_as_configured (K : Names) (cfg : Config) (ev : event) : bool :=
  match ev with
  | DumpYaml (SubscriptionDoc d) _ => subscription_as_configured K cfg d
  | _ => true
  end.

(** ** The StorageCluster manifest *)

Definition is_true (o : option bool) : bool :=
  match o with Some true => true | _ => false end.

(** What the configuration asks of the StorageCluster of a converged
    deployment: one device set for each storage node on IBM Power and
    one device set elsewhere, the host network when it is asked for,
    and encryption when it is asked for. *)
Definition devices_as_configured (K : Names) (cfg : Config) (c : StorageCluster) : bool :=
  (length (sc_storageDeviceSets c)
   =? (if (platform cfg =? IBM_POWER_PLATFORM K)%string
       then number_of_storage_nodes cfg else 1))%nat
  && (if host_network cfg then is_true (sc_hostNetwork c) else true)
  && (if encryption_at_rest cfg then is_true (sc_encryption c) else true).

Definition cluster_as_configured (K : Names) (cfg : Config) (c : StorageCluster) : bool :=
  (sc_name c =? storage_cluster_name cfg)
  && (external_mode cfg || devices_as_configured K cfg c).

Definition cluster_manifest_as_configured (K : Names) (cfg : Config) (ev : event) : bool :=
  match ev with
  | DumpYaml (StorageClusterDoc c) _ => cluster_as_configured K cfg c
  | _ => true
  end.

(** ** [deployment.py]: [create_catalog_source]

    In the driver above the call of this function is an entry of the
    journal; here its body is modelled on its own. *)

Definition OPERATOR_CATALOG_SOURCE_NAME : string := "ocs-catalogsource".
Definition MARKETPLACE_NAMESPACE : string := "openshift-marketplace".
Definition CATALOG_SOURCE_YAML (top : string) : string :=
  Py.path_join (constants.TEMPLATE_DEPLOYMENT_DIR top) "catalog-source.yaml".

(** The entries of the catalog source manifest that the function reads
    or writes: [kind], [metadata.name] and [spec.image]. *)
Record CatalogSourceData : Type := mkCatalogSource {
  cs_kind : string;
  cs_name : string;
  cs_image : string
}.

(** The journal entry of [templating.dump_data_to_temp_yaml] for a
    catalog source. *)
Definition dump_catalog_source (data : CatalogSourceData) (path : string) : event :=
  Call "templating.dump_data_to_temp_yaml"
       [kw "kind" (cs_kind data); kw "metadata.name" (cs_name data);
        kw "spec.image" (cs_image data); path].

(** [image_and_tag = image.split(":")], [image_and_tag[0]], and
    [image_and_tag[1] if len(image_and_tag) == 2 else None] *)
Definition image_and_tag (image : string) : string * option string :=
  let parts := PyText.split ":" image in
  (hd EmptyString parts,
   match parts with
   | [_; tag] => Some tag
   | _ => None
   end).

Section CatalogSource.

Variable K : Names.
Variable cfg : Config.
Variable env : Env.
(** [templating.load_yaml(constants.CATALOG_SOURCE_YAML)] *)
Variable ans_catalog : journal -> event -> exn + CatalogSourceData.
(** [config.DEPLOYMENT]: [ocs_registry_image], [stage_rh_osbs],
    [stage_index_image], [stage_index_image_tag], [default_latest_tag]
    and [default_ocs_registry_image], each [None] when the key is not
    there, [stage_rh_osbs] as its truth value *)
Variable ocs_registry_image : option string.
Variable stage_rh_osbs : bool.
Variable stage_index_image : option string.
Variable stage_index_image_tag : option string.
Variable default_latest_tag : option string.
Variable default_ocs_registry_image : option string.
(** [config.UPGRADE.get("upgrade", False)] and
    [config.REPORTING.get("us_ds")] *)
Variable upgrade_configured : bool.
Variable us_ds : option string.
(** [constants.OSBS_BOUNDLE_IMAGE] and
    [constants.STAGE_IMAGE_CONTENT_SOURCE_POLICY_YAML], which the
    constants module at hand does not define *)
Variable OSBS_BOUNDLE_IMAGE : string.
Variable STAGE_IMAGE_CONTENT_SOURCE_POLICY_YAML : string.

Definition insecure_registries_patch : string :=
  "oc patch image.config.openshift.io/cluster --type merge -p '"
  ++ "{" ++ dq ++ "spec" ++ dq ++ ": {" ++ dq ++ "registrySources" ++ dq ++ ": {"
  ++ dq ++ "insecureRegistries" ++ dq ++ ": "
  ++ "[" ++ dq ++ "registry-proxy.engineering.redhat.com" ++ dq ++ "]}}}'".

(** [create_catalog_source(image=None, ignore_upgrade=False)] *)
Definition create_catalog_source (image : option string) (ignore_upgrade : bool)
    : M unit :=
  logger INFO "Adding CatalogSource" ;;
  let image : string :=
    if negb (Py.truthy image)
    then match ocs_registry_image with Some i => i | None => EmptyString end
    else match image with Some i => i | None => EmptyString end in
  image <-
    (if stage_rh_osbs then
       let image := match stage_index_image with
                    | Some i => i
                    | None => OSBS_BOUNDLE_IMAGE
                    end in
       ocp_version <- call_str env "get_ocp_version" [] ;;
       let osbs_image_tag := match stage_index_image_tag with
                             | Some t => t
                             | None => "v" ++ ocp_version
                             end in
       let image := image ++ ":" ++ osbs_image_tag in
       run_cmd env insecure_registries_patch None ;;
       run_cmd env ("oc apply -f " ++ STAGE_IMAGE_CONTENT_SOURCE_POLICY_YAML) None ;;
       logger INFO "Sleeping for 60 sec to start update machineconfigpool status" ;;
       sleep 60 ;;
       call_unit env "wait_for_machineconfigpool_status" ["all"; kw "timeout" "1800"] ;;
       ret image
     else ret image) ;;
  let upgrade := if negb ignore_upgrade then upgrade_configured else false in
  let '(image, image_tag) := image_and_tag image in
  image_tag <-
    (if negb (Py.truthy image_tag) && option_string_eqb us_ds (Some "DS") then
       tag <- call_str env "get_latest_ds_olm_tag"
                [repr_bool upgrade;
                 kw "latest_tag" match default_latest_tag with
                                 | Some t => t
                                 | None => "latest"
                                 end] ;;
       ret (Some tag)
     else ret image_tag) ;;
  let platform := Py.lower (platform cfg) in
  let image_tag :=
    if platform =? IBM_POWER_PLATFORM K then Some "latest-4.6" else image_tag in
  catalog_source_data <-
    ask ans_catalog (Call "templating.load_yaml" [CATALOG_SOURCE_YAML (TOP_DIR K)]) ;;
  let cs_name_wanted := OPERATOR_CATALOG_SOURCE_NAME in
  let change_cs_condition :=
    (negb (image =? "") || Py.truthy image_tag)
    && (cs_kind catalog_source_data =? "CatalogSource")
    && (cs_name catalog_source_data =? cs_name_wanted) in
  catalog_source_data <-
    (if change_cs_condition then
       default_image <-
         match default_ocs_registry_image with
         | Some d => ret d
         | None => raise (Exn KeyError "'default_ocs_registry_image'")
         end ;;
       let image := if negb (image =? "") then image
                    else hd EmptyString (PyText.split ":" default_image) in
       ret (mkCatalogSource (cs_kind catalog_source_data) (cs_name catalog_source_data)
              (image ++ ":" ++ (if Py.truthy image_tag
                                then match image_tag with Some t => t | None => "" end
                                else "latest")))
     else ret catalog_source_data) ;;
  catalog_source_manifest <- NamedTemporaryFile env "catalog_source_manifest" ;;
  ask (ans_unit env) (dump_catalog_source catalog_source_data catalog_source_manifest) ;;
  run_cmd env ("oc create -f " ++ catalog_source_manifest) (Some 2400) ;;
  call_unit env "CatalogSource"
    [kw "resource_name" OPERATOR_CATALOG_SOURCE_NAME;
     kw "namespace" MARKETPLACE_NAMESPACE] ;;
  call_unit env "CatalogSource.wait_for_state" ["READY"].

End CatalogSource.

(** * Further runs *)

Module Cases.

Import Demo Scenario.

(** AWS, the deployment is done through the console. *)
Definition console : Config :=
  mkConfig "aws" "/clusters/c1" "openshift-storage" "ocs-storagecluster"
    true false 3 None "4.6" false false false None
    true false None false false false false false false
    None None None None None
    true false None (Some "localblock") None.

(** External mode, without the details of the external cluster. *)
Definition external_without_details : Config :=
  mkConfig "aws" "/clusters/c1" "openshift-storage" "ocs-storagecluster"
    true false 3 None "4.6" false false false None
    false false None false false true false false false
    None None None None None
    true false None (Some "localblock") None.


(** AWS, logs are collected after a successful run as well. *)
Definition collecting : Config :=
  mkConfig "aws" "/clusters/c1" "openshift-storage" "ocs-storagecluster"
    true false 3 None "4.6" false false false None
    false false None false false false false false false
    None None None None None
    true true None (Some "localblock") None.

(** Bare metal and a platform without local storage support. *)
Definition baremetal : Config := config "BareMetal" "4.6" false false true None.
Definition gcp : Config := config "GCP" "4.6" false false true None.

Definition collection_failed : exn := Exn CommandFailed "must-gather: timed out".

(** The first collection of logs fails. *)
Definition env_collection_fails : Env :=
  environment [("collect_ocs_logs", 0, collection_failed)] (Some []).

Definition nl : string := String PyText.newline EmptyString.

(** What [ls -la /dev/disk/by-id/] shows on a worker. *)
Definition listing : string :=
  "total 0" ++ nl
  ++ "lrwxrwxrwx. 1 root root 13 Nov  3 09:12 nvme-Amazon_EC2_NVMe_Instance_Storage_AWS2F -> ../../nvme1n1"
  ++ nl
  ++ "lrwxrwxrwx. 1 root root  9 Nov  3 09:12 wwn-0x5000c500a1b2c3d4 -> ../../sdb" ++ nl
  ++ "lrwxrwxrwx. 1 root root  9 Nov  3 09:12 wwn-0x5000c500ffffffff -> ../../sda" ++ nl
  ++ "lrwxrwxrwx. 1 root root  9 Nov  3 09:12 ata-ST 4000 -> ../../sdc".

(** What [df] shows on a node. *)
Definition df_output : string :=
  "Filesystem 1K-blocks Used Available Use% Mounted on" ++ nl
  ++ "/dev/rbd0 1998672 6144 1976144 1% /var/lib/kubelet/plugins/kubernetes.io/csi/pv/pvc-1/globalmount"
  ++ nl
  ++ "/dev/rbd1 1998672 6144 1976144 1% /var/lib/kubelet/plugins/kubernetes.io/csi/pv/pvc-3/globalmount".

(** The commands answer with the listing and with the output of [df]. *)
Definition answer_cmd (ev : event) : string :=
  match ev with
  | Call fn (cmd :: _) =>
      if fn =? "run_cmd" then
        if Py.contains "/dev/disk/by-id/" cmd then listing
        else if Py.contains "-- df" cmd then df_output
        else answer_str ev
      else answer_str ev
  | _ => answer_str ev
  end.

Definition env_workers : Env :=
  mkEnv (ans_unit env_fine) (ans_bool env_fine) (answer [] answer_cmd)
        (ans_strs env_fine) (ans_items env_fine) (ans_subscription env_fine)
        (ans_cluster env_fine) (ans_secret env_fine).

(** Nodes: a master and three workers in two zones. *)
Definition worker (name zone : string) : Node :=
  mkNode name [("node-role.kubernetes.io/worker", "");
               ("failure-domain.beta.kubernetes.io/zone", zone)].
Definition master (name : string) : Node :=
  mkNode name [("node-role.kubernetes.io/master", "")].

Definition only_masters : journal -> event -> exn + option (list Node) :=
  fun _ _ => inr (Some [master "m0"; master "m1"]).

Definition two_workers : journal -> event -> exn + option (list Node) :=
  fun _ _ => inr (Some [master "m0"; worker "w0" "us-east-2a"; worker "w1" "us-east-2b"]).

(** A plain rendering of the logged values. *)
Definition show_names (l : list string) : string := "[" ++ PyText.join ", " l ++ "]".
Definition show_nodes (l : list Node) : string := show_names (map node_name l).
Definition show_zones (d : zones) : string :=
  "{" ++ PyText.join ", "
           (map (fun kv => repr_opt (fst kv) ++ ": " ++ show_nodes (snd kv)) d) ++ "}".

(** One volume, available. *)
Definition one_available : journal -> event -> exn + list PersistentVolume :=
  fun _ _ => inr [mkPV "local-pv-1a2b" "Available"].

(** The PV is gone: the lookup fails. *)
Definition env_pv_gone : Env :=
  environment [("OCP.get", 0, Exn CommandFailed "persistentvolumes pvc-1 not found")]
              (Some []).

(** The image is not in the pool. *)
Definition env_no_image : Env :=
  environment [("ct_pod.exec_ceph_cmd", 0,
                Exn CommandFailed "rbd: error opening image csi-vol-f301898c: (2) No such file")]
              (Some []).

(** The wait for the resource times out. *)
Definition timed_out : exn := Exn TimeoutExpiredError "Timed out after 60s".
Definition env_timeout : Env :=
  environment [("resource.ocp.wait_for_resource", 0, timed_out)] (Some []).

(** The template of the catalog source, and an image of a registry
    with a port. *)
Definition catalog_template : journal -> event -> exn + CatalogSourceData :=
  fun _ _ => inr (mkCatalogSource "CatalogSource" "ocs-catalogsource"
                    "quay.io/rhceph-dev/ocs-olm-operator:latest-4.6").

Definition image_with_port : string :=
  "registry.example.com:5000/ocs/ocs-olm-operator:4.6.0".

End Cases.

(** * Properties *)

Local Open Scope list_scope.

(** ** The journal only grows *)

Lemma added_app {A : Type} (m : M A) (s : state) (l : journal) :
  st_journal (fst (m s)) = (st_journal s ++ l)%list -> added m s = l.
Proof.
  intros H. unfold added. rewrite H.
  rewrite skipn_app, skipn_all, Nat.sub_diag. reflexivity.
Qed.

Lemma push_journal (ev : event) (s : state) :
  st_journal (push ev s) = (st_journal s ++ [ev])%list.
Proof. reflexivity. Qed.

(** ** C6: the probe for an existing cluster *)

Section Probe.

Variables (K : Names) (cfg : Config) (env : Env) (class_name : string).

Let probe_call : event :=
  Call "OCP.get" [kw "kind" "CephCluster"; kw "namespace" (cluster_namespace cfg)].

Lemma probe_found (s : state) (x : string) (l : list string) :
  ans_items env (st_journal s) probe_call = inr (Some (x :: l)) ->
  probe_ceph_cluster cfg env s = (push probe_call s, inr x).
Proof.
  intros H. unfold probe_ceph_cluster, OCP_get, bind, ask.
  fold probe_call. rewrite H. reflexivity.
Qed.

Lemma probe_empty (s : state) :
  ans_items env (st_journal s) probe_call = inr (Some []) ->
  probe_ceph_cluster cfg env s
  = (push probe_call s, inl (Exn IndexError "list index out of range")).
Proof.
  intros H. unfold probe_ceph_cluster, OCP_get, bind, ask.
  fold probe_call. rewrite H. reflexivity.
Qed.

Lemma probe_missing (s : state) :
  ans_items env (st_journal s) probe_call = inr None ->
  probe_ceph_cluster cfg env s
  = (push probe_call s, inl (Exn TypeError "'NoneType' object is not subscriptable")).
Proof.
  intros H. unfold probe_ceph_cluster, OCP_get, bind, ask.
  fold probe_call. rewrite H. reflexivity.
Qed.

Lemma probe_raised (s : state) (e : exn) :
  ans_items env (st_journal s) probe_call = inl e ->
  probe_ceph_cluster cfg env s = (push probe_call s, inl e).
Proof.
  intros H. unfold probe_ceph_cluster, OCP_get, bind, ask.
  fold probe_call. rewrite H. reflexivity.
Qed.

(** How [deploy_ocs] continues from the outcome of the probe. *)
Lemma deploy_ocs_after_probe (s s1 : state) (r : exn + string) :
  probe_ceph_cluster cfg env s = (s1, r) ->
  deploy_ocs K cfg env class_name s =
  match r with
  | inr _ => (push (Log WARNING "OCS cluster already exists") s1, inr tt)
  | inl e =>
      if isinstance e [IndexError; CommandFailed]
      then install_ocs K cfg env class_name
             (push (Log INFO "Running OCS basic installation") s1)
      else (s1, inl e)
  end.
Proof.
  intros H. unfold deploy_ocs, bind at 1, try_except, bind at 1. rewrite H.
  destruct r as [e | x]; [| reflexivity].
  destruct (isinstance e [IndexError; CommandFailed]); reflexivity.
Qed.

(** C6.  When the probe finds a CephCluster object, [deploy_ocs] makes
    no further call: it logs the warning "OCS cluster already exists"
    and returns normally, the journal holding nothing but the probe and
    the warning. *)
Theorem deploy_ocs_existing_cluster_is_noop (s : state) (x : string) (l : list string) :
  ans_items env (st_journal s) probe_call = inr (Some (x :: l)) ->
  deploy_ocs K cfg env class_name s
  = (push (Log WARNING "OCS cluster already exists") (push probe_call s), inr tt)
  /\ added (deploy_ocs K cfg env class_name) s
     = [probe_call; Log WARNING "OCS cluster already exists"].
Proof.
  intros H.
  assert (E : deploy_ocs K cfg env class_name s
              = (push (Log WARNING "OCS cluster already exists") (push probe_call s),
                 inr tt)).
  { rewrite (deploy_ocs_after_probe s _ _ (probe_found s x l H)). reflexivity. }
  split; [exact E |].
  apply added_app. rewrite E. simpl. rewrite <- app_assoc. reflexivity.
Qed.

End Probe.

(** ** Stepping through a run *)

(** Runs one statement: unfolds the monad and reads the answers off the
    hypotheses. *)
Ltac run_unfold :=
  unfold call_unit, call_bool, call_str, call_strs, when, assert;
  unfold bind, ask, logger, sleep, ret, raise, try_except,
    try_except_Exception, get_DEFAULT_STORAGECLASS, set_DEFAULT_STORAGECLASS,
    set_CEPHFILESYSTEM_NAME, set_is_ocp_deployment_failed;
  cbv beta.

Lemma run_bind {A B : Type} (m : M A) (f : A -> M B) (s s' : state) (a : A) :
  m s = (s', inr a) -> bind m f s = f a s'.
Proof. intros H. unfold bind. rewrite H. reflexivity. Qed.

Lemma run_bind_raise {A B : Type} (m : M A) (f : A -> M B) (s s' : state) (e : exn) :
  m s = (s', inl e) -> bind m f s = (s', inl e).
Proof. intros H. unfold bind. rewrite H. reflexivity. Qed.

Lemma outcome_eq {A : Type} (m : M A) (s s' : state) (r : exn + A) :
  m s = (s', r) -> outcome m s = r.
Proof. intros H. unfold outcome. rewrite H. reflexivity. Qed.

Lemma added_eq {A : Type} (m : M A) (s s' : state) (r : exn + A) (l : journal) :
  m s = (s', r) -> st_journal s' = st_journal s ++ l -> added m s = l.
Proof. intros H E. apply added_app. rewrite H. exact E. Qed.

(** ** C7: [destroy_cluster] *)

Section Destroy.

Variables (K : Names) (cfg : Config) (env : Env).

Let construct : event := Call "OCPDeployment" [].
Let uninstall : event := Call "uninstall_ocs" [].
Let destroy_ocs : event := Call "self.destroy_ocs" [].
Let not_implemented : event := Log INFO "Destroy of OCP not implemented yet.".

(** C7, amended.  On IBM Power, [destroy_cluster] calls
    [self.destroy_ocs] unless the storage deployment was skipped, and
    nothing else; when that call raises, its exception leaves the
    method; otherwise the method returns normally, after the log entry
    "Destroy of OCP not implemented yet." when the OCP deployment was
    not skipped, and without any entry of its own when it was skipped.
    The installer and the uninstall of the storage layer are never
    called.  On any other platform it calls [uninstall_ocs] and,
    whether that returns or raises, and whatever exception it raises
    (which is logged as an error, followed by "resuming teardown"), it
    calls the installer's destroy, whose outcome is the outcome of the
    method. *)
Theorem destroy_cluster_by_platform (log_level : string) (s : state) :
  ((platform cfg =? IBM_POWER_PLATFORM K) = true ->
     let storage := if skip_ocs_deployment cfg then [] else [destroy_ocs] in
     let torn_down := if skip_ocs_deployment cfg then inr tt
                      else ans_unit env (st_journal s) destroy_ocs in
     let signal := if skip_ocp_deployment cfg then [] else [not_implemented] in
     added (destroy_cluster K cfg env log_level) s
     = (storage ++ match torn_down with inr _ => signal | inl _ => [] end)%list
     /\ outcome (destroy_cluster K cfg env log_level) s = torn_down
     /\ forallb infrastructure_untouched (added (destroy_cluster K cfg env log_level) s)
        = true)
  /\
  ((platform cfg =? IBM_POWER_PLATFORM K) = false ->
     ans_unit env (st_journal s) construct = inr tt ->
     let teardown := Call "OCPDeployment.destroy" [log_level] in
     let uninstalled :=
       [construct; uninstall] ++ uninstall_entries
                                   (ans_unit env (st_journal s ++ [construct]) uninstall) in
     added (destroy_cluster K cfg env log_level) s = (uninstalled ++ [teardown])%list
     /\ outcome (destroy_cluster K cfg env log_level) s
        = ans_unit env (st_journal s ++ uninstalled) teardown).
Proof.
  split.
  - intros Hp. cbv zeta. unfold destroy_cluster, destroy_ocs, not_implemented. rewrite Hp.
    destruct (skip_ocs_deployment cfg), (skip_ocp_deployment cfg);
      unfold added, outcome; run_unfold; simpl.
    + rewrite skipn_all. repeat split.
    + rewrite skipn_app, skipn_all, Nat.sub_diag. repeat split.
    + destruct (ans_unit env (st_journal s) (Call "self.destroy_ocs" [])) as [e | []];
        simpl; rewrite skipn_app, skipn_all, Nat.sub_diag; repeat split.
    + destruct (ans_unit env (st_journal s) (Call "self.destroy_ocs" [])) as [e | []];
        simpl; [| rewrite <- app_assoc];
        rewrite skipn_app, skipn_all, Nat.sub_diag; repeat split.
  - intros Hp Hc. cbv zeta.
    assert (E : exists s',
               destroy_cluster K cfg env log_level s
               = (s',
                  ans_unit env
                    (st_journal s
                     ++ [construct; uninstall]
                     ++ uninstall_entries
                          (ans_unit env (st_journal s ++ [construct]) uninstall))
                    (Call "OCPDeployment.destroy" [log_level]))
               /\ st_journal s'
                  = st_journal s
                    ++ ([construct; uninstall]
                        ++ uninstall_entries
                             (ans_unit env (st_journal s ++ [construct]) uninstall))
                    ++ [Call "OCPDeployment.destroy" [log_level]]).
    { unfold destroy_cluster. rewrite Hp. run_unfold.
      fold construct. rewrite Hc. rewrite push_journal. fold uninstall.
      destruct (ans_unit env (st_journal s ++ [construct]) uninstall) as [e | []];
        simpl; repeat rewrite <- app_assoc; simpl;
        destruct (ans_unit env _ (Call "OCPDeployment.destroy" [log_level])) as [x | []];
        (eexists; split; [reflexivity |]);
        simpl; repeat rewrite <- app_assoc; reflexivity. }
    destruct E as (s' & E & J). split.
    + apply (added_eq _ _ _ _ _ E). exact J.
    + apply (outcome_eq _ _ _ _ E).
Qed.

End Destroy.

(** ** C8: [wait_for_resource_state] *)

Section Waiter.

Variable env : Env.

(** C8, amended.  For a resource named like one of the two default
    storage classes, [wait_for_resource_state] logs one line and returns
    at once, without a value ([None]) and without calling the resource
    client; for a resource of any other name its first action is the
    call of [wait_for_resource] with the state and the timeout, and when
    it returns it returns [None] as well. *)
Theorem wait_for_resource_state_default_names
    (resource : Resource) (condition : string) (timeout : nat) (s : state) :
  (default_class_name (res_name resource) ->
     wait_for_resource_state env resource condition timeout s
     = (push (Log INFO "Attempt to default default Secret or StorageClass") s,
        inr PyNone))
  /\
  (~ default_class_name (res_name resource) ->
     (exists rest,
        added (wait_for_resource_state env resource condition timeout) s
        = Call "resource.ocp.wait_for_resource"
               [kw "condition" condition; kw "resource_name" (res_name resource);
                kw "timeout" (repr_nat timeout)] :: rest)
     /\ forall v,
          outcome (wait_for_resource_state env resource condition timeout) s = inr v ->
          v = PyNone).
Proof.
  unfold default_class_name, wait_for_resource_state. split.
  - intros [H | H]; rewrite H; reflexivity.
  - intros H.
    destruct (res_name resource =? constants.DEFAULT_STORAGECLASS_CEPHFS) eqn:E1.
    { apply String.eqb_eq in E1. tauto. }
    destruct (res_name resource =? constants.DEFAULT_STORAGECLASS_RBD) eqn:E2.
    { apply String.eqb_eq in E2. tauto. }
    simpl orb. cbv iota. unfold added, outcome. run_unfold.
    destruct (ans_bool env (st_journal s) _) as [e | b];
      [destruct (isinstance e [TimeoutExpiredError]);
       [destruct (ans_unit env _ _) as [e1 | []];
        [| destruct (ans_str env _ _) as [e2 | d]] |] |];
      simpl; repeat rewrite <- app_assoc;
      rewrite skipn_app, skipn_all, Nat.sub_diag; simpl;
      (split; [eexists; reflexivity | intros v Hv; congruence]).
Qed.

End Waiter.

(** ** C1 and C2: the health block of [deploy_ocs] *)

Section Health.

Variables (K : Names) (cfg : Config) (env : Env).

Let announce : event := Log INFO "Done creating rook resources, waiting for HEALTH_OK".

(** A failed first check whose text does not mention a clock skew is
    logged as a warning, and the block returns normally. *)
Lemma verify_ceph_health_other_failure (s : state) (err : string) :
  ans_bool env (st_journal s ++ [announce]) (health_check_call cfg 30)
  = inl (Exn CephHealthException err) ->
  Py.contains "clock skew detected" err = false ->
  outcome (verify_ceph_health K cfg env) s = inr tt
  /\ added (verify_ceph_health K cfg env) s = health_failure_entries K cfg err.
Proof.
  intros H1 H2.
  assert (E : verify_ceph_health K cfg env s
              = (push (Log WARNING ("Ceph health check failed with " ++ err)%string)
                   (push (health_check_call cfg 30) (push announce s)), inr tt)).
  { unfold verify_ceph_health, ceph_health_check. run_unfold.
    rewrite push_journal. fold announce.
    change (Call "ceph_health_check" [_; kw "tries" (repr_nat 30); _])
      with (health_check_call cfg 30).
    rewrite H1. simpl. rewrite H2. reflexivity. }
  split.
  - apply (outcome_eq _ _ _ _ E).
  - apply (added_eq _ _ _ _ _ E). simpl. repeat rewrite <- app_assoc. reflexivity.
Qed.

(** C2, amended.  When the first check (30 tries, 10 s) raises
    CephHealthException with a text that contains "clock skew
    detected", the block logs the change of the NTP servers, calls
    [update_ntp_compute_nodes] once if the platform is vSphere and makes
    no remediation call on any other platform, and then checks again
    with 60 tries and 10 s; when that check answers true the block
    returns normally. *)
Theorem verify_ceph_health_clock_skew (s : state) (err : string) :
  let before_fix :=
    health_failure_entries K cfg err
    ++ [Log INFO ("Changing NTP on compute nodes to " ++ RH_NTP_CLOCK K)%string] in
  ans_bool env (st_journal s ++ [announce]) (health_check_call cfg 30)
  = inl (Exn CephHealthException err) ->
  Py.contains "clock skew detected" err = true ->
  ((platform cfg =? constants.VSPHERE_PLATFORM) = true ->
   ans_unit env (st_journal s ++ before_fix) (Call "update_ntp_compute_nodes" [])
   = inr tt) ->
  ans_bool env (st_journal s ++ before_fix ++ remediation_entries cfg)
           (health_check_call cfg 60) = inr true ->
  outcome (verify_ceph_health K cfg env) s = inr tt
  /\ added (verify_ceph_health K cfg env) s
     = before_fix ++ remediation_entries cfg ++ [health_check_call cfg 60]
  /\ calls "update_ntp_compute_nodes" (added (verify_ceph_health K cfg env) s)
     = if platform cfg =? constants.VSPHERE_PLATFORM then 1 else 0.
Proof.
  cbv zeta. intros H1 H2 H3 H4.
  assert (E : exists s',
             verify_ceph_health K cfg env s = (s', inr tt)
             /\ st_journal s'
                = st_journal s
                  ++ (health_failure_entries K cfg err
                      ++ [Log INFO ("Changing NTP on compute nodes to "
                                    ++ RH_NTP_CLOCK K)%string])
                  ++ remediation_entries cfg ++ [health_check_call cfg 60]).
  { unfold verify_ceph_health, ceph_health_check. run_unfold.
    rewrite push_journal. fold announce.
    change (Call "ceph_health_check" [_; kw "tries" (repr_nat 30); _])
      with (health_check_call cfg 30).
    rewrite H1. simpl isinstance. cbv iota. cbv beta. cbn [exn_msg]. rewrite H2.
    unfold remediation_entries, health_failure_entries in *.
    fold announce in H3, H4.
    destruct (platform cfg =? constants.VSPHERE_PLATFORM) eqn:Hp.
    - specialize (H3 eq_refl). simpl in H3, H4. simpl.
      repeat (rewrite <- app_assoc; simpl). rewrite H3.
      simpl. repeat (rewrite <- app_assoc; simpl).
      change (Call "ceph_health_check" _) with (health_check_call cfg 60).
      rewrite H4. eexists. split; [reflexivity |].
      simpl. repeat (rewrite <- app_assoc; simpl). reflexivity.
    - simpl in H4. simpl. repeat (rewrite <- app_assoc; simpl).
      change (Call "ceph_health_check" _) with (health_check_call cfg 60).
      rewrite H4. eexists. split; [reflexivity |].
      simpl. repeat (rewrite <- app_assoc; simpl). reflexivity. }
  destruct E as (s' & E & J).
  assert (A : added (verify_ceph_health K cfg env) s
              = (health_failure_entries K cfg err
                 ++ [Log INFO ("Changing NTP on compute nodes to "
                               ++ RH_NTP_CLOCK K)%string])
                ++ remediation_entries cfg ++ [health_check_call cfg 60]).
  { apply (added_eq _ _ _ _ _ E). exact J. }
  split; [apply (outcome_eq _ _ _ _ E) |]. split; [exact A |].
  rewrite A. unfold remediation_entries.
  destruct (platform cfg =? constants.VSPHERE_PLATFORM); reflexivity.
Qed.

End Health.

(** ** C4: [deploy_cluster] and the collection of diagnostics *)

Section Lifecycle.

Variables (K : Names) (cfg : Config) (env : Env) (class_name : string).

Let running_call : event := Call "is_cluster_running" [cluster_path cfg].

(** C4, amended.  When a phase of [deploy_cluster] raises an exception
    [e], the text of [e] is logged as an error; if
    [gather_on_deploy_failure] is set, [collect_ocs_logs] is then called
    (once after the platform phase; twice, for OCP and for OCS
    separately, after the storage phase), and nothing is collected if it
    is not set; and, the calls of the collection having returned,
    [deploy_cluster] raises [e] itself. *)
Theorem deploy_cluster_collects_then_reraises (log_cli_level : string) (s : state) :
  (forall s1 e,
     skip_ocp_deployment cfg = false ->
     ans_bool env (st_journal s) running_call = inr false ->
     (deploy_ocp env log_cli_level ;; post_ocp_deploy env)%py (push running_call s)
     = (s1, inl e) ->
     (gather_on_deploy_failure cfg = true ->
      ans_unit env (st_journal s1 ++ [Log ERROR (exn_msg e)]) collect_ocp_logs_call
      = inr tt) ->
     outcome (deploy_cluster K cfg env class_name log_cli_level) s = inl e
     /\ st_journal (fst (deploy_cluster K cfg env class_name log_cli_level s))
        = st_journal s1
          ++ Log ERROR (exn_msg e)
             :: (if gather_on_deploy_failure cfg then [collect_ocp_logs_call] else []))
  /\
  (forall s1 s2 e,
     deploy_cluster_ocp cfg env log_cli_level s = (s1, inr tt) ->
     skip_ocs_deployment cfg = false ->
     deploy_ocs_and_collect K cfg env class_name s1 = (s2, inl e) ->
     (gather_on_deploy_failure cfg = true ->
      ans_unit env (st_journal s2 ++ [Log ERROR (exn_msg e)]) collect_ocp_logs_call
      = inr tt
      /\ ans_unit env (st_journal s2 ++ [Log ERROR (exn_msg e); collect_ocp_logs_call])
                  collect_ocs_logs_call
         = inr tt) ->
     outcome (deploy_cluster K cfg env class_name log_cli_level) s = inl e
     /\ st_journal (fst (deploy_cluster K cfg env class_name log_cli_level s))
        = st_journal s2
          ++ Log ERROR (exn_msg e)
             :: (if gather_on_deploy_failure cfg
                 then [collect_ocp_logs_call; collect_ocs_logs_call] else [])).
Proof.
  split.
  - intros s1 e Hskip Hrun Hphase Hcollect.
    unfold outcome, deploy_cluster.
    assert (E : exists s',
               deploy_cluster_ocp cfg env log_cli_level s = (s', inl e)
               /\ st_journal s'
                  = st_journal s1
                    ++ Log ERROR (exn_msg e)
                       :: (if gather_on_deploy_failure cfg
                           then [collect_ocp_logs_call] else [])).
    { unfold deploy_cluster_ocp. rewrite Hskip. simpl negb. unfold when at 1.
      unfold call_bool. unfold bind at 1, ask at 1. fold running_call. rewrite Hrun.
      unfold try_except_Exception. rewrite Hphase.
      unfold collect_ocs_logs. run_unfold.
      destruct (gather_on_deploy_failure cfg); cbv beta;
        repeat rewrite push_journal; simpl st_journal.
      - fold collect_ocp_logs_call. rewrite (Hcollect eq_refl).
        eexists; split; [reflexivity |]. simpl. rewrite <- app_assoc. reflexivity.
      - eexists; split; reflexivity. }
    destruct E as (s' & E & J).
    rewrite (run_bind_raise _ _ _ _ _ E). simpl. auto.
  - intros s1 s2 e Hocp Hskip Hphase Hcollect.
    unfold outcome, deploy_cluster.
    rewrite (run_bind _ _ _ _ _ Hocp).
    unfold deploy_cluster_ocs. rewrite Hskip. change (negb false) with true.
    unfold try_except_Exception. cbv beta iota. rewrite Hphase.
    unfold collect_ocs_logs. run_unfold.
    destruct (gather_on_deploy_failure cfg); cbv beta;
      repeat rewrite push_journal; simpl st_journal.
    + destruct (Hcollect eq_refl) as [H1 H2].
      fold collect_ocp_logs_call. rewrite H1. repeat rewrite push_journal.
      rewrite <- app_assoc. simpl app.
      fold collect_ocs_logs_call. rewrite H2. simpl.
      split; [reflexivity |]. repeat rewrite <- app_assoc. reflexivity.
    + split; reflexivity.
Qed.

End Lifecycle.

(** ** Rules for [emits], [fails], [succeeds], [yields] and [raises] *)

Section Rules.

Context {A B : Type}.
Variable P : event -> bool.

Lemma emits_ret (a : A) : emits P (ret a).
Proof. intros s. exists []. simpl. rewrite app_nil_r. auto. Qed.

Lemma emits_raise (e : exn) : emits P (@raise A e).
Proof. intros s. exists []. simpl. rewrite app_nil_r. auto. Qed.

Lemma emits_ask (answer : journal -> event -> exn + A) (ev : event) :
  P ev = true -> emits P (ask answer ev).
Proof. intros H s. exists [ev]. simpl. rewrite H. auto. Qed.

Lemma emits_bind (m : M A) (f : A -> M B) :
  emits P m -> (forall a, emits P (f a)) -> emits P (bind m f).
Proof.
  intros Hm Hf s. unfold bind. destruct (Hm s) as (l & E & F).
  destruct (m s) as [s' [e | a]]; simpl in *.
  - exists l. auto.
  - destruct (Hf a s') as (l' & E' & F'). exists (l ++ l').
    rewrite E', E, app_assoc, forallb_app, F, F'. auto.
Qed.

Lemma emits_try_except (m : M A) (classes : list exn_class) (h : exn -> M A) :
  emits P m -> (forall e, emits P (h e)) -> emits P (try_except m classes h).
Proof.
  intros Hm Hh s. unfold try_except. destruct (Hm s) as (l & E & F).
  destruct (m s) as [s' [e | a]]; simpl in *.
  - destruct (isinstance e classes).
    + destruct (Hh e s') as (l' & E' & F'). exists (l ++ l').
      rewrite E', E, app_assoc, forallb_app, F, F'. auto.
    + exists l. auto.
  - exists l. auto.
Qed.

Lemma emits_try_except_Exception (m : M A) (h : exn -> M A) :
  emits P m -> (forall e, emits P (h e)) -> emits P (try_except_Exception m h).
Proof.
  intros Hm Hh s. unfold try_except_Exception. destruct (Hm s) as (l & E & F).
  destruct (m s) as [s' [e | a]]; simpl in *.
  - destruct (Hh e s') as (l' & E' & F'). exists (l ++ l').
    rewrite E', E, app_assoc, forallb_app, F, F'. auto.
  - exists l. auto.
Qed.

Lemma emits_weaken (Q : event -> bool) (m : M A) :
  (forall ev, Q ev = true -> P ev = true) -> emits Q m -> emits P m.
Proof.
  intros H Hm s. destruct (Hm s) as (l & E & F). exists l. split; [exact E |].
  rewrite forallb_forall in *. auto.
Qed.

Lemma emits_added (m : M A) (s : state) :
  emits P m -> forallb P (added m s) = true.
Proof.
  intros Hm. destruct (Hm s) as (l & E & F). rewrite (added_app m s l E). exact F.
Qed.

(** *** Outcomes *)

Lemma fails_raise (e : exn) : fails (@raise A e).
Proof. intros s. exists e. reflexivity. Qed.

Lemma fails_bind_l (m : M A) (f : A -> M B) : fails m -> fails (bind m f).
Proof.
  intros Hm s. unfold bind. destruct (Hm s) as (e & E).
  destruct (m s) as [s' [e' | a]]; simpl in *; [eauto | discriminate].
Qed.

Lemma fails_bind_r (R : A -> Prop) (m : M A) (f : A -> M B) :
  yields R m -> (forall a, R a -> fails (f a)) -> fails (bind m f).
Proof.
  intros Hm Hf s. unfold bind. specialize (Hm s).
  destruct (m s) as [s' [e' | a]]; simpl in *; [eauto |].
  apply Hf. apply Hm. reflexivity.
Qed.

Lemma yields_ret (R : A -> Prop) (a : A) : R a -> yields R (ret a).
Proof. intros H s a' E. simpl in E. congruence. Qed.

Lemma yields_raise (R : A -> Prop) (e : exn) : yields R (@raise A e).
Proof. intros s a' E. discriminate. Qed.

Lemma yields_bind (R : B -> Prop) (m : M A) (f : A -> M B) :
  (forall a, yields R (f a)) -> yields R (bind m f).
Proof.
  intros Hf s b. unfold bind. destruct (m s) as [s' [e' | a]]; simpl.
  - discriminate.
  - apply Hf.
Qed.

Lemma yields_after (R1 : A -> Prop) (R2 : B -> Prop) (m : M A) (f : A -> M B) :
  yields R1 m -> (forall a, R1 a -> yields R2 (f a)) -> yields R2 (bind m f).
Proof.
  intros Hm Hf s b. unfold bind. specialize (Hm s).
  destruct (m s) as [s' [e' | a]]; simpl.
  - discriminate.
  - apply Hf. apply Hm. reflexivity.
Qed.

Lemma succeeds_ret (a : A) : succeeds (ret a).
Proof. intros s. exists a. reflexivity. Qed.

Lemma succeeds_bind (m : M A) (f : A -> M B) :
  succeeds m -> (forall a, succeeds (f a)) -> succeeds (bind m f).
Proof.
  intros Hm Hf s. unfold bind. destruct (Hm s) as (a & E).
  destruct (m s) as [s' [e' | a']]; simpl in *; [discriminate |]. apply Hf.
Qed.

Lemma raises_raise (e : exn) : raises e (@raise A e).
Proof. intros s. reflexivity. Qed.

Lemma raises_bind (R : A -> Prop) (e : exn) (m : M A) (f : A -> M B) :
  succeeds m -> yields R m -> (forall a, R a -> raises e (f a)) ->
  raises e (bind m f).
Proof.
  intros Hm Hy Hf s. unfold bind. destruct (Hm s) as (a & E). specialize (Hy s).
  destruct (m s) as [s' [e' | a']]; simpl in *; [discriminate |].
  apply Hf. apply Hy. reflexivity.
Qed.

End Rules.

Lemma emits_logger (P : event -> bool) (lvl : level) (msg : string) :
  P (Log lvl msg) = true -> emits P (logger lvl msg).
Proof. intros H s. exists [Log lvl msg]. simpl. rewrite H. auto. Qed.

Lemma emits_sleep (P : event -> bool) (n : nat) :
  P (Sleep n) = true -> emits P (sleep n).
Proof. intros H s. exists [Sleep n]. simpl. rewrite H. auto. Qed.

Lemma emits_when (P : event -> bool) (b : bool) (m : M unit) :
  emits P m -> emits P (when b m).
Proof. intros H. destruct b; [exact H | apply emits_ret]. Qed.

Lemma emits_assert (P : event -> bool) (b : bool) : emits P (assert b).
Proof. destruct b; [apply emits_ret | apply emits_raise]. Qed.

Lemma emits_get_DEFAULT_STORAGECLASS (P : event -> bool) :
  emits P get_DEFAULT_STORAGECLASS.
Proof. intros s. exists []. simpl. rewrite app_nil_r. auto. Qed.

Lemma emits_set_DEFAULT_STORAGECLASS (P : event -> bool) (v : option string) :
  emits P (set_DEFAULT_STORAGECLASS v).
Proof. intros s. exists []. simpl. rewrite app_nil_r. auto. Qed.

Lemma emits_set_CEPHFILESYSTEM_NAME (P : event -> bool) (v : string) :
  emits P (set_CEPHFILESYSTEM_NAME v).
Proof. intros s. exists []. simpl. rewrite app_nil_r. auto. Qed.

Lemma emits_set_is_ocp_deployment_failed (P : event -> bool) (v : bool) :
  emits P (set_is_ocp_deployment_failed v).
Proof. intros s. exists []. simpl. rewrite app_nil_r. auto. Qed.

Lemma emits_for_each {X S : Type} (P : event -> bool) (l : list X)
    (body : X -> S -> M S) :
  (forall x acc, emits P (body x acc)) -> forall acc, emits P (for_each l body acc).
Proof.
  intros H. induction l as [| x l IH]; intros acc; simpl.
  - apply emits_ret.
  - apply emits_bind; [apply H | intros a; apply IH].
Qed.

Lemma emits_retry_from {X : Type} (P : event -> bool) (classes : list exn_class)
    (more delay backoff : nat) (f : M X) :
  P (Sleep delay) = true ->
  (forall d, P (Sleep d) = true) ->
  emits P f -> emits P (retry_from classes more delay backoff f).
Proof.
  intros _ Hs Hf. revert delay.
  induction more as [| n IH]; intros delay; simpl.
  - exact Hf.
  - apply emits_try_except; [exact Hf |].
    intros e. apply emits_bind; [apply emits_sleep; apply Hs | intros _; apply IH].
Qed.

(** Works through a program, leaving the side conditions on the entries
    to evaluation. *)
Ltac emit_step :=
  first
    [ apply emits_ret
    | apply emits_raise
    | apply emits_logger; reflexivity
    | apply emits_sleep; reflexivity
    | apply emits_ask; reflexivity
    | apply emits_assert
    | apply emits_get_DEFAULT_STORAGECLASS
    | apply emits_set_DEFAULT_STORAGECLASS
    | apply emits_set_CEPHFILESYSTEM_NAME
    | apply emits_set_is_ocp_deployment_failed
    | apply emits_when
    | apply emits_bind; [| intros ?]
    | apply emits_try_except; [| intros ?]
    | apply emits_try_except_Exception; [| intros ?]
    | apply emits_for_each; intros ? ?
    | apply emits_retry_from; [reflexivity | intros ?; reflexivity |]
    | match goal with
      | |- emits _ (if ?b then _ else _) => destruct b
      | |- emits _ (match ?x with _ => _ end) => destruct x
      | |- emits _ (let (_, _) := ?x in _) => destruct x
      end ].

Ltac emit_with unfolder := repeat (first [emit_step | progress unfolder]).

Section ReturnRules.

Context {A B : Type}.

Lemma returns_ret (R : A -> Prop) (a : A) : R a -> returns R (ret a).
Proof. intros H s. exists a. auto. Qed.

Lemma returns_bind (R1 : A -> Prop) (R2 : B -> Prop) (m : M A) (f : A -> M B) :
  returns R1 m -> (forall a, R1 a -> returns R2 (f a)) -> returns R2 (bind m f).
Proof.
  intros Hm Hf s. unfold bind. destruct (Hm s) as (a & E & Ha).
  destruct (m s) as [s' [e' | a']]; simpl in *; [discriminate |].
  inversion E; subst. apply Hf. exact Ha.
Qed.

Lemma returns_then (R2 : B -> Prop) (m : M A) (f : A -> M B) :
  returns (fun _ => True) m -> (forall a, returns R2 (f a)) -> returns R2 (bind m f).
Proof. intros Hm Hf. apply (returns_bind (fun _ => True)); auto. Qed.

Lemma returns_weaken (R1 R2 : A -> Prop) (m : M A) :
  (forall a, R1 a -> R2 a) -> returns R1 m -> returns R2 m.
Proof. intros H Hm s. destruct (Hm s) as (a & E & Ha). eauto. Qed.

Lemma returns_ask (answer : journal -> event -> exn + A) (ev : event) :
  (forall j, exists v, answer j ev = inr v) -> returns (fun _ => True) (ask answer ev).
Proof. intros H s. destruct (H (st_journal s)) as (v & E). exists v. simpl. auto. Qed.

Lemma raises_after (R1 : A -> Prop) (e : exn) (m : M A) (f : A -> M B) :
  returns R1 m -> (forall a, R1 a -> raises e (f a)) -> raises e (bind m f).
Proof.
  intros Hm Hf s. unfold bind. destruct (Hm s) as (a & E & Ha).
  destruct (m s) as [s' [e' | a']]; simpl in *; [discriminate |].
  inversion E; subst. apply Hf. exact Ha.
Qed.

Lemma raises_then (e : exn) (m : M A) (f : A -> M B) :
  returns (fun _ => True) m -> (forall a, raises e (f a)) -> raises e (bind m f).
Proof. intros Hm Hf. apply (raises_after (fun _ => True)); auto. Qed.

Lemma raises_first (e : exn) (m : M A) (f : A -> M B) :
  raises e m -> raises e (bind m f).
Proof.
  intros Hm s. unfold bind. specialize (Hm s).
  destruct (m s) as [s' [e' | a']]; simpl in *; congruence.
Qed.

Lemma emits_bind_fails (P : event -> bool) (m : M A) (f : A -> M B) :
  emits P m -> fails m -> emits P (bind m f).
Proof.
  intros Hm Hf s. unfold bind. destruct (Hm s) as (l & E & F).
  destruct (Hf s) as (e & Ee).
  destruct (m s) as [s' [e' | a']]; simpl in *; [| discriminate].
  exists l. auto.
Qed.

Lemma fails_outcome (m : M A) (s : state) :
  fails m -> exists e, outcome m s = inl e.
Proof. intros H. apply H. Qed.

End ReturnRules.

Lemma returns_logger (lvl : level) (msg : string) :
  returns (fun _ => True) (logger lvl msg).
Proof. intros s. exists tt. auto. Qed.

Lemma returns_when (b : bool) (m : M unit) :
  returns (fun _ => True) m -> returns (fun _ => True) (when b m).
Proof. intros H. destruct b; [exact H | apply returns_ret; exact I]. Qed.

Lemma returns_get_DEFAULT_STORAGECLASS :
  returns (fun _ => True) get_DEFAULT_STORAGECLASS.
Proof. intros s. eexists. split; [reflexivity | exact I]. Qed.

Lemma returns_set_DEFAULT_STORAGECLASS (v : option string) :
  returns (fun _ => True) (set_DEFAULT_STORAGECLASS v).
Proof. intros s. exists tt. auto. Qed.

Lemma nothing_submitted (j : journal) :
  forallb no_cluster_manifest j = true -> submitted j = false.
Proof.
  induction j as [| ev j IH]; [reflexivity |].
  simpl. intros H. apply andb_true_iff in H. destruct H as [Hev Hj].
  destruct ev as [lvl msg | n | [d | d | d] path | fn args];
    try (apply IH; exact Hj).
  discriminate.
Qed.

(** ** C3: encryption at rest *)

Section Encryption.

Variables (K : Names) (cfg : Config) (env : Env).
Variable v : Py.pyfloat.

Hypothesis encryption_requested : encryption_at_rest cfg = true.
Hypothesis not_ibm_power : (platform cfg =? IBM_POWER_PLATFORM K) = false.
Hypothesis version_parsed : Py.float (ocs_version cfg) = Some v.
Hypothesis version_too_old : Py.lt v v4_6 = true.

Ltac unfold_driver :=
  unfold deploy_ocs_via_operator, subscribe_ocs, wait_for_csv,
    create_ocs_operator_source, deployment_with_ui, storage_cluster_spec,
    generic_deviceset, ibm_power_deviceset, smallest_pv_size, index, float,
    run_cmd, NamedTemporaryFile, dump_data_to_temp_yaml,
    call_unit, call_bool, call_str, call_strs.

Lemma generic_deviceset_version (c : StorageCluster) :
  yields (fun r => snd r = v) (generic_deviceset K cfg env c).
Proof.
  unfold generic_deviceset.
  apply yields_bind; intros d0. apply yields_bind; intros d1.
  apply yields_bind; intros sc. unfold float at 1. rewrite version_parsed.
  intros s. unfold bind at 1, ret at 1. revert s.
  apply yields_bind; intros ocp_s. apply yields_bind; intros ocp_v.
  destruct (local_storage cfg); cbv zeta;
    repeat match goal with
           | |- yields _ (if ?b then _ else _) => destruct b
           end;
    apply yields_ret; reflexivity.
Qed.

Lemma storage_cluster_spec_fails : fails (storage_cluster_spec K cfg env).
Proof.
  unfold storage_cluster_spec. rewrite not_ibm_power, encryption_requested.
  apply (fails_bind_r (fun _ => True)); [intros s a _; exact I |].
  intros c _.
  apply (fails_bind_r (fun r : StorageCluster * list DeviceSet * option Py.pyfloat =>
                         snd r = Some v)).
  - apply (yields_after (fun r => snd r = v));
      [apply generic_deviceset_version |].
    intros [[c' d'] v'] E. simpl in E. subst v'.
    apply yields_ret. reflexivity.
  - intros [[c' ds] ov] E. simpl in E. subst ov.
    rewrite version_too_old.
    apply fails_bind_r with (R := fun _ => True); [intros s a _; exact I |].
    intros _ _. apply fails_raise.
Qed.

Ltac unfold_outer :=
  unfold deploy_ocs_via_operator, subscribe_ocs, wait_for_csv,
    create_ocs_operator_source, deployment_with_ui,
    run_cmd, NamedTemporaryFile, dump_data_to_temp_yaml,
    call_unit, call_bool, call_str, call_strs.

Lemma storage_cluster_spec_no_manifest :
  emits no_cluster_manifest (storage_cluster_spec K cfg env).
Proof. emit_with unfold_driver. Qed.

Lemma deploy_ocs_via_operator_no_manifest :
  emits no_cluster_manifest (deploy_ocs_via_operator K cfg env).
Proof.
  repeat first
    [ match goal with
      | |- emits _ (bind (storage_cluster_spec _ _ _) _) =>
          apply emits_bind_fails;
          [apply storage_cluster_spec_no_manifest | apply storage_cluster_spec_fails]
      end
    | emit_step
    | progress unfold_outer ].
Qed.

Lemma fails_anyway {A B : Type} (m : M A) (f : A -> M B) :
  (forall a, fails (f a)) -> fails (bind m f).
Proof.
  intros H. apply (fails_bind_r (fun _ => True)); [intros s a _; exact I | auto].
Qed.

Lemma deploy_ocs_via_operator_fails :
  ui_deployment cfg = false -> fails (deploy_ocs_via_operator K cfg env).
Proof.
  intros Hui. unfold deploy_ocs_via_operator. rewrite Hui.
  repeat first
    [ match goal with
      | |- fails (bind (storage_cluster_spec _ _ _) _) =>
          apply fails_bind_l; apply storage_cluster_spec_fails
      end
    | apply fails_anyway; intros ? ].
Qed.

(** *** When every collaborator answers *)

Hypothesis cooperation : cooperative env.

Lemma ask_unit_returns (ev : event) : returns (fun _ => True) (ask (ans_unit env) ev).
Proof.
  apply returns_ask. intros j. exists tt. apply (proj1 cooperation).
Qed.

Lemma ask_bool_returns (ev : event) : returns (fun _ => True) (ask (ans_bool env) ev).
Proof. apply returns_ask. intros j. apply (proj1 (proj2 cooperation)). Qed.

Lemma ask_str_returns (ev : event) : returns (fun _ => True) (ask (ans_str env) ev).
Proof. apply returns_ask. intros j. apply (proj1 (proj2 (proj2 cooperation))). Qed.

Lemma ask_subscription_returns (ev : event) :
  returns (fun _ => True) (ask (ans_subscription env) ev).
Proof.
  apply returns_ask. intros j.
  apply (proj1 (proj2 (proj2 (proj2 (proj2 (proj2 cooperation)))))).
Qed.

Lemma ask_strs_returns (ev : event) :
  returns (fun l => l <> []) (ask (ans_strs env) ev).
Proof.
  intros s.
  destruct (proj1 (proj2 (proj2 (proj2 (proj2 cooperation)))) (st_journal s) ev)
    as (x & l & E).
  exists (x :: l). simpl. split; [exact E | discriminate].
Qed.

Lemma ask_cluster_returns (ev : event) :
  returns (fun c => sc_storageDeviceSets c <> []) (ask (ans_cluster env) ev).
Proof.
  intros s.
  destruct (proj2 (proj2 (proj2 (proj2 (proj2 (proj2 cooperation))))) (st_journal s) ev)
    as (c & d & ds & E & F).
  exists c. simpl. split; [exact E | rewrite F; discriminate].
Qed.

Lemma ocp_version_returns :
  returns (fun t => exists q, Py.float t = Some q)
          (call_str env "get_ocp_version" []).
Proof.
  intros s.
  destruct (proj1 (proj2 (proj2 (proj2 cooperation))) (st_journal s)) as (t & q & E & F).
  exists t. simpl. split; [exact E | eauto].
Qed.

Lemma smallest_pv_size_returns : returns (fun _ => True) (smallest_pv_size cfg env).
Proof.
  unfold smallest_pv_size, call_strs.
  apply (returns_bind (fun l => l <> [])); [apply ask_strs_returns |].
  intros [| x l] H; [congruence |]. simpl. apply returns_ret. exact I.
Qed.

Ltac returns_step :=
  first
    [ apply returns_ret; exact I
    | apply returns_logger
    | apply ask_unit_returns
    | apply ask_bool_returns
    | apply ask_str_returns
    | apply ask_subscription_returns
    | apply returns_get_DEFAULT_STORAGECLASS
    | apply returns_set_DEFAULT_STORAGECLASS
    | apply smallest_pv_size_returns
    | apply returns_when
    | apply returns_then; [| intros ?]
    | match goal with
      | |- returns _ (if ?b then _ else _) => destruct b
      | |- returns _ (match ?x with _ => _ end) => destruct x
      end ].

Lemma generic_deviceset_returns (c : StorageCluster) :
  sc_storageDeviceSets c <> [] ->
  returns (fun r => snd r = v) (generic_deviceset K cfg env c).
Proof.
  intros Hds. unfold generic_deviceset, index.
  destruct (sc_storageDeviceSets c) as [| d ds]; [congruence |]. simpl nth_error.
  apply returns_then; [returns_step |]. intros d0.
  apply returns_then; [repeat returns_step |]. intros d1.
  apply returns_then; [returns_step |]. intros sc.
  unfold float at 1. rewrite version_parsed.
  apply (returns_bind (fun a => a = v)); [apply returns_ret; reflexivity |].
  intros a ->.
  apply (returns_bind (fun t => exists q, Py.float t = Some q));
    [apply ocp_version_returns |].
  intros t (q & Hq). unfold float. rewrite Hq.
  apply returns_then; [returns_step |]. intros q'.
  destruct (local_storage cfg); cbv zeta;
    repeat match goal with
           | |- returns _ (if ?b then _ else _) => destruct b
           end;
    apply returns_ret; reflexivity.
Qed.

Lemma storage_cluster_spec_raises :
  raises encryption_error (storage_cluster_spec K cfg env).
Proof.
  unfold storage_cluster_spec. rewrite not_ibm_power, encryption_requested.
  apply (raises_after (fun c => sc_storageDeviceSets c <> []));
    [apply ask_cluster_returns |].
  intros c Hc.
  apply (raises_after (fun r : StorageCluster * list DeviceSet * option Py.pyfloat =>
                         snd r = Some v)).
  - apply (returns_bind (fun r => snd r = v));
      [apply generic_deviceset_returns; exact Hc |].
    intros [[c' d'] v'] E. simpl in E. subst v'. apply returns_ret. reflexivity.
  - intros [[c' ds] ov] E. simpl in E. subst ov.
    rewrite version_too_old.
    apply raises_then; [apply returns_logger |].
    intros _. apply raises_raise.
Qed.

Lemma deploy_ocs_via_operator_raises :
  ui_deployment cfg = false ->
  raises encryption_error (deploy_ocs_via_operator K cfg env).
Proof.
  intros Hui. unfold deploy_ocs_via_operator. rewrite Hui.
  repeat first
    [ match goal with
      | |- raises _ (bind (storage_cluster_spec _ _ _) _) =>
          apply raises_first; apply storage_cluster_spec_raises
      end
    | apply raises_then;
      [ repeat first [returns_step | progress unfold_outer] | intros ? ] ].
Qed.

End Encryption.

(** C3, amended.  With encryption at rest requested and an OCS version
    that, read as a float, is below the float 4.6, on a platform other
    than IBM Power and outside the UI deployment,
    [deploy_ocs_via_operator] never returns normally and never submits a
    StorageCluster: whatever the collaborators answer, no StorageCluster
    manifest is written, so that no command creates one; and when the
    collaborators all answer, the exception raised is
    UnsupportedFeatureError with the text "Encryption at REST can be
    enabled only on OCS >= 4.6!".  (The create calls for the operator
    group, the operator source and the subscription precede the
    check.) *)
Theorem encryption_check_precedes_submission
    (K : Names) (cfg : Config) (env : Env) (v : Py.pyfloat) (s : state) :
  ui_deployment cfg = false ->
  encryption_at_rest cfg = true ->
  (platform cfg =? IBM_POWER_PLATFORM K) = false ->
  Py.float (ocs_version cfg) = Some v ->
  Py.lt v v4_6 = true ->
  (exists e, outcome (deploy_ocs_via_operator K cfg env) s = inl e)
  /\ forallb no_cluster_manifest (added (deploy_ocs_via_operator K cfg env) s) = true
  /\ submitted (added (deploy_ocs_via_operator K cfg env) s) = false
  /\ (cooperative env ->
      outcome (deploy_ocs_via_operator K cfg env) s = inl encryption_error).
Proof.
  intros Hui Henc Hibm Hver Hlt.
  assert (Hnone : forallb no_cluster_manifest
                    (added (deploy_ocs_via_operator K cfg env) s) = true).
  { apply emits_added.
    apply (deploy_ocs_via_operator_no_manifest K cfg env v); assumption. }
  split; [| split; [exact Hnone | split]].
  - apply fails_outcome. apply (deploy_ocs_via_operator_fails K cfg env v); assumption.
  - apply nothing_submitted. exact Hnone.
  - intros Hco.
    apply (deploy_ocs_via_operator_raises K cfg env v); assumption.
Qed.

(** ** C5: the approval of the install plan *)

Lemma scan_app (q : sub_phase) (l1 l2 : journal) :
  scan q (l1 ++ l2) = match scan q l1 with
                      | Some q' => scan q' l2
                      | None => None
                      end.
Proof.
  revert q. induction l1 as [| ev l1 IH]; intros q; simpl; [reflexivity |].
  destruct (advance q ev); [apply IH | reflexivity].
Qed.

Lemma scan_approved (l : journal) : scan PlanApproved l = Some PlanApproved.
Proof.
  induction l as [| ev l IH]; simpl; [reflexivity |].
  unfold advance. destruct (is_csv_poll ev); [exact IH |].
  destruct (is_approval ev); exact IH.
Qed.

Section TrackRules.

Context {A B : Type}.

Lemma tracks_ret (q : sub_phase) (a : A) : tracks q (ret a) q.
Proof.
  intros s. exists [], q. simpl. rewrite app_nil_r. auto.
Qed.

Lemma tracks_raise (q q' : sub_phase) (e : exn) : tracks q (@raise A e) q'.
Proof.
  intros s. exists [], q. simpl. rewrite app_nil_r.
  repeat split. intros a H. discriminate.
Qed.

Lemma tracks_ask (q q' : sub_phase) (answer : journal -> event -> exn + A)
    (ev : event) :
  advance q ev = Some q' -> tracks q (ask answer ev) q'.
Proof.
  intros H s. exists [ev], q'. simpl. rewrite H. auto.
Qed.

Lemma tracks_bind (q q1 q2 : sub_phase) (m : M A) (f : A -> M B) :
  tracks q m q1 -> (forall a, tracks q1 (f a) q2) -> tracks q (bind m f) q2.
Proof.
  intros Hm Hf s. unfold bind. destruct (Hm s) as (l & qe & E & S & R).
  destruct (m s) as [s' [e | a]]; simpl in *.
  - exists l, qe. repeat split; auto. intros a H. discriminate.
  - rewrite (R a eq_refl) in S.
    destruct (Hf a s') as (l' & qe' & E' & S' & R').
    exists (l ++ l'), qe'. rewrite E', E, app_assoc, scan_app, S. auto.
Qed.

Lemma tracks_approved (m : M A) :
  emits anything m -> tracks PlanApproved m PlanApproved.
Proof.
  intros Hm s. destruct (Hm s) as (l & E & _).
  exists l, PlanApproved. rewrite scan_approved. auto.
Qed.

End TrackRules.

Lemma tracks_logger (q : sub_phase) (lvl : level) (msg : string) :
  tracks q (logger lvl msg) q.
Proof.
  intros s. exists [Log lvl msg], q. simpl.
  destruct q; simpl; auto.
Qed.

Lemma tracks_when (q : sub_phase) (b : bool) (m : M unit) :
  tracks q m q -> tracks q (when b m) q.
Proof. intros H. destruct b; [exact H | apply tracks_ret]. Qed.

Lemma tracks_set_DEFAULT_STORAGECLASS (q : sub_phase) (v : option string) :
  tracks q (set_DEFAULT_STORAGECLASS v) q.
Proof. intros s. exists [], q. simpl. rewrite app_nil_r. auto. Qed.

(** What a journal in order says about its entries. *)
Lemma scan_split (l1 : journal) (ev : event) (l2 : journal) (q qe : sub_phase) :
  scan q (l1 ++ ev :: l2) = Some qe ->
  exists q1 q2, scan q l1 = Some q1 /\ advance q1 ev = Some q2.
Proof.
  rewrite scan_app. destruct (scan q l1) as [q1 |]; [| discriminate].
  simpl. destruct (advance q1 ev) as [q2 |] eqn:E; [| discriminate].
  intros _. exists q1, q2. auto.
Qed.

Lemma advance_cases (q q' : sub_phase) (ev : event) :
  advance q ev = Some q' ->
  q' = q
  \/ (q = NotSubscribed /\ q' = ManifestWritten /\ is_subscription_manifest ev = true)
  \/ (q = ManifestWritten /\ q' = SubscriptionCreated /\ is_create_call ev = true)
  \/ (q = SubscriptionCreated /\ q' = PlanApproved /\ is_approval ev = true).
Proof.
  unfold advance.
  destruct (is_csv_poll ev); [destruct q; intros H; inversion H; auto |].
  destruct (is_approval ev); [destruct q; intros H; inversion H; auto 6 |].
  destruct q; [| | intros H; inversion H; auto .. ].
  - destruct (is_subscription_manifest ev); intros H; inversion H; auto 6.
  - destruct (is_create_call ev); intros H; inversion H; auto 6.
Qed.

Lemma scan_reaches_approved (l : journal) (q : sub_phase) :
  scan q l = Some PlanApproved -> q = PlanApproved \/ existsb is_approval l = true.
Proof.
  revert q. induction l as [| ev l IH]; intros q; simpl.
  - intros H. left. congruence.
  - destruct (advance q ev) as [q' |] eqn:E; [| discriminate].
    intros H. destruct (IH q' H) as [-> | Hl].
    + destruct (advance_cases _ _ _ E)
        as [<- | [(_ & F & _) | [(_ & F & _) | (_ & _ & F)]]];
        try discriminate; [auto |].
      right. rewrite F. reflexivity.
    + right. rewrite Hl. apply orb_true_r.
Qed.

Lemma scan_reaches_created (l : journal) (q : sub_phase) :
  scan q l = Some SubscriptionCreated \/ scan q l = Some PlanApproved ->
  q = SubscriptionCreated \/ q = PlanApproved
  \/ exists a cr b, l = a ++ cr :: b /\ is_create_call cr = true
                    /\ (q = ManifestWritten
                        \/ existsb is_subscription_manifest a = true).
Proof.
  revert q. induction l as [| ev l IH]; intros q; simpl.
  - intros [H | H]; inversion H; auto.
  - destruct (advance q ev) as [q' |] eqn:E; [| intros [H | H]; discriminate].
    intros H. destruct (IH q' H) as [-> | [-> | (a & cr & b & -> & Hc & Ha)]].
    + destruct (advance_cases _ _ _ E)
        as [<- | [(_ & F & _) | [(-> & _ & F) | (_ & F & _)]]];
        try discriminate; [auto |].
      right. right. exists [], ev, l. auto.
    + destruct (advance_cases _ _ _ E)
        as [<- | [(_ & F & _) | [(_ & F & _) | (-> & _ & _)]]];
        try discriminate; auto.
    + right. right. exists (ev :: a), cr, b. repeat split; auto.
      destruct Ha as [-> | Ha].
      * destruct (advance_cases _ _ _ E)
          as [<- | [(_ & _ & F) | [(_ & F & _) | (_ & F & _)]]];
          try discriminate; [auto |].
        right. simpl. rewrite F. reflexivity.
      * right. simpl. rewrite Ha. apply orb_true_r.
Qed.

Section Approval.

Variables (K : Names) (cfg : Config) (env : Env).

Ltac unfold_all :=
  unfold deploy_ocs_via_operator, subscribe_ocs, wait_for_csv,
    create_ocs_operator_source, deployment_with_ui, storage_cluster_spec,
    generic_deviceset, ibm_power_deviceset, smallest_pv_size, index, float,
    run_cmd, NamedTemporaryFile, dump_data_to_temp_yaml,
    call_unit, call_bool, call_str, call_strs.

Ltac track_step :=
  first
    [ match goal with
      | |- tracks PlanApproved _ _ => apply tracks_approved; emit_with unfold_all
      end
    | apply tracks_ret
    | apply tracks_raise
    | apply tracks_logger
    | eapply tracks_ask; reflexivity
    | apply tracks_when
    | apply tracks_set_DEFAULT_STORAGECLASS
    | eapply tracks_bind; [| intros ?]
    | match goal with
      | |- tracks _ (if ?b then _ else _) _ => destruct b
      | |- tracks _ (match ?x with _ => _ end) _ => destruct x
      end ].

Lemma subscribe_ocs_never_approves :
  plan_approval_is_manual cfg = false ->
  emits not_approval (subscribe_ocs K cfg env).
Proof.
  intros H. unfold subscribe_ocs. rewrite H. emit_with unfold_all.
Qed.

Lemma deploy_ocs_via_operator_never_approves :
  plan_approval_is_manual cfg = false ->
  emits not_approval (deploy_ocs_via_operator K cfg env).
Proof.
  intros H. unfold deploy_ocs_via_operator, subscribe_ocs. rewrite H.
  emit_with unfold_all.
Qed.

Lemma subscribe_ocs_in_order :
  plan_approval_is_manual cfg = true ->
  tracks NotSubscribed (subscribe_ocs K cfg env) PlanApproved.
Proof.
  intros H. unfold subscribe_ocs. rewrite H.
  unfold run_cmd, NamedTemporaryFile, dump_data_to_temp_yaml,
    call_unit, call_bool, call_str, call_strs.
  repeat track_step.
Qed.

Lemma deploy_ocs_via_operator_in_order :
  plan_approval_is_manual cfg = true ->
  exists q, tracks NotSubscribed (deploy_ocs_via_operator K cfg env) q.
Proof.
  intros H. unfold deploy_ocs_via_operator.
  destruct (ui_deployment cfg).
  - exists NotSubscribed.
    unfold create_ocs_operator_source, deployment_with_ui,
      call_unit, call_bool, call_str, call_strs.
    repeat track_step.
  - exists PlanApproved.
    repeat first
      [ match goal with
        | |- tracks _ (bind (subscribe_ocs _ _ _) _) _ =>
            eapply tracks_bind; [apply subscribe_ocs_in_order; exact H | intros ?]
        end
      | track_step
      | progress unfold create_ocs_operator_source, run_cmd,
          call_unit, call_bool, call_str, call_strs ].
Qed.

Lemma deploy_ocs_via_operator_approves :
  plan_approval_is_manual cfg = true ->
  ui_deployment cfg = false ->
  tracks NotSubscribed (deploy_ocs_via_operator K cfg env) PlanApproved.
Proof.
  intros H Hui. unfold deploy_ocs_via_operator. rewrite Hui.
  repeat first
    [ match goal with
      | |- tracks _ (bind (subscribe_ocs _ _ _) _) _ =>
          eapply tracks_bind; [apply subscribe_ocs_in_order; exact H | intros ?]
      end
    | track_step
    | progress unfold create_ocs_operator_source, run_cmd,
        call_unit, call_bool, call_str, call_strs ].
Qed.

Lemma manual_iff :
  plan_approval_is_manual cfg = true <-> subscription_plan_approval cfg = Some "Manual"%string.
Proof.
  unfold plan_approval_is_manual. destruct (subscription_plan_approval cfg) as [m |].
  - rewrite String.eqb_eq. split; congruence.
  - split; discriminate.
Qed.

Lemma approval_is_no_poll (ev : event) :
  is_approval ev = true -> is_csv_poll ev = false.
Proof.
  unfold is_approval, is_csv_poll, is_call. intros H.
  apply String.eqb_eq in H. rewrite H. reflexivity.
Qed.

(** C5.  Unless the configured approval mode is "Manual", no run of
    [subscribe_ocs] or of [deploy_ocs_via_operator] calls
    [wait_for_install_plan_and_approve].  With "Manual", a run of
    [subscribe_ocs] that returns has called it, and so has a run of
    [deploy_ocs_via_operator] that returns (outside the UI deployment,
    which does not subscribe); and in every run of
    [deploy_ocs_via_operator] each poll of the CSV phase comes after a
    call of it, and each call of it comes after the Subscription
    manifest was written and a create command was run. *)
Theorem install_plan_approval_iff_manual (s : state) :
  (subscription_plan_approval cfg <> Some "Manual"%string ->
     forallb not_approval (added (subscribe_ocs K cfg env) s) = true
     /\ forallb not_approval (added (deploy_ocs_via_operator K cfg env) s) = true)
  /\
  (subscription_plan_approval cfg = Some "Manual"%string ->
     (outcome (subscribe_ocs K cfg env) s = inr tt ->
      existsb is_approval (added (subscribe_ocs K cfg env) s) = true)
     /\ (ui_deployment cfg = false ->
         outcome (deploy_ocs_via_operator K cfg env) s = inr tt ->
         existsb is_approval (added (deploy_ocs_via_operator K cfg env) s) = true)
     /\ forall l1 ev l2,
          added (deploy_ocs_via_operator K cfg env) s = l1 ++ ev :: l2 ->
          (is_csv_poll ev = true -> existsb is_approval l1 = true)
          /\ (is_approval ev = true ->
              exists a cr b,
                l1 = a ++ cr :: b /\ is_create_call cr = true
                /\ existsb is_subscription_manifest a = true)).
Proof.
  split.
  - intros H.
    assert (M : plan_approval_is_manual cfg = false).
    { destruct (plan_approval_is_manual cfg) eqn:E; [| reflexivity].
      apply manual_iff in E. contradiction. }
    split; apply emits_added;
      [apply subscribe_ocs_never_approves | apply deploy_ocs_via_operator_never_approves];
      exact M.
  - intros H. apply manual_iff in H. split; [| split].
    + intros Hok.
      destruct (subscribe_ocs_in_order H s) as (l & qe & E & S & R).
      rewrite (added_app _ _ _ E).
      rewrite (R tt Hok) in S.
      destruct (scan_reaches_approved _ _ S) as [F | F]; [discriminate | exact F].
    + intros Hui Hok.
      destruct (deploy_ocs_via_operator_approves H Hui s) as (l & qe & E & S & R).
      rewrite (added_app _ _ _ E).
      rewrite (R tt Hok) in S.
      destruct (scan_reaches_approved _ _ S) as [F | F]; [discriminate | exact F].
    + intros l1 ev l2 Hsplit.
      destruct (deploy_ocs_via_operator_in_order H) as (q & T).
      destruct (T s) as (l & qe & E & S & _).
      rewrite (added_app _ _ _ E) in Hsplit. subst l.
      destruct (scan_split _ _ _ _ _ S) as (q1 & q2 & S1 & Adv).
      split.
      * intros Hpoll. unfold advance in Adv. rewrite Hpoll in Adv.
        destruct q1; try discriminate.
        destruct (scan_reaches_approved _ _ S1) as [F | F]; [discriminate | exact F].
      * intros Happ. unfold advance in Adv.
        rewrite (approval_is_no_poll _ Happ), Happ in Adv.
        assert (C : scan NotSubscribed l1 = Some SubscriptionCreated
                    \/ scan NotSubscribed l1 = Some PlanApproved).
        { destruct q1; try discriminate; auto. }
        destruct (scan_reaches_created _ _ C)
          as [F | [F | (a & cr & b & -> & Hc & [F | Ha])]]; try discriminate.
        exists a, cr, b. auto.
Qed.

End Approval.

(** ** C9: the validations of the monitoring stack *)

Lemma attempts_more (ev : event) (delay k : nat) :
  1 <= k -> attempts ev delay (S k) = ev :: Sleep delay :: attempts ev delay k.
Proof. intros H. destruct k; [lia | reflexivity]. Qed.

Lemma retry_from_next {X : Type} (classes : list exn_class)
    (answer : journal -> event -> exn + X) (ev : event) (delay n : nat) (s : state) :
  retry_from classes (S n) delay 1 (ask answer ev) s
  = match answer (st_journal s) ev with
    | inl e =>
        if isinstance e classes
        then retry_from classes n delay 1 (ask answer ev)
               (push (Sleep delay) (push ev s))
        else (push ev s, inl e)
    | inr x => (push ev s, inr x)
    end.
Proof.
  simpl retry_from. rewrite Nat.mul_1_r. unfold try_except.
  change (ask answer ev s) with (push ev s, answer (st_journal s) ev).
  destruct (answer (st_journal s) ev) as [e | x]; [| reflexivity].
  destruct (isinstance e classes); reflexivity.
Qed.

Lemma attempts_from_positive {X : Type} (answer : journal -> event -> exn + X)
    (classes : list exn_class) (more delay : nat) (j : journal) (ev : event) :
  1 <= attempts_from answer classes more delay j ev.
Proof.
  destruct more as [| n]; simpl; [lia |].
  destruct (retried classes (answer j ev)); lia.
Qed.

Lemma failed_attempts_last (ev : event) (delay k : nat) :
  attempts ev delay (S k) = failed_attempts ev delay k ++ [ev].
Proof.
  induction k as [| n IH]; [reflexivity |].
  rewrite attempts_more by lia. rewrite IH. reflexivity.
Qed.

(** The attempts that [retry] makes obey [retry_law]. *)
Lemma attempts_from_law {X : Type} (answer : journal -> event -> exn + X)
    (classes : list exn_class) (delay more : nat) (ev : event) :
  forall j, retry_law answer classes (S more) delay j ev
              (attempts_from answer classes more delay j ev).
Proof.
  induction more as [| n IH]; intros j.
  - simpl. repeat split; try lia.
  - simpl attempts_from.
    destruct (retried classes (answer j ev)) eqn:R.
    + destruct (IH (j ++ [ev; Sleep delay])) as (Hk & Hbefore & Hlast).
      set (k := attempts_from answer classes n delay (j ++ [ev; Sleep delay]) ev) in *.
      split; [lia |]. split.
      * intros [| i] Hi; simpl failed_attempts.
        -- rewrite app_nil_r. exact R.
        -- specialize (Hbefore i). rewrite <- app_assoc in Hbefore.
           apply Hbefore. lia.
      * intros Hlt. replace (S k - 1) with (S (k - 1)) by lia.
        simpl failed_attempts. rewrite <- app_assoc in Hlast. apply Hlast. lia.
    + repeat split; try lia. intros _. simpl. rewrite app_nil_r. exact R.
Qed.

(** [retry] around a single call, with a constant delay: the journal
    and the outcome, by the number of attempts that the answers allow. *)
Lemma retry_from_exact {X : Type} (classes : list exn_class)
    (answer : journal -> event -> exn + X) (ev : event) (delay more : nat) :
  forall s,
    let k := attempts_from answer classes more delay (st_journal s) ev in
    st_journal (fst (retry_from classes more delay 1 (ask answer ev) s))
    = st_journal s ++ attempts ev delay k
    /\ snd (retry_from classes more delay 1 (ask answer ev) s)
       = answer (st_journal s ++ failed_attempts ev delay (k - 1)) ev.
Proof.
  induction more as [| n IH]; intros s; cbv zeta.
  - simpl. rewrite app_nil_r. split; reflexivity.
  - rewrite retry_from_next. simpl attempts_from. unfold retried.
    destruct (answer (st_journal s) ev) as [e | x] eqn:A.
    + destruct (isinstance e classes) eqn:Hc.
      * assert (Jp : st_journal (push (Sleep delay) (push ev s))
                     = st_journal s ++ [ev; Sleep delay])
          by (rewrite !push_journal, <- app_assoc; reflexivity).
        specialize (IH (push (Sleep delay) (push ev s))). cbv zeta in IH.
        rewrite Jp in IH. destruct IH as (J & O).
        set (k := attempts_from answer classes n delay
                    (st_journal s ++ [ev; Sleep delay]) ev) in *.
        assert (Hk : 1 <= k) by apply attempts_from_positive.
        split.
        -- rewrite J, (attempts_more ev delay k) by exact Hk.
           rewrite <- app_assoc. reflexivity.
        -- rewrite O. replace (S k - 1) with (S (k - 1)) by lia.
           simpl failed_attempts. rewrite <- app_assoc. reflexivity.
      * simpl. rewrite app_nil_r. split; [reflexivity | exact (eq_sym A)].
    + simpl. rewrite app_nil_r. split; [reflexivity | exact (eq_sym A)].
Qed.

Section Monitoring.

Variables (K : Names) (cfg : Config) (env : Env).

Let classes_respin := [CommandFailed; ResourceWrongStatusException].
Let classes_mounted := [CommandFailed; AssertionError].

(** C9, amended.  When monitoring is enabled and persistent monitoring
    is requested, [deploy_ocs] gets the default storage class and the
    monitoring pods, reconfigures the monitoring stack, logs and sleeps
    45 seconds (these calls answering), and then validates: the respin
    of the pods, retried on CommandFailed and
    ResourceWrongStatusException with 3 attempts and a sleep of 15
    seconds in between; the PVCs being created and bound, called once,
    without retry; the PVCs being mounted, retried on CommandFailed and
    AssertionError with 3 attempts and a sleep of 15 seconds in between.
    The attempts of the first and of the third validation are exactly
    those of [retry_law]: another attempt follows, after the sleep, as
    long as the attempt fails with an exception of the retried classes
    and fewer than 3 attempts were made.  The outcome of the last
    attempt of the first validation, of the only call of the second, or
    of the last attempt of the third is the outcome of the run, a
    failure ending it at once. *)
Theorem monitoring_validations (s : state) (sc_name : string) (pods_list : list string) :
  monitoring_enabled cfg && persistent_monitoring cfg = true ->
  ans_str env (st_journal s) default_class_call = inr sc_name ->
  ans_strs env (st_journal s ++ [default_class_call]) (monitoring_pods_call K)
  = inr pods_list ->
  ans_unit env (st_journal s ++ [default_class_call; monitoring_pods_call K])
           (configmap_call cfg sc_name) = inr tt ->
  let respin := Call respin_validation pods_list in
  let bound := Call bound_validation [] in
  let mounted := Call mounted_validation pods_list in
  let j0 := st_journal s ++ monitoring_settled K cfg sc_name in
  let kR := attempts_made (ans_unit env) classes_respin 3 15 j0 respin in
  let rR := ans_unit env (j0 ++ failed_attempts respin 15 (kR - 1)) respin in
  let j1 := j0 ++ attempts respin 15 kR in
  let rB := ans_unit env j1 bound in
  let j2 := j1 ++ [bound] in
  let kM := attempts_made (ans_unit env) classes_mounted 3 15 j2 mounted in
  let rM := ans_unit env (j2 ++ failed_attempts mounted 15 (kM - 1)) mounted in
  retry_law (ans_unit env) classes_respin 3 15 j0 respin kR
  /\ retry_law (ans_unit env) classes_mounted 3 15 j2 mounted kM
  /\ added (configure_monitoring K cfg env) s
     = monitoring_settled K cfg sc_name
       ++ attempts respin 15 kR
       ++ match rR with
          | inl _ => []
          | inr _ => bound :: match rB with
                              | inl _ => []
                              | inr _ => attempts mounted 15 kM
                              end
          end
  /\ outcome (configure_monitoring K cfg env) s
     = match rR with
       | inl e => inl e
       | inr _ => match rB with
                  | inl e => inl e
                  | inr _ => rM
                  end
       end.
Proof.
  intros H A1 A2 A3. cbv zeta.
  split; [apply (attempts_from_law (ans_unit env) classes_respin 15 2) |].
  split; [apply (attempts_from_law (ans_unit env) classes_mounted 15 2) |].
  unfold outcome, added, attempts_made. simpl (3 - 1).
  remember (configure_monitoring K cfg env s) as r eqn:Er.
  unfold configure_monitoring in Er. rewrite H in Er.
  unfold call_str, call_strs, call_unit, retry in Er. simpl (3 - 1) in Er.
  fold default_class_call in Er. fold (monitoring_pods_call K) in Er.
  rewrite (run_bind _ _ s (push default_class_call s) sc_name) in Er
    by (unfold ask; rewrite A1; reflexivity).
  rewrite (run_bind _ _ _ (push (monitoring_pods_call K) (push default_class_call s))
             pods_list) in Er
    by (unfold ask; rewrite push_journal, A2; reflexivity).
  fold (configmap_call cfg sc_name) in Er.
  rewrite (run_bind _ _ _ (push (configmap_call cfg sc_name)
                             (push (monitoring_pods_call K) (push default_class_call s)))
             tt) in Er
    by (unfold ask; rewrite !push_journal, <- app_assoc; simpl app; rewrite A3;
        reflexivity).
  match type of Er with
  | _ = bind (logger ?l ?m) _ ?s1 =>
      rewrite (run_bind _ _ s1 (push (Log l m) s1) tt) in Er by reflexivity
  end.
  match type of Er with
  | _ = bind (sleep ?n) _ ?s1 =>
      rewrite (run_bind _ _ s1 (push (Sleep n) s1) tt) in Er by reflexivity
  end.
  match type of Er with
  | _ = bind _ _ ?s1 =>
      assert (J0 : st_journal s1 = st_journal s ++ monitoring_settled K cfg sc_name)
        by (rewrite !push_journal, <- !app_assoc; reflexivity);
      set (s0 := s1) in *
  end.
  clearbody s0.
  fold respin_validation bound_validation mounted_validation in Er.
  (* the respin of the pods *)
  pose proof (retry_from_exact classes_respin (ans_unit env)
                (Call respin_validation pods_list) 15 2 s0) as HR.
  cbv zeta in HR. rewrite J0 in HR. destruct HR as (JR & OR).
  destruct (retry_from classes_respin 2 15 1
              (ask (ans_unit env) (Call respin_validation pods_list)) s0)
    as [s1 rR] eqn:ER.
  simpl fst in JR. simpl snd in OR. rewrite <- OR.
  destruct rR as [eR | []].
  { rewrite (run_bind_raise _ _ s0 s1 eR ER) in Er.
    subst r. simpl fst. simpl snd. rewrite JR, <- app_assoc.
    rewrite skipn_app, skipn_all, Nat.sub_diag. rewrite app_nil_r.
    split; reflexivity. }
  rewrite (run_bind _ _ s0 s1 tt ER) in Er.
  (* the PVCs created and bound *)
  destruct (ans_unit env
              ((st_journal s ++ monitoring_settled K cfg sc_name)
               ++ attempts (Call respin_validation pods_list) 15
                    (attempts_from (ans_unit env) classes_respin 2 15
                       (st_journal s ++ monitoring_settled K cfg sc_name)
                       (Call respin_validation pods_list)))
              (Call bound_validation [])) as [eB | []] eqn:AB.
  { rewrite (run_bind_raise _ _ s1 (push (Call bound_validation []) s1) eB) in Er
      by (unfold ask; rewrite JR, AB; reflexivity).
    subst r. simpl fst. simpl snd. rewrite push_journal, JR, <- !app_assoc.
    rewrite skipn_app, skipn_all, Nat.sub_diag.
    split; reflexivity. }
  rewrite (run_bind _ _ s1 (push (Call bound_validation []) s1) tt) in Er
    by (unfold ask; rewrite JR, AB; reflexivity).
  (* the PVCs mounted *)
  pose proof (retry_from_exact classes_mounted (ans_unit env)
                (Call mounted_validation pods_list) 15 2
                (push (Call bound_validation []) s1)) as HM.
  cbv zeta in HM. rewrite push_journal, JR in HM. destruct HM as (JM & OM).
  unfold classes_mounted in JM, OM. rewrite <- Er in JM, OM.
  rewrite OM, JM, <- !app_assoc.
  rewrite skipn_app, skipn_all, Nat.sub_diag.
  split; reflexivity.
Qed.

End Monitoring.

(** ** C10: the probe finds no cluster *)

Section BeginRules.

Context {A B : Type}.

Lemma begins_ask (answer : journal -> event -> exn + A) (ev : event) :
  begins ev (ask answer ev).
Proof. intros s. exists []. reflexivity. Qed.

Lemma begins_bind (ev : event) (m : M A) (f : A -> M B) :
  begins ev m -> (forall a, emits anything (f a)) -> begins ev (bind m f).
Proof.
  intros Hm Hf s. unfold bind. destruct (Hm s) as (rest & E).
  destruct (m s) as [s' [e | a]]; simpl in *.
  - exists rest. exact E.
  - destruct (Hf a s') as (l & E' & _). exists (rest ++ l).
    rewrite E', E, <- app_assoc. reflexivity.
Qed.

Lemma begins_ret_bind (ev : event) (a : A) (f : A -> M B) :
  begins ev (f a) -> begins ev (bind (ret a) f).
Proof. intros H s. exact (H s). Qed.

End BeginRules.

Lemma begins_logger (lvl : level) (msg : string) : begins (Log lvl msg) (logger lvl msg).
Proof. intros s. exists []. reflexivity. Qed.

Section NoCluster.

Variables (K : Names) (cfg : Config) (env : Env) (class_name : string).

Ltac unfold_install :=
  unfold install_ocs, configure_monitoring,
    verify_ceph_health, ceph_health_check, patch_default_sc_to_non_default,
    deploy_with_external_mode, external_post_deploy_validation,
    deploy_ocs_via_operator, subscribe_ocs, wait_for_csv,
    create_ocs_operator_source, deployment_with_ui, storage_cluster_spec,
    generic_deviceset, ibm_power_deviceset, smallest_pv_size, index, float,
    retry, OCP_get, OCP_wait_for_resource,
    run_cmd, NamedTemporaryFile, dump_data_to_temp_yaml,
    call_unit, call_bool, call_str, call_strs.

Lemma deploy_ocs_via_operator_begins :
  external_mode cfg = false ->
  begins (first_installation_entry cfg) (deploy_ocs_via_operator K cfg env).
Proof.
  intros Hext. unfold first_installation_entry. rewrite Hext.
  unfold deploy_ocs_via_operator.
  destruct (local_storage cfg).
  - apply begins_bind; [apply begins_ask |]. intros _. emit_with unfold_install.
  - apply begins_ret_bind.
    destruct (ui_deployment cfg).
    + destruct (live_deployment cfg).
      * apply begins_ret_bind. unfold deployment_with_ui.
        apply begins_bind; [apply begins_logger |]. intros _. emit_with unfold_install.
      * apply begins_bind; [| intros _; emit_with unfold_install].
        unfold negb, when, create_ocs_operator_source.
        destruct (stage cfg); apply begins_ask.
    + apply begins_bind; [apply begins_logger |]. intros _. emit_with unfold_install.
Qed.

Lemma install_ocs_begins :
  begins (first_installation_entry cfg) (install_ocs K cfg env class_name).
Proof.
  unfold install_ocs. destruct (external_mode cfg) eqn:Hext.
  - unfold first_installation_entry. rewrite Hext.
    apply begins_bind; [apply begins_logger |]. intros _. emit_with unfold_install.
  - apply begins_bind; [apply deploy_ocs_via_operator_begins; exact Hext |].
    intros _. emit_with unfold_install.
Qed.

Lemma deploy_ocs_without_cluster (s : state) :
  ans_items env (st_journal s) (ceph_cluster_probe cfg) = inr (Some [])
  \/ (exists e, ans_items env (st_journal s) (ceph_cluster_probe cfg) = inl e
                /\ (exn_cls e = CommandFailed \/ exn_cls e = IndexError)) ->
  deploy_ocs K cfg env class_name s
  = install_ocs K cfg env class_name
      (push (Log INFO "Running OCS basic installation")
            (push (ceph_cluster_probe cfg) s)).
Proof.
  intros [H | (e & H & Hc)].
  - rewrite (deploy_ocs_after_probe K cfg env class_name s _ _ (probe_empty cfg env s H)).
    reflexivity.
  - rewrite (deploy_ocs_after_probe K cfg env class_name s _ _ (probe_raised cfg env s e H)).
    unfold isinstance. destruct Hc as [Hc | Hc]; rewrite Hc; reflexivity.
Qed.

(** C10.  An empty collection (IndexError) and a failed query
    (CommandFailed, or an IndexError of the query) are handled alike:
    the message "Running OCS basic installation" is logged and the
    installation runs.  Its first entry is that of
    [first_installation_entry]; in external mode the run is that of
    [deploy_with_external_mode] after its announcement; otherwise it is
    the run of [deploy_ocs_via_operator], whose exception ends
    [deploy_ocs], and whose return is followed by the wait for the mon
    pods.  A probe failing with an exception of any other class (raised
    by the query, or the TypeError of an answer without items) ends
    [deploy_ocs] with that exception, nothing else being called. *)
Theorem deploy_ocs_probe_failures (s : state) :
  let probe_call := ceph_cluster_probe cfg in
  let announcement := Log INFO "Running OCS basic installation" in
  let announced := push announcement (push probe_call s) in
  (ans_items env (st_journal s) probe_call = inr (Some [])
   \/ (exists e, ans_items env (st_journal s) probe_call = inl e
                 /\ (exn_cls e = CommandFailed \/ exn_cls e = IndexError)) ->
   (exists rest,
      added (deploy_ocs K cfg env class_name) s
      = probe_call :: announcement :: first_installation_entry cfg :: rest)
   /\ (external_mode cfg = true ->
       deploy_ocs K cfg env class_name s
       = (logger INFO "Deploying OCS on external mode RHCS" ;;
          deploy_with_external_mode K cfg env) announced)
   /\ (external_mode cfg = false ->
       (forall e,
          outcome (deploy_ocs_via_operator K cfg env) announced = inl e ->
          deploy_ocs K cfg env class_name s
          = deploy_ocs_via_operator K cfg env announced)
       /\ (outcome (deploy_ocs_via_operator K cfg env) announced = inr tt ->
           exists rest,
             st_journal (fst (deploy_ocs K cfg env class_name s))
             = st_journal (fst (deploy_ocs_via_operator K cfg env announced))
               ++ mon_pods_wait cfg :: rest)))
  /\ (forall e, ans_items env (st_journal s) probe_call = inl e ->
                exn_cls e <> CommandFailed -> exn_cls e <> IndexError ->
                deploy_ocs K cfg env class_name s = (push probe_call s, inl e))
  /\ (ans_items env (st_journal s) probe_call = inr None ->
      deploy_ocs K cfg env class_name s
      = (push probe_call s, inl (Exn TypeError "'NoneType' object is not subscriptable"))).
Proof.
  cbv zeta. split.
  - intros Habsent. rewrite (deploy_ocs_without_cluster s Habsent).
    split; [| split].
    + destruct (install_ocs_begins
                  (push (Log INFO "Running OCS basic installation")
                        (push (ceph_cluster_probe cfg) s))) as (rest & E).
      exists rest. apply added_app.
      rewrite (deploy_ocs_without_cluster s Habsent), E, !push_journal, <- !app_assoc.
      reflexivity.
    + intros Hext. unfold install_ocs. rewrite Hext. reflexivity.
    + intros Hext. unfold install_ocs. rewrite Hext. split.
      * intros e He. unfold outcome in He. unfold bind at 1.
        destruct (deploy_ocs_via_operator K cfg env _) as [s' [e' | []]];
          simpl in He; [reflexivity | discriminate].
      * intros Hok. unfold outcome in Hok. unfold bind at 1.
        destruct (deploy_ocs_via_operator K cfg env _) as [s' [e' | []]];
          simpl in Hok; [discriminate |]. simpl fst.
        refine ((_ : begins (mon_pods_wait cfg) _) s').
        unfold OCP_wait_for_resource, call_bool.
        apply begins_bind; [apply begins_ask |]. intros ok. emit_with unfold_install.
  - split.
    + intros e H H1 H2.
      rewrite (deploy_ocs_after_probe K cfg env class_name s _ _
                 (probe_raised cfg env s e H)).
      unfold isinstance. destruct (exn_cls e); try reflexivity; congruence.
    + intros H.
      rewrite (deploy_ocs_after_probe K cfg env class_name s _ _
                 (probe_missing cfg env s H)).
      reflexivity.
Qed.

End NoCluster.

(** * Concrete runs *)

Section Runs.

Import Demo Scenario.

(** ** C1 *)

(** C1.  A deployment on AWS in which everything works except the
    final health check, which raises CephHealthException("HEALTH_ERR 1
    osds down"): the text does not mention a clock skew, the failure is
    logged as a warning, the default storage class is patched as after
    a successful check, and [deploy_ocs] returns normally; the exception
    does not leave it. *)
Theorem deploy_ocs_health_failure_not_raised :
  Py.contains "clock skew detected" (exn_msg unhealthy) = false
  /\ In (health_check_call aws 30)
        (added (deploy_ocs names aws env_unhealthy "AWSIPI") start)
  /\ outcome (deploy_ocs names aws env_unhealthy "AWSIPI") start = inr tt
  /\ calls "ceph_health_check" (added (deploy_ocs names aws env_unhealthy "AWSIPI") start)
     = 1
  /\ In (Log WARNING "Ceph health check failed with HEALTH_ERR 1 osds down")
        (added (deploy_ocs names aws env_unhealthy "AWSIPI") start).
Proof.
  split; [reflexivity |].
  split; [vm_compute; repeat (first [left; reflexivity | right]) |].
  split; [vm_compute; reflexivity |]. split; [vm_compute; reflexivity |].
  vm_compute. repeat (first [left; reflexivity | right]).
Qed.

(** ** C2 *)

Lemma verify_ceph_health_clock_skew_witness :
  outcome (verify_ceph_health names vsphere env_skewed) start = inr tt
  /\ added (verify_ceph_health names vsphere env_skewed) start
     = (health_failure_entries names vsphere (exn_msg skewed)
        ++ [Log INFO "Changing NTP on compute nodes to clock1.rdu2.redhat.com"])
       ++ remediation_entries vsphere ++ [health_check_call vsphere 60]
  /\ calls "update_ntp_compute_nodes"
           (added (verify_ceph_health names vsphere env_skewed) start) = 1.
Proof.
  apply (verify_ceph_health_clock_skew names vsphere env_skewed start (exn_msg skewed));
    [reflexivity | reflexivity | intros _; reflexivity | reflexivity].
Defined.

(** On AWS the first check fails with a clock skew and the recheck
    succeeds, but no remediation action is called: C2 as worded fails. *)
Lemma clock_skew_no_remediation_on_aws :
  ans_bool env_skewed
    (st_journal start ++ [Log INFO "Done creating rook resources, waiting for HEALTH_OK"])
    (health_check_call aws 30) = inl skewed
  /\ Py.contains "clock skew detected" (exn_msg skewed) = true
  /\ outcome (verify_ceph_health names aws env_skewed) start = inr tt
  /\ calls "update_ntp_compute_nodes"
           (added (verify_ceph_health names aws env_skewed) start) = 0
  /\ ~ stated_C2 names aws env_skewed start.
Proof.
  split; [reflexivity |]. split; [reflexivity |]. split; [reflexivity |].
  split; [reflexivity |].
  intros (H & _). vm_compute in H. discriminate.
Qed.

(** ** C3 *)

Lemma env_fine_cooperative : cooperative env_fine.
Proof.
  unfold cooperative, env_fine, environment, answer; simpl.
  repeat split; intros; try (eexists; reflexivity).
  - exists "4.6"%string, v4_6. split; [reflexivity | vm_compute; reflexivity].
  - unfold answer_strs. destruct (is_call "get_all_pods" ev); do 2 eexists; reflexivity.
  - do 3 eexists. split; reflexivity.
Qed.

Lemma encryption_check_witness :
  (exists e, outcome (deploy_ocs_via_operator names encrypted_4_5 env_fine) start = inl e)
  /\ forallb no_cluster_manifest
       (added (deploy_ocs_via_operator names encrypted_4_5 env_fine) start) = true
  /\ submitted (added (deploy_ocs_via_operator names encrypted_4_5 env_fine) start) = false
  /\ outcome (deploy_ocs_via_operator names encrypted_4_5 env_fine) start
     = inl encryption_error.
Proof.
  destruct (encryption_check_precedes_submission
              names encrypted_4_5 env_fine v4_5 start)
    as (H1 & H2 & H3 & H4); try (vm_compute; reflexivity).
  split; [exact H1 | split; [exact H2 | split; [exact H3 |]]].
  exact (H4 env_fine_cooperative).
Defined.

(** With encryption requested on OCS 4.5, UnsupportedFeatureError is
    raised, but after the create calls for the operator group and for
    the subscription: C3 as worded fails. *)
Lemma encryption_check_after_create_calls :
  outcome (deploy_ocs_via_operator names encrypted_4_5 env_fine) start
  = inl encryption_error
  /\ In (Call "run_cmd"
              ["oc create -f /opt/ocs-ci/ocs_ci/templates/ocs-deployment/deploy-with-olm.yaml"])
        (added (deploy_ocs_via_operator names encrypted_4_5 env_fine) start)
  /\ In (Call "run_cmd" ["oc create -f /tmp/subscription_manifestk3xw0a"])
        (added (deploy_ocs_via_operator names encrypted_4_5 env_fine) start)
  /\ ~ stated_C3 names encrypted_4_5 env_fine start.
Proof.
  split; [vm_compute; reflexivity |].
  split; [vm_compute; repeat (first [left; reflexivity | right]) |].
  split; [vm_compute; repeat (first [left; reflexivity | right]) |].
  intros (_ & H). vm_compute in H. discriminate.
Qed.

(** [float] rounds to the nearest double: a version written as
    4.59999999999999999 is the float 4.6, the check lets it pass, and
    the StorageCluster is submitted with encryption enabled. *)
Lemma encryption_check_compares_floats :
  Py.float "4.59999999999999999" = Some v4_6
  /\ Py.float "4.6" = Some v4_6
  /\ Py.float "4.5" = Some v4_5
  /\ Py.lt v4_5 v4_6 = true
  /\ Py.lt v4_6 v4_6 = false
  /\ outcome (deploy_ocs_via_operator names encrypted_4_6_rounded env_fine) start = inr tt
  /\ submitted (added (deploy_ocs_via_operator names encrypted_4_6_rounded env_fine) start)
     = true.
Proof. repeat split; vm_compute; reflexivity. Qed.

(** ** C4 *)

Lemma deploy_cluster_collects_witness :
  let failed := fst (deploy_ocs_and_collect names aws env_no_workers "AWSIPI" start) in
  outcome (deploy_cluster names aws env_no_workers "AWSIPI" "DEBUG") start
  = inl no_workers
  /\ st_journal (fst (deploy_cluster names aws env_no_workers "AWSIPI" "DEBUG" start))
     = st_journal failed
       ++ Log ERROR (exn_msg no_workers)
          :: (if gather_on_deploy_failure aws
              then [collect_ocp_logs_call; collect_ocs_logs_call] else []).
Proof.
  cbv zeta.
  apply (proj2 (deploy_cluster_collects_then_reraises
                  names aws env_no_workers "AWSIPI" "DEBUG" start)
               start
               (fst (deploy_ocs_and_collect names aws env_no_workers "AWSIPI" start))
               no_workers);
    [reflexivity | reflexivity | vm_compute; reflexivity
    | intros _; split; vm_compute; reflexivity].
Defined.

(** Without [gather_on_deploy_failure] the storage phase fails and
    nothing is collected: C4 as worded fails. *)
Lemma deploy_cluster_failure_without_collection :
  outcome (deploy_cluster names no_gather env_no_workers "AWSIPI" "DEBUG") start
  = inl no_workers
  /\ filter is_collection
       (added (deploy_cluster names no_gather env_no_workers "AWSIPI" "DEBUG") start)
     = []
  /\ ~ stated_C4 names no_gather env_no_workers "AWSIPI" start.
Proof.
  split; [vm_compute; reflexivity |]. split; [vm_compute; reflexivity |].
  intros H.
  destruct (H start
              (fst (deploy_ocs_and_collect names no_gather env_no_workers "AWSIPI" start))
              no_workers) as [Hc _];
    [reflexivity | vm_compute; reflexivity |].
  vm_compute in Hc. discriminate.
Qed.

(** ** C5 *)

Lemma install_plan_approval_witness :
  existsb is_approval (added (subscribe_ocs names manual env_fine) start) = true
  /\ (outcome (deploy_ocs_via_operator names manual env_fine) start = inr tt
      /\ existsb is_approval (added (deploy_ocs_via_operator names manual env_fine) start)
         = true)
  /\ forallb not_approval (added (deploy_ocs_via_operator names aws env_fine) start)
     = true.
Proof.
  split; [| split; [split |]].
  - apply (proj1 (proj2 (install_plan_approval_iff_manual names manual env_fine start)
                        eq_refl)).
    vm_compute. reflexivity.
  - vm_compute. reflexivity.
  - apply (proj1 (proj2 (proj2 (install_plan_approval_iff_manual
                                  names manual env_fine start)
                               eq_refl))).
    + reflexivity.
    + vm_compute. reflexivity.
  - apply (proj1 (install_plan_approval_iff_manual names aws env_fine start)).
    discriminate.
Defined.

(** ** C6 *)

Lemma deploy_ocs_existing_cluster_witness :
  added (deploy_ocs names aws env_installed "AWSIPI") start
  = [Call "OCP.get" [kw "kind" "CephCluster"; kw "namespace" (cluster_namespace aws)];
     Log WARNING "OCS cluster already exists"].
Proof.
  apply (deploy_ocs_existing_cluster_is_noop names aws env_installed "AWSIPI" start
           "ocs-storagecluster-cephcluster" []).
  reflexivity.
Defined.

(** ** C7 *)

Lemma destroy_cluster_witness :
  (added (destroy_cluster names power env_fine "DEBUG") start
   = [Call "self.destroy_ocs" []; Log INFO "Destroy of OCP not implemented yet."]
   /\ outcome (destroy_cluster names power env_fine "DEBUG") start = inr tt)
  /\ added (destroy_cluster names aws env_uninstall_fails "DEBUG") start
     = [Call "OCPDeployment" []; Call "uninstall_ocs" [];
        Log ERROR "Failed to uninstall OCS. Exception is: storagecluster not found";
        Log INFO "resuming teardown"; Call "OCPDeployment.destroy" ["DEBUG"]].
Proof.
  split.
  - destruct (proj1 (destroy_cluster_by_platform names power env_fine "DEBUG" start)
                    eq_refl) as (H1 & H2 & _).
    split; [exact H1 | exact H2].
  - apply (proj2 (destroy_cluster_by_platform names aws env_uninstall_fails "DEBUG" start)
                 eq_refl eq_refl).
Defined.

(** On IBM Power with the OCP deployment skipped, [destroy_cluster]
    tears the storage layer down and returns: nothing is logged and
    nothing is raised.  With the storage deployment skipped as well it
    does nothing at all.  C7 as worded fails. *)
Lemma destroy_cluster_silent_on_power :
  platform power_on_existing_ocp = IBM_POWER_PLATFORM names
  /\ added (destroy_cluster names power_on_existing_ocp env_fine "DEBUG") start
     = [Call "self.destroy_ocs" []]
  /\ outcome (destroy_cluster names power_on_existing_ocp env_fine "DEBUG") start = inr tt
  /\ ~ stated_C7 names power_on_existing_ocp env_fine "DEBUG" start
  /\ added (destroy_cluster names power_all_skipped env_fine "DEBUG") start = []
  /\ outcome (destroy_cluster names power_all_skipped env_fine "DEBUG") start = inr tt
  /\ ~ stated_C7 names power_all_skipped env_fine "DEBUG" start.
Proof.
  split; [reflexivity |]. split; [reflexivity |]. split; [reflexivity |].
  split; [| split; [reflexivity | split; [reflexivity |]]].
  - intros [(lvl & msg & H) | (e & H)].
    + vm_compute in H. destruct H as [H | []]. discriminate.
    + vm_compute in H. discriminate.
  - intros [(lvl & msg & H) | (e & H)].
    + vm_compute in H. destruct H.
    + vm_compute in H. discriminate.
Qed.

(** ** C8 *)

Lemma wait_for_resource_state_witness :
  wait_for_resource_state env_fine cephfs_class "Available" 60 start
  = (push (Log INFO "Attempt to default default Secret or StorageClass") start,
     inr PyNone)
  /\ exists rest,
       added (wait_for_resource_state env_fine some_pvc "Bound" 60) start
       = Call "resource.ocp.wait_for_resource"
              [kw "condition" "Bound"; kw "resource_name" (res_name some_pvc);
               kw "timeout" (repr_nat 60)] :: rest.
Proof.
  split.
  - apply (proj1 (wait_for_resource_state_default_names
                    env_fine cephfs_class "Available" 60 start)).
    left. reflexivity.
  - apply (proj2 (wait_for_resource_state_default_names
                    env_fine some_pvc "Bound" 60 start)).
    intros [H | H]; discriminate.
Defined.

(** For the default CephFS storage class nothing is fetched, but the
    call hands back [None], which is not true: C8 as worded fails. *)
Lemma wait_for_resource_state_returns_none :
  default_class_name (res_name cephfs_class)
  /\ outcome (wait_for_resource_state env_fine cephfs_class "Available" 60) start
     = inr PyNone
  /\ pytruth PyNone = false
  /\ ~ stated_C8 env_fine cephfs_class "Available" 60 start.
Proof.
  split; [left; reflexivity |]. split; [reflexivity |]. split; [reflexivity |].
  intros (H & _). vm_compute in H. discriminate.
Qed.

(** ** C9 *)

Lemma monitoring_validations_witness :
  let pods := ["prometheus-k8s-0"; "alertmanager-main-0"] in
  added (configure_monitoring names monitored env_slow_respin) start
  = monitoring_settled names monitored "ocs-storagecluster-ceph-rbd"
    ++ attempts (Call respin_validation pods) 15 3
    ++ Call bound_validation [] :: attempts (Call mounted_validation pods) 15 2
  /\ outcome (configure_monitoring names monitored env_slow_respin) start = inr tt.
Proof.
  destruct (monitoring_validations names monitored env_slow_respin start
              "ocs-storagecluster-ceph-rbd" ["prometheus-k8s-0"; "alertmanager-main-0"]
              eq_refl eq_refl eq_refl eq_refl)
    as (_ & _ & H1 & H2).
  split; [exact H1 | exact H2].
Defined.

(** The second validation fails with CommandFailed and is not called
    again: C9 as worded fails. *)
Lemma bound_validation_called_once :
  outcome (configure_monitoring names monitored env_never_bound) start = inl not_bound
  /\ calls bound_validation
           (added (configure_monitoring names monitored env_never_bound) start) = 1
  /\ ~ stated_C9 names monitored env_never_bound start.
Proof.
  split; [vm_compute; reflexivity |]. split; [vm_compute; reflexivity |].
  intros H. vm_compute in H. discriminate.
Qed.

(** ** C10 *)

Lemma deploy_ocs_probe_failures_witness :
  (exists rest,
     added (deploy_ocs names aws env_unknown_kind "AWSIPI") start
     = ceph_cluster_probe aws
       :: Log INFO "Running OCS basic installation"
       :: Log INFO "Deployment of OCS via OCS operator" :: rest)
  /\ outcome (deploy_ocs names aws env_unknown_kind "AWSIPI") start = inr tt
  /\ submitted (added (deploy_ocs names aws env_unknown_kind "AWSIPI") start) = true.
Proof.
  split; [| split; vm_compute; reflexivity].
  apply (proj1 (proj1 (deploy_ocs_probe_failures names aws env_unknown_kind "AWSIPI" start)
                      (or_intror
                         (ex_intro _ (Exn CommandFailed "the server doesn't have a resource type")
                            (conj eq_refl (or_introl eq_refl)))))).
Defined.

End Runs.

(** * Further properties *)

Ltac unfold_deployment :=
  unfold deploy_cluster, deploy_cluster_ocp, deploy_cluster_ocs, deploy_ocs_and_collect,
    deploy_ocs, install_ocs, probe_ceph_cluster, configure_monitoring,
    verify_ceph_health, ceph_health_check, patch_default_sc_to_non_default,
    deploy_with_external_mode, external_post_deploy_validation,
    deploy_ocs_via_operator, subscribe_ocs, wait_for_csv,
    create_ocs_operator_source, deployment_with_ui, storage_cluster_spec,
    generic_deviceset, ibm_power_deviceset, smallest_pv_size, index, float,
    deploy_ocp, post_ocp_deploy, collect_ocs_logs, retry,
    OCP_get, OCP_wait_for_resource,
    run_cmd, NamedTemporaryFile, dump_data_to_temp_yaml,
    call_unit, call_bool, call_str, call_strs.

(** ** The deployment through the console *)

(** X1.  With [ui_deployment] set, [deploy_ocs_via_operator] hands the
    installation over to the console.  Its own calls are those of
    [console_calls], in this order and up to the first one that raises:
    the set-up of local storage when it is requested, the creation of
    the operator source unless the deployment is a live one, the log
    line and the two calls of the console; a run that returns has made
    them all.  The method itself labels no node, runs no command, writes
    no manifest and waits for no package manifest or CSV (what
    [setup_local_storage] and the creation of the operator source do
    inside is theirs). *)
Theorem ui_deployment_leaves_cluster_to_console
    (K : Names) (cfg : Config) (env : Env) (s : state) :
  ui_deployment cfg = true ->
  (exists rest, added (deploy_ocs_via_operator K cfg env) s ++ rest = console_calls cfg)
  /\ (outcome (deploy_ocs_via_operator K cfg env) s = inr tt ->
      added (deploy_ocs_via_operator K cfg env) s = console_calls cfg)
  /\ forallb console_entry (added (deploy_ocs_via_operator K cfg env) s) = true.
Proof.
  intros H. split; [| split].
  - unfold added, console_calls, deploy_ocs_via_operator. rewrite H.
    unfold create_ocs_operator_source, deployment_with_ui.
    destruct (local_storage cfg), (live_deployment cfg), (stage cfg);
      run_unfold;
      repeat first
        [ progress (cbv beta iota delta [negb])
        | match goal with
          | |- context [ans_unit env ?j ?ev] => destruct (ans_unit env j ev) as [? | []]
          end ];
      simpl fst; rewrite ?push_journal, <- ?app_assoc;
      rewrite skipn_app, skipn_all, Nat.sub_diag; simpl skipn; simpl app;
      eexists; reflexivity.
  - unfold added, outcome, console_calls, deploy_ocs_via_operator. rewrite H.
    unfold create_ocs_operator_source, deployment_with_ui.
    destruct (local_storage cfg), (live_deployment cfg), (stage cfg);
      run_unfold;
      repeat first
        [ progress (cbv beta iota delta [negb])
        | match goal with
          | |- context [ans_unit env ?j ?ev] => destruct (ans_unit env j ev) as [? | []]
          end ];
      simpl fst; simpl snd; intros Hok; try discriminate Hok;
      rewrite ?push_journal, <- ?app_assoc;
      rewrite skipn_app, skipn_all, Nat.sub_diag; reflexivity.
  - apply emits_added. unfold deploy_ocs_via_operator. rewrite H.
    emit_with unfold_deployment.
Qed.

(** ** External mode *)

(** X2.  In external mode [deploy_ocs] supervises nothing of a converged
    cluster: no wait for mon, mgr or osd pods, no PVC or PDB validation,
    no file system validation, no change of the registry backend, no
    [ceph_health_check] and no clock remediation are ever called. *)
Theorem external_mode_skips_converged_checks
    (K : Names) (cfg : Config) (env : Env) (class_name : string) (s : state) :
  external_mode cfg = true ->
  forallb no_converged_check (added (deploy_ocs K cfg env class_name) s) = true.
Proof.
  intros H. apply emits_added. unfold deploy_ocs, install_ocs. rewrite H.
  emit_with unfold_deployment.
Qed.

(** Works through a program all of whose collaborators answer. *)
Ltac returns_step_with Hco :=
  first
    [ apply returns_ret; exact I
    | apply returns_logger
    | apply (ask_unit_returns _ Hco)
    | apply (ask_bool_returns _ Hco)
    | apply (ask_str_returns _ Hco)
    | apply (ask_subscription_returns _ Hco)
    | apply returns_get_DEFAULT_STORAGECLASS
    | apply returns_set_DEFAULT_STORAGECLASS
    | apply (smallest_pv_size_returns _ _ Hco)
    | apply returns_when
    | apply returns_then; [| intros ?]
    | match goal with
      | |- returns _ (if ?b then _ else _) => destruct b
      | |- returns _ (match ?x with _ => _ end) => destruct x
      end ].

Ltac unfold_operator :=
  unfold subscribe_ocs, wait_for_csv, create_ocs_operator_source, deployment_with_ui,
    run_cmd, NamedTemporaryFile, dump_data_to_temp_yaml,
    call_unit, call_bool, call_str, call_strs.

Section ExternalMode.

Variables (K : Names) (cfg : Config) (env : Env).

Hypothesis no_details : Py.truthy (cfg_external_cluster_details cfg) = false.

Lemma external_mode_fails : fails (deploy_with_external_mode K cfg env).
Proof.
  unfold deploy_with_external_mode. rewrite no_details. simpl negb. cbv iota.
  do 7 (apply fails_anyway; intros ?).
  apply fails_bind_l. apply fails_raise.
Qed.

Lemma external_mode_writes_nothing :
  emits no_secret_or_cluster_manifest (deploy_with_external_mode K cfg env).
Proof.
  unfold deploy_with_external_mode. rewrite no_details. simpl negb. cbv iota.
  repeat first
    [ match goal with
      | |- emits _ (bind (raise _) _) =>
          apply emits_bind_fails; [apply emits_raise | apply fails_raise]
      end
    | emit_step
    | progress unfold_operator ].
Qed.

Lemma external_mode_raises :
  cooperative env ->
  (forall j ev, exists v, ans_secret env j ev = inr v) ->
  raises missing_details (deploy_with_external_mode K cfg env).
Proof.
  intros Hco Hsecret.
  unfold deploy_with_external_mode. rewrite no_details. simpl negb. cbv iota.
  do 6 (apply raises_then;
        [ repeat first [returns_step_with Hco | progress unfold_operator] | intros ? ]).
  apply raises_then; [apply returns_ask; intros j; apply Hsecret | intros ?].
  apply raises_first. apply raises_raise.
Qed.

End ExternalMode.

Lemma remaining_nil (j : journal) : remaining [] j = [].
Proof. destruct j; reflexivity. Qed.

Lemma remaining_app (l1 l2 : journal) :
  forall ps, remaining ps (l1 ++ l2) = remaining (remaining ps l1) l2.
Proof.
  induction l1 as [| ev l1 IH]; intros ps; [reflexivity |].
  destruct ps as [| p ps]; simpl.
  - rewrite remaining_nil. reflexivity.
  - destruct (p ev); apply IH.
Qed.

Section AdvanceRules.

Context {A B : Type}.

Lemma advances_bind (ps ps1 ps2 : list (event -> bool)) (m : M A) (f : A -> M B) :
  returns (fun _ => True) m -> advances ps m ps1 ->
  (forall a, advances ps1 (f a) ps2) -> advances ps (bind m f) ps2.
Proof.
  intros Hr Hm Hf s. unfold bind.
  destruct (Hr s) as (a & Ea & _). destruct (Hm s) as (l & E & R).
  destruct (m s) as [s' [e | a']]; simpl in *; [discriminate |].
  destruct (Hf a' s') as (l' & E' & R').
  exists (l ++ l'). rewrite E', E, <- app_assoc, remaining_app, R, R'. auto.
Qed.

Lemma advances_raise_bind (ps : list (event -> bool)) (e : exn) (f : A -> M B) :
  advances ps (bind (raise e) f) ps.
Proof. intros s. exists []. simpl. rewrite app_nil_r. auto. Qed.

Lemma advances_skip (p : event -> bool) (ps : list (event -> bool)) (m : M A) :
  emits (fun ev => negb (p ev)) m -> advances (p :: ps) m (p :: ps).
Proof.
  intros Hm s. destruct (Hm s) as (l & E & F). exists l. split; [exact E |].
  clear E. induction l as [| ev l IH]; [reflexivity |].
  simpl in F |- *. apply andb_true_iff in F. destruct F as [F1 F2].
  destruct (p ev); [discriminate | exact (IH F2)].
Qed.

Lemma advances_hit (p : event -> bool) (ps : list (event -> bool))
    (answer : journal -> event -> exn + A) (ev : event) :
  p ev = true -> advances (p :: ps) (ask answer ev) ps.
Proof. intros H s. exists [ev]. simpl. rewrite H. auto. Qed.

Lemma advances_done (m : M A) : emits anything m -> advances [] m [].
Proof.
  intros Hm s. destruct (Hm s) as (l & E & _). exists l.
  rewrite remaining_nil. auto.
Qed.

End AdvanceRules.

Section ExternalModeOrder.

Variables (K : Names) (cfg : Config) (env : Env).

Hypothesis no_details : Py.truthy (cfg_external_cluster_details cfg) = false.
Hypothesis cooperation : cooperative env.
Hypothesis secret_loaded : forall j ev, exists v, ans_secret env j ev = inr v.

(** One statement that returns and adds none of the entries looked for
    first, or the one looked for first. *)
Ltac advance_step :=
  eapply advances_bind;
  [ solve [repeat first [returns_step_with cooperation | progress unfold_operator]]
  | first [ apply advances_hit; reflexivity
          | apply advances_skip; solve [emit_with unfold_operator] ]
  | intros ? ].

Lemma subscribe_ocs_advances :
  advances subscribed_and_awaited (subscribe_ocs K cfg env) [is_csv_poll].
Proof.
  unfold subscribed_and_awaited, subscribe_ocs. cbv zeta.
  unfold run_cmd, NamedTemporaryFile, dump_data_to_temp_yaml, call_unit, call_str.
  do 6 advance_step.
  advance_step. advance_step.
  apply advances_skip. emit_with unfold_operator.
Qed.

Lemma wait_for_csv_advances :
  advances [is_csv_poll] (wait_for_csv K cfg env) [].
Proof.
  unfold wait_for_csv, call_unit, call_str.
  do 4 advance_step.
  apply advances_done. emit_step.
Qed.

Lemma external_mode_advances :
  advances subscribed_and_awaited (deploy_with_external_mode K cfg env) [].
Proof.
  unfold deploy_with_external_mode. rewrite no_details. simpl negb. cbv iota.
  unfold subscribed_and_awaited.
  do 4 advance_step.
  eapply advances_bind;
    [ solve [repeat first [returns_step_with cooperation | progress unfold_operator]]
    | apply subscribe_ocs_advances | intros ? ].
  eapply advances_bind;
    [ solve [repeat first [returns_step_with cooperation | progress unfold_operator]]
    | apply wait_for_csv_advances | intros ? ].
  eapply advances_bind;
    [ apply returns_ask; intros j; apply secret_loaded
    | apply advances_done; emit_step | intros ? ].
  apply advances_raise_bind.
Qed.

End ExternalModeOrder.

(** X3.  Without external cluster details in the configuration,
    [deploy_with_external_mode] never returns normally and writes neither
    the secret of the external cluster nor a StorageCluster manifest,
    whatever the collaborators answer; when they all answer, the
    exception raised is ExternalClusterDetailsException("No external
    cluster data found"), and it is raised only after the operator was
    subscribed and its CSV awaited: the journal has the Subscription
    manifest, then a create command, then the poll of the CSV phase. *)
Theorem external_mode_needs_cluster_details
    (K : Names) (cfg : Config) (env : Env) (s : state) :
  Py.truthy (cfg_external_cluster_details cfg) = false ->
  (exists e, outcome (deploy_with_external_mode K cfg env) s = inl e)
  /\ forallb no_secret_or_cluster_manifest
       (added (deploy_with_external_mode K cfg env) s) = true
  /\ (cooperative env ->
      (forall j ev, exists v, ans_secret env j ev = inr v) ->
      outcome (deploy_with_external_mode K cfg env) s = inl missing_details
      /\ in_order subscribed_and_awaited
           (added (deploy_with_external_mode K cfg env) s) = true).
Proof.
  intros H. split; [| split].
  - apply fails_outcome. apply external_mode_fails. exact H.
  - apply emits_added. apply external_mode_writes_nothing. exact H.
  - intros Hco Hsecret. split.
    + apply (external_mode_raises K cfg env H Hco Hsecret).
    + destruct (external_mode_advances K cfg env H Hco Hsecret s) as (l & E & R).
      rewrite (added_app _ _ _ E). unfold in_order. rewrite R. reflexivity.
Qed.

(** ** Encryption at rest on IBM Power *)

Section PowerEncryption.

Variables (K : Names) (cfg : Config) (env : Env).

Hypothesis encryption_requested : encryption_at_rest cfg = true.
Hypothesis ibm_power : (platform cfg =? IBM_POWER_PLATFORM K) = true.





(** *** When the template has a device set for every storage node *)

Hypothesis cooperation : cooperative env.





End PowerEncryption.


(** ** [deploy_cluster]: the collection of logs after a success *)

Section SuccessCollection.

Variables (K : Names) (cfg : Config) (env : Env) (class_name : string).

(** X5.  The collection of logs after a successful storage phase sits inside
    the [try] block.  When [deploy_ocs] has returned and that collection
    raises, [deploy_cluster] handles it like a failed deployment: the
    exception is logged as an error, the failure collection runs if
    [gather_on_deploy_failure] is set, and the exception is raised. *)
Theorem failed_success_collection_fails_deployment
    (log_cli_level : string) (s s1 s2 : state) (e : exn) :
  deploy_cluster_ocp cfg env log_cli_level s = (s1, inr tt) ->
  skip_ocs_deployment cfg = false ->
  collect_logs_on_success_run cfg = true ->
  deploy_ocs K cfg env class_name s1 = (s2, inr tt) ->
  ans_unit env (st_journal s2) collect_success_call = inl e ->
  (gather_on_deploy_failure cfg = true ->
   ans_unit env (st_journal s2 ++ [collect_success_call; Log ERROR (exn_msg e)])
            collect_ocp_logs_call = inr tt
   /\ ans_unit env (st_journal s2 ++ [collect_success_call; Log ERROR (exn_msg e);
                                      collect_ocp_logs_call])
               collect_ocs_logs_call = inr tt) ->
  outcome (deploy_cluster K cfg env class_name log_cli_level) s = inl e
  /\ st_journal (fst (deploy_cluster K cfg env class_name log_cli_level s))
     = st_journal s2
       ++ collect_success_call :: Log ERROR (exn_msg e)
          :: (if gather_on_deploy_failure cfg
              then [collect_ocp_logs_call; collect_ocs_logs_call] else []).
Proof.
  intros Hocp Hskip Hsucc Hdeploy Hraise Hcollect.
  assert (Hphase : deploy_ocs_and_collect K cfg env class_name s1
                   = (push collect_success_call s2, inl e)).
  { unfold deploy_ocs_and_collect. rewrite (run_bind _ _ _ _ _ Hdeploy).
    rewrite Hsucc. unfold when, collect_ocs_logs, call_unit, ask.
    fold collect_success_call. rewrite Hraise. reflexivity. }
  unfold outcome, deploy_cluster.
  rewrite (run_bind _ _ _ _ _ Hocp).
  unfold deploy_cluster_ocs. rewrite Hskip. change (negb false) with true.
  unfold try_except_Exception. cbv beta iota. rewrite Hphase.
  unfold collect_ocs_logs. run_unfold.
  destruct (gather_on_deploy_failure cfg); cbv beta;
    repeat rewrite push_journal; simpl st_journal.
  - destruct (Hcollect eq_refl) as [H1 H2].
    repeat rewrite <- app_assoc. simpl app.
    fold collect_ocp_logs_call. rewrite H1. repeat rewrite push_journal.
    repeat rewrite <- app_assoc. simpl app.
    fold collect_ocs_logs_call. rewrite H2. simpl.
    split; [reflexivity |]. repeat rewrite <- app_assoc. reflexivity.
  - split; [reflexivity |]. repeat rewrite <- app_assoc. reflexivity.
Qed.

End SuccessCollection.

(** ** Rules for [throws_only], [yields] and loops *)

Section ThrowRules.

Context {A B : Type}.
Variable P : exn -> Prop.

Lemma throws_only_ret (a : A) : throws_only P (ret a).
Proof. intros s e H. discriminate. Qed.

Lemma throws_only_raise (e : exn) : P e -> throws_only P (@raise A e).
Proof. intros H s e' E. simpl in E. congruence. Qed.

Lemma throws_only_bind (m : M A) (f : A -> M B) :
  throws_only P m -> (forall a, throws_only P (f a)) -> throws_only P (bind m f).
Proof.
  intros Hm Hf s e. unfold bind. specialize (Hm s).
  destruct (m s) as [s' [e' | a]]; simpl.
  - intros E. apply Hm. simpl. congruence.
  - apply Hf.
Qed.

Lemma throws_only_after (R : A -> Prop) (m : M A) (f : A -> M B) :
  yields R m -> throws_only P m -> (forall a, R a -> throws_only P (f a)) ->
  throws_only P (bind m f).
Proof.
  intros Hy Hm Hf s e. unfold bind. specialize (Hm s). specialize (Hy s).
  destruct (m s) as [s' [e' | a]]; simpl.
  - intros E. apply Hm. simpl. congruence.
  - apply Hf. apply Hy. reflexivity.
Qed.

Lemma throws_only_try_except (m : M A) (classes : list exn_class) (h : exn -> M A) :
  throws_only P m -> (forall e, throws_only P (h e)) ->
  throws_only P (try_except m classes h).
Proof.
  intros Hm Hh s e. unfold try_except. specialize (Hm s).
  destruct (m s) as [s' [e' | a]]; simpl.
  - destruct (isinstance e' classes).
    + apply Hh.
    + simpl. apply Hm.
  - discriminate.
Qed.

End ThrowRules.

Lemma throws_only_logger (P : exn -> Prop) (lvl : level) (msg : string) :
  throws_only P (logger lvl msg).
Proof. intros s e H. discriminate. Qed.

Lemma throws_only_sleep (P : exn -> Prop) (n : nat) : throws_only P (sleep n).
Proof. intros s e H. discriminate. Qed.

Lemma throws_only_retry_from {X : Type} (P : exn -> Prop) (classes : list exn_class)
    (more delay backoff : nat) (f : M X) :
  throws_only P f -> throws_only P (retry_from classes more delay backoff f).
Proof.
  intros Hf. revert delay. induction more as [| n IH]; intros delay; simpl.
  - exact Hf.
  - apply throws_only_try_except; [exact Hf |].
    intros e. apply throws_only_bind; [apply throws_only_sleep | intros _; apply IH].
Qed.

Lemma throws_only_for_each {X S : Type} (P : exn -> Prop) (l : list X)
    (body : X -> S -> M S) (acc : S) :
  (forall x a, In x l -> throws_only P (body x a)) ->
  throws_only P (for_each l body acc).
Proof.
  revert acc. induction l as [| x rest IH]; intros acc H; simpl.
  - apply throws_only_ret.
  - apply throws_only_bind.
    + apply H. left. reflexivity.
    + intros a. apply IH. intros y b Hy. apply H. right. exact Hy.
Qed.

Lemma yields_for_each {X S : Type} (Inv : S -> Prop) (l : list X)
    (body : X -> S -> M S) (acc : S) :
  Inv acc -> (forall x a, In x l -> Inv a -> yields Inv (body x a)) ->
  yields Inv (for_each l body acc).
Proof.
  revert acc. induction l as [| x rest IH]; intros acc Hacc H; simpl.
  - apply yields_ret. exact Hacc.
  - apply (yields_after Inv).
    + apply H; [left; reflexivity | exact Hacc].
    + intros a Ha. apply IH; [exact Ha |].
      intros y b Hy. apply H. right. exact Hy.
Qed.

Lemma yields_weaken {A : Type} (R1 R2 : A -> Prop) (m : M A) :
  (forall a, R1 a -> R2 a) -> yields R1 m -> yields R2 m.
Proof. intros H Hm s a E. apply H. apply (Hm s). exact E. Qed.

Lemma yields_fails {A : Type} (R : A -> Prop) (m : M A) : fails m -> yields R m.
Proof. intros H s a E. destruct (H s) as [e He]. congruence. Qed.

Lemma fails_retry_from {X : Type} (classes : list exn_class)
    (more delay backoff : nat) (f : M X) :
  fails f -> fails (retry_from classes more delay backoff f).
Proof.
  intros Hf. revert delay. induction more as [| n IH]; intros delay; simpl.
  - exact Hf.
  - intros s. unfold try_except. destruct (Hf s) as [e He].
    destruct (f s) as [s' [e' | a]]; simpl in He; [| discriminate].
    destruct (isinstance e' classes).
    + unfold bind, sleep. apply IH.
    + exists e'. reflexivity.
Qed.

(** ** Splitting text *)

Lemma split_nonempty (sep : ascii) (s : string) : PyText.split sep s <> [].
Proof.
  destruct s as [| c rest]; simpl; [discriminate |].
  destruct (Ascii.eqb c sep); [discriminate |].
  destruct (PyText.split sep rest); discriminate.
Qed.

Lemma split_parts_lack (sep : ascii) (s : string) :
  Forall (fun part => PyText.lacks sep part = true) (PyText.split sep s).
Proof.
  induction s as [| c rest IH]; simpl.
  - constructor; [reflexivity | constructor].
  - destruct (Ascii.eqb c sep) eqn:E.
    + constructor; [reflexivity | exact IH].
    + destruct (PyText.split sep rest) as [| part parts].
      * constructor; [simpl; rewrite E; reflexivity | constructor].
      * inversion IH as [| ? ? Hp Hps]; subst.
        constructor; [simpl; rewrite E; exact Hp | exact Hps].
Qed.

Lemma prefix_cons (a b : ascii) (p s : string) :
  String.prefix (String a p) (String b s) = true <-> a = b /\ String.prefix p s = true.
Proof.
  simpl. destruct (ascii_dec a b) as [E | N]; split; intros H.
  - auto.
  - apply H.
  - discriminate.
  - destruct H as [E _]. contradiction.
Qed.

Lemma prefix_first_part (sep : ascii) (p s : string) :
  String.prefix p s = true -> PyText.lacks sep p = true ->
  exists part parts, PyText.split sep s = part :: parts /\ String.prefix p part = true.
Proof.
  revert s. induction p as [| a p IH]; intros s Hp Hl.
  - destruct (PyText.split sep s) as [| part parts] eqn:E.
    + exfalso. exact (split_nonempty sep s E).
    + exists part, parts. split; [reflexivity | destruct part; reflexivity].
  - destruct s as [| b s]; [discriminate |].
    apply prefix_cons in Hp. destruct Hp as [-> Hp].
    simpl in Hl. apply andb_true_iff in Hl. destruct Hl as [Hb Hl].
    apply negb_true_iff in Hb.
    destruct (IH s Hp Hl) as (part & parts & E & Hpre).
    exists (String b part), parts. simpl. rewrite Hb, E. split; [reflexivity |].
    destruct (ascii_dec b b); [exact Hpre | contradiction].
Qed.

Lemma contains_prefix (p s : string) : String.prefix p s = true -> Py.contains p s = true.
Proof.
  intros H. destruct s as [| c s].
  - change (Py.contains p "") with (if String.prefix p "" then true else false).
    rewrite H. reflexivity.
  - change (Py.contains p (String c s))
      with (if String.prefix p (String c s) then true else Py.contains p s).
    rewrite H. reflexivity.
Qed.

Lemma contains_cons (p : string) (c : ascii) (s : string) :
  Py.contains p s = true -> Py.contains p (String c s) = true.
Proof.
  intros H. change (Py.contains p (String c s))
    with (if String.prefix p (String c s) then true else Py.contains p s).
  rewrite H. destruct (String.prefix p (String c s)); reflexivity.
Qed.

(** A text without the separator that occurs in [s] occurs in one of
    the parts of [s]. *)
Lemma contains_in_some_part (sep : ascii) (p s : string) :
  PyText.lacks sep p = true -> Py.contains p s = true ->
  existsb (Py.contains p) (PyText.split sep s) = true.
Proof.
  intros Hl. induction s as [| c rest IH]; intros Hc.
  - change (Py.contains p "") with (if String.prefix p "" then true else false) in Hc.
    destruct (String.prefix p "") eqn:E; [| discriminate].
    unfold PyText.split, existsb. rewrite (contains_prefix _ _ E). reflexivity.
  - change (Py.contains p (String c rest))
      with (if String.prefix p (String c rest) then true else Py.contains p rest) in Hc.
    destruct (String.prefix p (String c rest)) eqn:Hpre.
    + destruct (prefix_first_part sep p (String c rest) Hpre Hl)
        as (part & parts & E & Hp).
      rewrite E. simpl existsb. rewrite (contains_prefix _ _ Hp). reflexivity.
    + specialize (IH Hc). simpl PyText.split.
      destruct (Ascii.eqb c sep).
      * simpl existsb. rewrite IH. apply orb_true_r.
      * destruct (PyText.split sep rest) as [| part parts]; [discriminate |].
        simpl existsb in *. apply orb_true_iff in IH. apply orb_true_iff.
        destruct IH as [H | H]; [left; apply contains_cons; exact H | right; exact H].
Qed.

Lemma lacks_prefix (sep : ascii) (p s : string) :
  String.prefix p s = true -> PyText.lacks sep s = true -> PyText.lacks sep p = true.
Proof.
  revert s. induction p as [| a p IH]; intros s Hp Hl; [reflexivity |].
  destruct s as [| b s]; [discriminate |].
  apply prefix_cons in Hp. destruct Hp as [-> Hp].
  simpl in *. apply andb_true_iff in Hl. destruct Hl as [Hb Hl].
  rewrite Hb. simpl. exact (IH s Hp Hl).
Qed.

(** A text that occurs in a text without the separator has no separator
    either. *)
Lemma lacks_contained (sep : ascii) (p s : string) :
  Py.contains p s = true -> PyText.lacks sep s = true -> PyText.lacks sep p = true.
Proof.
  induction s as [| c rest IH]; intros Hc Hl.
  - change (Py.contains p "") with (if String.prefix p "" then true else false) in Hc.
    destruct (String.prefix p "") eqn:E; [| discriminate].
    exact (lacks_prefix sep p "" E Hl).
  - change (Py.contains p (String c rest))
      with (if String.prefix p (String c rest) then true else Py.contains p rest) in Hc.
    destruct (String.prefix p (String c rest)) eqn:Hpre.
    + exact (lacks_prefix sep p _ Hpre Hl).
    + simpl in Hl. apply andb_true_iff in Hl. apply IH; [exact Hc | apply Hl].
Qed.

(** ** [get_device_paths] *)

Section DevicePathProofs.

Variables (K : Names) (cfg : Config) (env : Env).
Variable disk_pattern : option string.
Variables retry_tries retry_delay retry_backoff : nat.

Let get_paths : list string -> M (list string) :=
  get_device_paths K cfg env disk_pattern retry_tries retry_delay retry_backoff.

Let listing_failure (e : exn) : Prop :=
  exists j ev, is_run_cmd ev = true /\ ans_str env j ev = inl e.

Lemma filter_m_pure {X : Type} (p : X -> M bool) (q : X -> bool) :
  (forall x s, p x s = (s, inr (q x))) ->
  forall l s, filter_m p l s = (s, inr (filter q l)).
Proof.
  intros H l. induction l as [| x rest IH]; intros s; [reflexivity |].
  simpl filter_m. unfold bind. rewrite H, IH. simpl.
  destruct (q x); reflexivity.
Qed.

Lemma filter_m_str_in (p : string) (l : list string) (s : state) :
  filter_m (str_in (Some p)) l s = (s, inr (filter (Py.contains p) l)).
Proof. apply filter_m_pure. reflexivity. Qed.

Lemma filter_m_is_device_line (p : string) (l : list string) (s : state) :
  filter_m (is_device_line (Some p)) l s
  = (s, inr (filter (fun line => Py.contains p line
                                 && negb (Py.contains ROOT_DISK_NAME line)) l)).
Proof.
  apply filter_m_pure. intros x s'. unfold is_device_line, bind, str_in, ret.
  destruct (Py.contains p x); reflexivity.
Qed.

Lemma add_device_path_run (p line : string) (paths : list string) (s : state) :
  add_device_path (Some p) line paths s
  = match filter (Py.contains p) (PyText.split " " line) with
    | [] => (s, inl (Exn IndexError "list index out of range"))
    | part :: _ =>
        (push (Log INFO ("Adding " ++ part ++ " to device paths")%string) s,
         inr (paths ++ [("/dev/disk/by-id/" ++ part)%string]))
    end.
Proof.
  unfold add_device_path. unfold bind at 1. rewrite filter_m_str_in.
  destruct (filter (Py.contains p) (PyText.split " " line)) as [| part parts];
    reflexivity.
Qed.

Lemma listing_throws (worker : string) :
  throws_only listing_failure
    (_get_disk_by_id env retry_tries retry_delay retry_backoff worker).
Proof.
  unfold _get_disk_by_id, retry. apply throws_only_retry_from.
  intros s e H. unfold run_cmd, call_str, ask in H. simpl in H.
  eexists _, _. split; [| exact H]. reflexivity.
Qed.

Lemma add_device_path_yields (p line : string) (paths : list string) :
  Forall (by_id_path p) paths ->
  yields (Forall (by_id_path p)) (add_device_path (Some p) line paths).
Proof.
  intros Hpaths s l. rewrite add_device_path_run.
  destruct (filter (Py.contains p) (PyText.split " " line)) as [| part parts] eqn:E;
    simpl; [discriminate |].
  intros H. injection H as <-. apply Forall_app. split; [exact Hpaths |].
  constructor; [| constructor].
  assert (Hin : In part (filter (Py.contains p) (PyText.split " " line))).
  { rewrite E. left. reflexivity. }
  apply filter_In in Hin. destruct Hin as [Hin Hc].
  exists part. split; [reflexivity |]. split; [exact Hc |].
  pose proof (split_parts_lack " " line) as Hl.
  rewrite Forall_forall in Hl. apply Hl. exact Hin.
Qed.

Lemma add_worker_paths_yields (p worker : string) (paths : list string) :
  Forall (by_id_path p) paths ->
  yields (Forall (by_id_path p))
    (add_worker_paths env retry_tries retry_delay retry_backoff (Some p) worker paths).
Proof.
  intros Hpaths. unfold add_worker_paths.
  apply yields_bind. intros _. apply yields_bind. intros out.
  apply yields_bind. intros nvme_lines.
  apply yields_for_each; [exact Hpaths |].
  intros line acc _ Hacc. apply add_device_path_yields. exact Hacc.
Qed.

Lemma add_device_path_never_returns (p line : string) (paths : list string) :
  PyText.lacks " " p = false -> fails (add_device_path (Some p) line paths).
Proof.
  intros Hp s. rewrite add_device_path_run.
  destruct (filter (Py.contains p) (PyText.split " " line)) as [| part parts] eqn:E.
  - eexists. reflexivity.
  - exfalso.
    assert (Hin : In part (filter (Py.contains p) (PyText.split " " line))).
    { rewrite E. left. reflexivity. }
    apply filter_In in Hin. destruct Hin as [Hin Hc].
    pose proof (split_parts_lack " " line) as Hl.
    rewrite Forall_forall in Hl.
    rewrite (lacks_contained " " p part Hc (Hl _ Hin)) in Hp. discriminate.
Qed.

Lemma add_device_path_throws (p line : string) (paths : list string) :
  PyText.lacks " " p = true -> Py.contains p line = true ->
  throws_only listing_failure (add_device_path (Some p) line paths).
Proof.
  intros Hp Hc s e. rewrite add_device_path_run.
  pose proof (contains_in_some_part " " p line Hp Hc) as Hex.
  apply existsb_exists in Hex. destruct Hex as (part & Hin & Hpart).
  destruct (filter (Py.contains p) (PyText.split " " line)) as [| x parts] eqn:E.
  - exfalso.
    assert (H : In part (filter (Py.contains p) (PyText.split " " line))).
    { apply filter_In. split; assumption. }
    rewrite E in H. exact H.
  - discriminate.
Qed.

Lemma add_worker_paths_throws (p worker : string) (paths : list string) :
  PyText.lacks " " p = true ->
  throws_only listing_failure
    (add_worker_paths env retry_tries retry_delay retry_backoff (Some p) worker paths).
Proof.
  intros Hp. unfold add_worker_paths.
  apply throws_only_bind; [apply throws_only_logger | intros _].
  apply throws_only_bind; [apply listing_throws | intros out].
  intros s e. unfold bind. rewrite filter_m_is_device_line.
  apply throws_only_for_each. intros line acc Hin.
  apply filter_In in Hin. destruct Hin as [_ Hc].
  apply andb_true_iff in Hc. destruct Hc as [Hc _].
  apply add_device_path_throws; assumption.
Qed.

(** X6.  On IBM Power the answer is the configured pattern, in lower case,
    as the only "path"; on a platform that [get_device_paths] does not
    know, [UnsupportedPlatformError] is raised.  In both cases the state
    is left as it was: no worker is listed and nothing is logged,
    whatever the workers are. *)
Theorem get_device_paths_without_listing (worker_names : list string) (s : state) :
  ((Py.lower (platform cfg) =? IBM_POWER_PLATFORM K)%string = true ->
   forall p, disk_pattern = Some p ->
   get_paths worker_names s = (s, inr [Py.lower p]))
  /\ (lso_platform K (Py.lower (platform cfg)) = false ->
      get_paths worker_names s
      = (s, inl (unsupported_platform (Py.lower (platform cfg))))).
Proof.
  unfold get_paths, get_device_paths. split.
  - intros H p ->. rewrite H. reflexivity.
  - unfold lso_platform, builtin_pattern_platform. intros H.
    apply orb_false_iff in H. destruct H as [H Hbm].
    apply orb_false_iff in H. destruct H as [Hibm H].
    apply orb_false_iff in H. destruct H as [H Hpsi].
    apply orb_false_iff in H. destruct H as [Haws Hvs].
    rewrite Hibm. unfold device_pattern, bind.
    rewrite Haws, Hvs, Hbm, Hpsi. reflexivity.
Qed.

(** X7.  When the pattern of the platform is [p], every path that
    [get_device_paths] returns is ["/dev/disk/by-id/"] followed by a
    part of a line of a listing that contains [p] and has no blank. *)
Theorem get_device_paths_by_id (p : string) (worker_names : list string) :
  (Py.lower (platform cfg) =? IBM_POWER_PLATFORM K)%string = false ->
  device_pattern disk_pattern (Py.lower (platform cfg)) = ret (Some p) ->
  yields (Forall (by_id_path p)) (get_paths worker_names).
Proof.
  intros Hibm Hpat. unfold get_paths, get_device_paths. rewrite Hibm, Hpat.
  intros s l. unfold bind, ret.
  apply yields_for_each; [constructor |].
  intros w acc _ Hacc. apply add_worker_paths_yields. exact Hacc.
Qed.

(** X8.  When the pattern of the platform has no blank, the only exceptions
    of [get_device_paths] are those of the listing command: the first
    matching part of a matching line always exists, and the pattern is a
    string. *)
Theorem get_device_paths_fails_with_listing_only (p : string)
    (worker_names : list string) :
  (Py.lower (platform cfg) =? IBM_POWER_PLATFORM K)%string = false ->
  device_pattern disk_pattern (Py.lower (platform cfg)) = ret (Some p) ->
  PyText.lacks " " p = true ->
  throws_only (fun e => exists j ev, is_run_cmd ev = true /\ ans_str env j ev = inl e)
              (get_paths worker_names).
Proof.
  intros Hibm Hpat Hp. unfold get_paths, get_device_paths. rewrite Hibm, Hpat.
  change (throws_only listing_failure
            (for_each worker_names
               (add_worker_paths env retry_tries retry_delay retry_backoff (Some p)) [])).
  apply throws_only_for_each. intros w acc _. apply add_worker_paths_throws. exact Hp.
Qed.

(** X9.  A pattern with a blank matches no part of a line, so that a line of
    a listing that contains it raises [IndexError]: whenever
    [get_device_paths] returns with such a pattern, it returns no path. *)
Theorem get_device_paths_pattern_with_blank (p : string) (worker_names : list string) :
  (Py.lower (platform cfg) =? IBM_POWER_PLATFORM K)%string = false ->
  device_pattern disk_pattern (Py.lower (platform cfg)) = ret (Some p) ->
  PyText.lacks " " p = false ->
  yields (fun paths => paths = []) (get_paths worker_names).
Proof.
  intros Hibm Hpat Hp. unfold get_paths, get_device_paths. rewrite Hibm, Hpat.
  change (yields (fun paths : list string => paths = [])
            (for_each worker_names
               (add_worker_paths env retry_tries retry_delay retry_backoff (Some p)) [])).
  apply (yields_for_each (fun paths : list string => paths = [])); [reflexivity |].
  intros w acc _ ->. unfold add_worker_paths.
  apply yields_bind. intros _. apply yields_bind. intros out.
  intros s1 l1. unfold bind. rewrite filter_m_is_device_line.
  destruct (filter _ (PyText.split PyText.newline out)) as [| line lines].
  - simpl. intros H. injection H as <-. reflexivity.
  - simpl for_each. intros H.
    destruct (add_device_path_never_returns p line [] Hp s1) as [e He].
    unfold bind in H.
    destruct (add_device_path (Some p) line [] s1) as [s' [e' | a]];
      simpl in *; congruence.
Qed.

End DevicePathProofs.

(** ** [label_and_taint_nodes]: the distribution over the zones *)

Lemma option_string_eqb_eq (a b : option string) :
  option_string_eqb a b = true <-> a = b.
Proof.
  destruct a as [x |], b as [y |]; simpl; split; intros H;
    try discriminate; try reflexivity.
  - apply String.eqb_eq in H. congruence.
  - injection H as ->. apply String.eqb_refl.
Qed.

Lemma option_string_eqb_neq (a b : option string) :
  option_string_eqb a b = false <-> a <> b.
Proof.
  split; intros H.
  - intros E. apply option_string_eqb_eq in E. congruence.
  - destruct (option_string_eqb a b) eqn:E; [| reflexivity].
    apply option_string_eqb_eq in E. contradiction.
Qed.

Lemma zone_get_in (az : option string) (d : zones) :
  In az (map fst d) -> exists l, zone_get az d = Some l.
Proof.
  induction d as [| [k v] rest IH]; simpl; intros H; [contradiction |].
  destruct (option_string_eqb k az) eqn:E.
  - exists v. reflexivity.
  - destruct H as [H | H]; [| exact (IH H)].
    apply option_string_eqb_neq in E. contradiction.
Qed.

Lemma zone_get_none (az : option string) (d : zones) :
  zone_get az d = None -> ~ In az (map fst d).
Proof.
  induction d as [| [k v] rest IH]; simpl; intros H; [tauto |].
  destruct (option_string_eqb k az) eqn:E; [discriminate |].
  apply option_string_eqb_neq in E. intros [F | F]; [contradiction | exact (IH H F)].
Qed.

Lemma zone_names_cons (k : option string) (v : list Node) (d : zones) :
  zone_names ((k, v) :: d) = map node_name v ++ zone_names d.
Proof. reflexivity. Qed.

(** Replacing the workers of a zone that is in the dict. *)
Lemma zone_set_present (az : option string) (old new : list Node) (d : zones) :
  zone_get az d = Some old ->
  map fst (zone_set az new d) = map fst d
  /\ zones_size (zone_set az new d) + length old = zones_size d + length new
  /\ exists pre post,
       zone_names d = pre ++ map node_name old ++ post
       /\ zone_names (zone_set az new d) = pre ++ map node_name new ++ post
       /\ zone_names (zone_del az d) = pre ++ post.
Proof.
  revert old. induction d as [| [k v] rest IH]; intros old H; [discriminate |].
  simpl zone_get in H. simpl zone_set. simpl zone_del.
  destruct (option_string_eqb k az) eqn:E.
  - injection H as ->. split; [reflexivity |]. split; [simpl; lia |].
    exists [], (zone_names rest). rewrite !zone_names_cons. auto.
  - destruct (IH old H) as (Hk & Hs & pre & post & E1 & E2 & E3).
    split; [simpl; congruence |]. split; [simpl in *; lia |].
    exists (map node_name v ++ pre), post. rewrite !zone_names_cons, E1, E2, E3.
    rewrite <- !app_assoc. auto.
Qed.

Lemma zone_del_present (az : option string) (old : list Node) (d : zones) :
  zone_get az d = Some old ->
  zones_size (zone_del az d) + S (length old) = zones_size d
  /\ (forall k, In k (map fst d) -> k <> az -> In k (map fst (zone_del az d)))
  /\ (forall k, In k (map fst (zone_del az d)) -> In k (map fst d))
  /\ (NoDup (map fst d) -> NoDup (map fst (zone_del az d))).
Proof.
  revert old. induction d as [| [k v] rest IH]; simpl; intros old H; [discriminate |].
  destruct (option_string_eqb k az) eqn:E.
  - injection H as ->. apply option_string_eqb_eq in E. subst k.
    split; [lia |]. split; [| split].
    + intros k [Hk | Hk] N; [congruence | exact Hk].
    + intros k Hk. right. exact Hk.
    + intros ND. inversion ND. assumption.
  - destruct (IH old H) as (Hs & Hin & Hout & Hnd). simpl.
    split; [lia |]. split; [| split].
    + intros k' [Hk | Hk] N; [left; exact Hk | right; apply Hin; assumption].
    + intros k' [Hk | Hk]; [left; exact Hk | right; apply Hout; exact Hk].
    + intros ND. inversion ND as [| ? ? Hni ND']; subst.
      constructor; [| apply Hnd; exact ND'].
      intros F. apply Hni. apply Hout. exact F.
Qed.

Lemma names_after_pop (az : option string) (node : Node) (tl : list Node) (d : zones) :
  zone_get az d = Some (node :: tl) ->
  Permutation (node_name node :: zone_names (zone_set az tl d)) (zone_names d).
Proof.
  intros H.
  destruct (zone_set_present az (node :: tl) tl d H)
    as (_ & _ & pre & post & E1 & E2 & _).
  rewrite E1, E2. simpl map. apply Permutation_middle.
Qed.

Lemma names_after_del (az : option string) (d : zones) :
  zone_get az d = Some [] -> zone_names (zone_del az d) = zone_names d.
Proof.
  intros H.
  destruct (zone_set_present az [] [] d H) as (_ & _ & pre & post & E1 & _ & E3).
  rewrite E1, E3. reflexivity.
Qed.

(** A pass over keys of the dict, each once, raises no [KeyError],
    takes workers of the dict, and takes a worker or deletes a zone for
    each key. *)
Lemma take_round_spec (keys : list (option string)) :
  forall (d : zones) (taken : list string),
    NoDup keys -> incl keys (map fst d) -> NoDup (map fst d) ->
    exists d' picked,
      take_round keys d taken = inr (d', taken ++ picked)
      /\ NoDup (map fst d')
      /\ Permutation (picked ++ zone_names d') (zone_names d)
      /\ zones_size d' + length keys = zones_size d.
Proof.
  induction keys as [| az rest IH]; intros d taken NDk Hincl NDd.
  - exists d, []. rewrite app_nil_r. simpl. repeat split; auto.
  - inversion NDk as [| ? ? Hni NDrest]; subst.
    destruct (zone_get_in az d (Hincl az (or_introl eq_refl))) as [l Hl].
    simpl take_round. rewrite Hl. destruct l as [| node tl].
    + destruct (zone_del_present az [] d Hl) as (Hs & Hin & _ & Hnd).
      destruct (IH (zone_del az d) taken NDrest) as (d' & picked & E & ND' & P & S).
      * intros k Hk. apply Hin; [apply Hincl; right; exact Hk |].
        intros ->. contradiction.
      * apply Hnd. exact NDd.
      * exists d', picked. split; [exact E |]. split; [exact ND' |]. split.
        -- rewrite <- (names_after_del az d Hl). exact P.
        -- simpl in *. lia.
    + destruct (zone_set_present az (node :: tl) tl d Hl) as (Hk & Hs & _).
      destruct (IH (zone_set az tl d) (taken ++ [node_name node]) NDrest)
        as (d' & picked & E & ND' & P & S).
      * rewrite Hk. intros k Hin. apply Hincl. right. exact Hin.
      * rewrite Hk. exact NDd.
      * exists d', (node_name node :: picked). split.
        -- rewrite E. rewrite <- app_assoc. reflexivity.
        -- split; [exact ND' |]. split.
           ++ simpl. eapply Permutation_trans;
                [constructor; exact P | apply names_after_pop; exact Hl].
           ++ simpl in *. lia.
Qed.

(** The loop ends without [KeyError], and has then taken every worker
    of the dict once. *)
Lemma take_rounds_takes_every_worker (size : nat) :
  forall (d : zones) (taken : list string),
    NoDup (map fst d) -> zones_size d <= size ->
    exists picked,
      take_rounds d taken = inr (taken ++ picked)
      /\ Permutation picked (zone_names d).
Proof.
  induction size as [| n IH]; intros d taken ND Hsize.
  - destruct d as [| [k v] rest]; [| simpl in Hsize; lia].
    exists []. rewrite app_nil_r, take_rounds_equation.
    split; [reflexivity | constructor].
  - destruct d as [| kv rest].
    + exists []. rewrite app_nil_r, take_rounds_equation.
      split; [reflexivity | constructor].
    + remember (kv :: rest) as d0 eqn:Ed.
      destruct (take_round_spec (map fst d0) d0 taken ND (incl_refl _) ND)
        as (d' & p1 & E & ND' & P & S).
      assert (Hlen : 1 <= length (map fst d0)) by (rewrite Ed; simpl; lia).
      destruct (IH d' (taken ++ p1) ND') as (p2 & E2 & P2); [lia |].
      exists (p1 ++ p2). split.
      * assert (Estep : take_rounds d0 taken
                        = match take_round (map fst d0) d0 taken with
                          | inr (d1, taken1) => take_rounds d1 taken1
                          | inl az => inl az
                          end)
          by (rewrite take_rounds_equation, Ed; reflexivity).
        rewrite Estep, E, E2, app_assoc. reflexivity.
      * eapply Permutation_trans; [| exact P].
        apply Permutation_app_head. exact P2.
Qed.

Lemma zone_set_absent (az : option string) (new : list Node) (d : zones) :
  zone_get az d = None ->
  map fst (zone_set az new d) = map fst d ++ [az]
  /\ zone_names (zone_set az new d) = zone_names d ++ map node_name new.
Proof.
  induction d as [| [k v] rest IH]; intros H.
  - split; [reflexivity |]. unfold zone_names. simpl. rewrite app_nil_r. reflexivity.
  - simpl zone_get in H. simpl zone_set.
    destruct (option_string_eqb k az) eqn:E; [discriminate |].
    destruct (IH H) as [Hk Hn]. split; [simpl; congruence |].
    rewrite !zone_names_cons, Hn, app_assoc. reflexivity.
Qed.

(** The dict of the zones has each zone once and holds the workers. *)
Lemma group_by_zone_spec (worker_nodes : list Node) :
  forall d : zones,
    NoDup (map fst d) ->
    let d' := fold_left
                (fun d node =>
                   zone_set (zone_of node)
                     (match zone_get (zone_of node) d with
                      | Some l => l
                      | None => []
                      end ++ [node]) d)
                worker_nodes d in
    NoDup (map fst d')
    /\ Permutation (zone_names d') (zone_names d ++ map node_name worker_nodes).
Proof.
  induction worker_nodes as [| node rest IH]; intros d ND; simpl.
  - rewrite app_nil_r. split; [exact ND | apply Permutation_refl].
  - set (az := zone_of node).
    destruct (zone_get az d) as [old |] eqn:G.
    + destruct (zone_set_present az old (old ++ [node]) d G)
        as (Hk & _ & pre & post & E1 & E2 & _).
      destruct (IH (zone_set az (old ++ [node]) d)) as (ND' & P).
      { rewrite Hk. exact ND. }
      split; [exact ND' |].
      eapply Permutation_trans; [exact P |].
      change (node_name node :: map node_name rest)
        with ([node_name node] ++ map node_name rest).
      rewrite app_assoc. apply Permutation_app_tail.
      rewrite E1, E2, map_app. simpl map.
      rewrite <- !app_assoc. do 2 apply Permutation_app_head.
      apply Permutation_app_comm.
    + destruct (zone_set_absent az ([] ++ [node]) d G) as (Hk & Hn).
      destruct (IH (zone_set az ([] ++ [node]) d)) as (ND' & P).
      { rewrite Hk. apply NoDup_app; [exact ND | constructor; [tauto | constructor] |].
        intros k Hin [<- | []]. exact (zone_get_none _ _ G Hin). }
      split; [exact ND' |].
      eapply Permutation_trans; [exact P |].
      rewrite Hn. simpl. rewrite <- app_assoc. apply Permutation_refl.
Qed.

(** X10.  The workers are handed out zone after zone: the loop over the
    zones ([take_rounds], which recurses on the size of the dict and so
    ends on every dict) has no [KeyError], and its result names every
    worker once. *)
Theorem distribute_takes_every_worker (worker_nodes : list Node) :
  exists distributed_worker_nodes,
    distribute (group_by_zone worker_nodes) = inr distributed_worker_nodes
    /\ Permutation distributed_worker_nodes (map node_name worker_nodes).
Proof.
  destruct (group_by_zone_spec worker_nodes [] (NoDup_nil _)) as (ND & P).
  fold (group_by_zone worker_nodes) in ND, P. simpl in P.
  destruct (take_rounds_takes_every_worker
              (zones_size (group_by_zone worker_nodes))
              (group_by_zone worker_nodes) [] ND (le_n _)) as (picked & E & Pp).
  exists picked. split; [exact E |].
  eapply Permutation_trans; [exact Pp | exact P].
Qed.

(** ** [label_and_taint_nodes]: too few workers *)

Section LabelAndTaintProofs.

Variables (cfg : Config) (env : Env).
Variable ans_nodes : journal -> event -> exn + option (list Node).
Variables to_label to_taint : Z.
Variable infra_replicas : bool.
Variable INFRA_NODE_LABEL : string.
Variable repr_zones : zones -> string.
Variable repr_nodes : list Node -> string.
Variable repr_names : list string -> string.

Let label_and_taint : M unit :=
  label_and_taint_nodes cfg env ans_nodes to_label to_taint infra_replicas
    INFRA_NODE_LABEL repr_zones repr_nodes repr_names.

Let get_nodes : event := Call "OCP.get" [kw "kind" "node"].

Let workers_of (items : option (list Node)) : list Node :=
  filter (has_label "node-role.kubernetes.io/worker")
         match items with Some l => l | None => [] end.

(** X11.  When no node has the worker label, or the answer has no ["items"],
    [label_and_taint_nodes] raises [UnavailableResourceException] right
    after the query: nothing is logged, no command is run. *)
Theorem label_and_taint_nodes_without_worker (items : option (list Node)) (s : state) :
  ans_nodes (st_journal s) get_nodes = inr items ->
  workers_of items = [] ->
  label_and_taint s = (push get_nodes s, inl no_worker_found).
Proof.
  intros Hans Hnone. unfold label_and_taint, label_and_taint_nodes.
  unfold bind at 1. unfold ask. fold get_nodes. rewrite Hans.
  fold (workers_of items). rewrite Hnone. reflexivity.
Qed.

(** X12.  When there are workers, but fewer than are to be labelled or fewer
    than are to be tainted, [label_and_taint_nodes] raises
    [UnavailableResourceException] with the three numbers, after four
    entries in the log, and runs no [oc] command: no node is labelled
    when only the number to taint is too large, and the other way
    round. *)
Theorem label_and_taint_nodes_too_few_workers (items : option (list Node)) (s : state) :
  ans_nodes (st_journal s) get_nodes = inr items ->
  workers_of items <> [] ->
  (Z.of_nat (length (workers_of items)) < to_label
   \/ Z.of_nat (length (workers_of items)) < to_taint)%Z ->
  outcome label_and_taint s
  = inl (not_enough_workers to_label to_taint (Z.of_nat (length (workers_of items))))
  /\ forallb no_exec_oc_cmd (added label_and_taint s) = true
  /\ length (added label_and_taint s) = 5.
Proof.
  intros Hans Hsome Hfew.
  destruct (group_by_zone_spec (workers_of items) [] (NoDup_nil _)) as (ND & _).
  fold (group_by_zone (workers_of items)) in ND.
  destruct (take_rounds_takes_every_worker
              (zones_size (group_by_zone (workers_of items)))
              (group_by_zone (workers_of items)) [] ND (le_n _)) as (picked & E & _).
  fold (distribute (group_by_zone (workers_of items))) in E. simpl in E.
  assert (Hcmp : ((Z.of_nat (length (workers_of items)) <? to_label)%Z
                  || (Z.of_nat (length (workers_of items)) <? to_taint)%Z) = true).
  { apply orb_true_iff. destruct Hfew as [H | H]; [left | right];
      apply Z.ltb_lt; exact H. }
  assert (Hrun : exists s',
             label_and_taint s
             = (s', inl (not_enough_workers to_label to_taint
                           (Z.of_nat (length (workers_of items)))))
             /\ st_journal s'
                = st_journal s
                  ++ [get_nodes;
                      Log DEBUG ("Found the worker nodes in AZ: "
                                 ++ repr_zones (group_by_zone (workers_of items)))%string;
                      Log INFO ("Distributed worker nodes for AZ: "
                                ++ repr_names picked)%string;
                      Log INFO ("All nodes: "
                                ++ repr_nodes match items with
                                              | Some l => l
                                              | None => []
                                              end)%string;
                      Log INFO ("Worker nodes: " ++ repr_nodes (workers_of items))%string]).
  { unfold label_and_taint, label_and_taint_nodes.
    unfold bind at 1. unfold ask. fold get_nodes. rewrite Hans.
    fold (workers_of items).
    destruct (workers_of items) as [| w ws] eqn:Ew; [contradiction |].
    rewrite <- Ew in *. unfold bind at 1. unfold ret at 1.
    unfold bind at 1. unfold logger at 1.
    unfold bind at 1. rewrite E. unfold ret at 1.
    unfold bind at 1. unfold logger at 1.
    unfold bind at 1. rewrite Hcmp.
    unfold bind, logger, raise.
    eexists. split; [reflexivity |].
    repeat rewrite push_journal. repeat rewrite <- app_assoc. reflexivity. }
  destruct Hrun as (s' & Hrun & Hj).
  split; [exact (outcome_eq _ _ _ _ Hrun) |].
  rewrite (added_eq _ _ _ _ _ Hrun Hj). split; reflexivity.
Qed.

End LabelAndTaintProofs.

(** ** [label_and_taint_nodes]: the first pass over the zones *)

Lemma zone_get_set_other (az k : option string) (v : list Node) (d : zones) :
  k <> az -> zone_get k (zone_set az v d) = zone_get k d.
Proof.
  intros N. induction d as [| [k' w] rest IH]; simpl.
  - apply option_string_eqb_neq in N.
    destruct (option_string_eqb az k) eqn:E; [| reflexivity].
    apply option_string_eqb_eq in E. apply option_string_eqb_neq in N. congruence.
  - destruct (option_string_eqb k' az) eqn:E; simpl.
    + apply option_string_eqb_eq in E. subst k'.
      destruct (option_string_eqb az k) eqn:F; [| reflexivity].
      apply option_string_eqb_eq in F. congruence.
    + destruct (option_string_eqb k' k); [reflexivity | exact IH].
Qed.

Lemma flat_map_ext_in {X Y : Type} (f g : X -> list Y) (l : list X) :
  (forall x, In x l -> f x = g x) -> flat_map f l = flat_map g l.
Proof.
  induction l as [| x rest IH]; intros H; [reflexivity |].
  simpl. rewrite (H x (or_introl eq_refl)), IH; [reflexivity |].
  intros y Hy. apply H. right. exact Hy.
Qed.

Lemma take_round_heads (keys : list (option string)) :
  forall (d : zones) (taken : list string),
    NoDup keys ->
    (forall k, In k keys -> exists node tl, zone_get k d = Some (node :: tl)) ->
    exists d',
      take_round keys d taken = inr (d', taken ++ flat_map (head_of d) keys).
Proof.
  induction keys as [| az rest IH]; intros d taken ND H.
  - exists d. simpl. rewrite app_nil_r. reflexivity.
  - inversion ND as [| ? ? Hni NDrest]; subst.
    destruct (H az (or_introl eq_refl)) as (node & tl & G).
    simpl take_round. rewrite G.
    destruct (IH (zone_set az tl d) (taken ++ [node_name node]) NDrest) as (d' & E).
    + intros k Hk. rewrite zone_get_set_other; [apply H; right; exact Hk |].
      intros ->. contradiction.
    + exists d'. rewrite E. rewrite <- app_assoc. simpl flat_map.
      unfold head_of at 2. rewrite G. simpl.
      do 4 f_equal. apply flat_map_ext_in.
      intros k Hk. unfold head_of. rewrite zone_get_set_other; [reflexivity |].
      intros ->. contradiction.
Qed.

Lemma head_of_first (k : option string) (v : list Node) (rest : zones) :
  head_of ((k, v) :: rest) k
  = match v with node :: _ => [node_name node] | [] => [] end.
Proof.
  unfold head_of. simpl.
  destruct (option_string_eqb k k) eqn:E; [reflexivity |].
  apply option_string_eqb_neq in E. contradiction.
Qed.

Lemma heads_of_keys (d : zones) :
  NoDup (map fst d) -> flat_map (head_of d) (map fst d) = zone_heads d.
Proof.
  induction d as [| [k v] rest IH]; intros ND; [reflexivity |].
  inversion ND as [| ? ? Hni ND']; subst.
  simpl map. simpl flat_map. rewrite head_of_first.
  unfold zone_heads. simpl flat_map. f_equal.
  fold (zone_heads rest). rewrite <- (IH ND').
  apply flat_map_ext_in. intros az Haz. unfold head_of. simpl.
  destruct (option_string_eqb k az) eqn:E; [| reflexivity].
  apply option_string_eqb_eq in E. subst az. contradiction.
Qed.

(** Every zone of the dict built from the workers has a worker. *)
Lemma group_by_zone_nonempty (worker_nodes : list Node) :
  forall d : zones,
    Forall (fun kv => snd kv <> []) d ->
    Forall (fun kv => snd kv <> [])
      (fold_left
         (fun d node =>
            zone_set (zone_of node)
              (match zone_get (zone_of node) d with
               | Some l => l
               | None => []
               end ++ [node]) d)
         worker_nodes d).
Proof.
  induction worker_nodes as [| node rest IH]; intros d H; [exact H |].
  simpl. apply IH.
  generalize (match zone_get (zone_of node) d with
              | Some l => l
              | None => []
              end). intros old.
  induction d as [| [k v] tl IHd]; simpl.
  - constructor; [| constructor]. simpl. destruct old; discriminate.
  - inversion H as [| ? ? Hv Htl]; subst.
    destruct (option_string_eqb k (zone_of node)).
    + constructor; [| exact Htl]. simpl. destruct old; discriminate.
    + constructor; [exact Hv | apply IHd; exact Htl].
Qed.

Lemma zone_get_of_key (d : zones) (k : option string) :
  Forall (fun kv => snd kv <> []) d -> In k (map fst d) ->
  exists node tl, zone_get k d = Some (node :: tl).
Proof.
  induction d as [| [k' v] rest IH]; intros H Hin; [contradiction |].
  inversion H as [| ? ? Hv Hrest]; subst. simpl in Hv. simpl zone_get.
  destruct (option_string_eqb k' k) eqn:E.
  - destruct v as [| node tl]; [contradiction |]. exists node, tl. reflexivity.
  - destruct Hin as [Hin | Hin]; [| exact (IH Hrest Hin)].
    apply option_string_eqb_neq in E. contradiction.
Qed.

Lemma zone_heads_length (d : zones) :
  Forall (fun kv => snd kv <> []) d -> length (zone_heads d) = length d.
Proof.
  induction d as [| [k v] rest IH]; intros H; [reflexivity |].
  inversion H as [| ? ? Hv Hrest]; subst. simpl in Hv.
  unfold zone_heads. simpl flat_map. fold (zone_heads rest).
  rewrite length_app, (IH Hrest).
  destruct v as [| node tl]; [contradiction | reflexivity].
Qed.

(** X13.  The distribution begins with one worker of each zone: the first
    worker of every zone, in the order in which the zones were met among
    the workers; the other workers follow. *)
Theorem distribute_begins_with_a_worker_of_each_zone (worker_nodes : list Node) :
  exists others,
    distribute (group_by_zone worker_nodes)
    = inr (zone_heads (group_by_zone worker_nodes) ++ others)
    /\ length (zone_heads (group_by_zone worker_nodes))
       = length (group_by_zone worker_nodes).
Proof.
  destruct (group_by_zone_spec worker_nodes [] (NoDup_nil _)) as (ND & _).
  pose proof (group_by_zone_nonempty worker_nodes [] (Forall_nil _)) as NE.
  fold (group_by_zone worker_nodes) in ND, NE.
  remember (group_by_zone worker_nodes) as d eqn:Ed. clear Ed.
  pose proof (zone_heads_length d NE) as Hlen.
  destruct d as [| kv rest].
  - exists []. split; [reflexivity | exact Hlen].
  - remember (kv :: rest) as d0 eqn:Ed.
    destruct (take_round_spec (map fst d0) d0 [] ND (incl_refl _) ND)
      as (d1 & picked & E1 & ND1 & _ & S1).
    destruct (take_round_heads (map fst d0) d0 [] ND) as (d2 & E2).
    { intros k Hk. apply zone_get_of_key; assumption. }
    rewrite (heads_of_keys d0 ND) in E2. rewrite E1 in E2.
    injection E2 as -> Hp. simpl in Hp. subst picked.
    destruct (take_rounds_takes_every_worker (zones_size d2) d2 (zone_heads d0)
                ND1 (le_n _))
      as (others & E & _).
    exists others. split; [| exact Hlen]. unfold distribute.
    assert (Estep : take_rounds d0 []
                    = match take_round (map fst d0) d0 [] with
                      | inr (d', taken') => take_rounds d' taken'
                      | inl az => inl az
                      end)
      by (rewrite take_rounds_equation, Ed; reflexivity).
    rewrite Estep, E1. simpl app. exact E.
Qed.

(** ** What a retried function returns *)

(** What [retry] returns was returned by a run of the function. *)
Lemma retry_from_returned {X : Type} (classes : list exn_class)
    (more delay backoff : nat) (f : M X) (s : state) (x : X) :
  snd (retry_from classes more delay backoff f s) = inr x ->
  exists s0, snd (f s0) = inr x.
Proof.
  revert delay s. induction more as [| n IH]; intros delay s; simpl.
  - intros H. exists s. exact H.
  - unfold try_except. destruct (f s) as [s' [e | a]] eqn:E.
    + destruct (isinstance e classes).
      * unfold bind, sleep. apply IH.
      * discriminate.
    + simpl. intros H. exists s. rewrite E. exact H.
Qed.

Lemma isinstance_one (e : exn) (c : exn_class) :
  isinstance e [c] = true -> exn_cls e = c.
Proof.
  unfold isinstance. simpl. rewrite orb_false_r.
  destruct (exn_cls e), c; simpl; intros H; try discriminate; try reflexivity.
  apply String.eqb_eq in H. congruence.
Qed.

(** ** [verify_pvs_created] *)

Section VerifyPVsProofs.

Variable ans_pvs : journal -> event -> exn + list PersistentVolume.

Lemma check_pvs_returned (items : list PersistentVolume) (s : state) (u : unit) :
  snd (for_each items check_pv tt s) = inr u -> forallb pv_available items = true.
Proof.
  revert s. induction items as [| pv rest IH]; intros s; [reflexivity |].
  simpl for_each. unfold bind at 1. unfold check_pv at 1.
  unfold bind at 1. unfold logger at 1. unfold assert_msg, pv_available. simpl.
  destruct (pv_phase pv =? "Available")%string; simpl.
  - destruct u. apply IH.
  - discriminate.
Qed.

Lemma verify_pvs_created_once_returned (expected_pvs : Z) (s : state) (u : unit) :
  snd (verify_pvs_created_once ans_pvs expected_pvs s) = inr u ->
  exists j items,
    ans_pvs j get_pv = inr items
    /\ Z.of_nat (length items) = expected_pvs
    /\ forallb pv_available items = true
    /\ (0 < expected_pvs)%Z.
Proof.
  unfold verify_pvs_created_once. unfold bind at 1. unfold logger at 1.
  unfold bind at 1. unfold ask at 1.
  destruct (ans_pvs (st_journal (push (Log INFO "Verifying PVs are created") s)) get_pv)
    as [e | items] eqn:E; [discriminate |].
  destruct items as [| pv rest]; [discriminate |].
  unfold bind at 1. unfold assert_msg at 1. unfold ret at 1.
  unfold bind at 1. unfold assert_msg at 1.
  destruct (Z.of_nat (length (pv :: rest)) =? expected_pvs)%Z eqn:Hn; [| discriminate].
  unfold ret at 1. unfold bind at 1.
  destruct (for_each (pv :: rest) check_pv tt _) as [s' [e | v]] eqn:F; [discriminate |].
  intros _. apply Z.eqb_eq in Hn.
  exists (st_journal (push (Log INFO "Verifying PVs are created") s)), (pv :: rest).
  split; [exact E |]. split; [exact Hn |]. split.
  - apply (check_pvs_returned _ (push get_pv (push (Log INFO "Verifying PVs are created") s)) v).
    rewrite F. reflexivity.
  - rewrite <- Hn. simpl length. lia.
Qed.

(** X14.  [verify_pvs_created] returns only when a listing has shown exactly
    [expected_pvs] volumes, all of them [Available]; as an empty
    listing fails the first assertion, it never returns for an
    [expected_pvs] of zero. *)
Theorem verify_pvs_created_returns_when_all_available (expected_pvs : Z) (s : state) :
  outcome (verify_pvs_created ans_pvs expected_pvs) s = inr tt ->
  exists j items,
    ans_pvs j get_pv = inr items
    /\ Z.of_nat (length items) = expected_pvs
    /\ forallb pv_available items = true
    /\ (0 < expected_pvs)%Z.
Proof.
  unfold outcome, verify_pvs_created, retry. intros H.
  destruct (retry_from_returned _ _ _ _ _ _ _ H) as [s0 H0].
  exact (verify_pvs_created_once_returned _ _ _ H0).
Qed.

End VerifyPVsProofs.

(** ** [validate_pv_delete] *)

Section ValidatePVDeleteProofs.

Variables (K : Names) (env : Env).

Lemma validate_pv_delete_once_returned (pv_name : string) (s : state) (v : pyvalue) :
  snd (validate_pv_delete_once K env pv_name s) = inr v ->
  match v with
  | PyBool true =>
      exists j e, ans_bool env j (get_pv_by_name K pv_name) = inl e
                  /\ exn_cls e = CommandFailed
  | PyBool false => False
  | PyNone => exists j, ans_bool env j (get_pv_by_name K pv_name) = inr false
  end.
Proof.
  unfold validate_pv_delete_once, try_except. unfold bind at 1. unfold ask at 1.
  destruct (ans_bool env (st_journal s) (get_pv_by_name K pv_name)) as [e | found] eqn:E.
  - destruct (isinstance e [CommandFailed]) eqn:I; simpl; [| discriminate].
    intros H. injection H as <-. exists (st_journal s), e.
    split; [exact E | exact (isinstance_one _ _ I)].
  - destruct found; simpl; [discriminate |].
    intros H. injection H as <-. exists (st_journal s). exact E.
Qed.

(** X15.  [validate_pv_delete] returns [True] only when a lookup of the PV
    has raised [CommandFailed].  When a lookup answers with an empty
    result it returns [None], not [True]; it never returns [False]. *)
Theorem validate_pv_delete_returns (pv_name : string) (s : state) (v : pyvalue) :
  outcome (validate_pv_delete K env pv_name) s = inr v ->
  match v with
  | PyBool true =>
      exists j e, ans_bool env j (get_pv_by_name K pv_name) = inl e
                  /\ exn_cls e = CommandFailed
  | PyBool false => False
  | PyNone => exists j, ans_bool env j (get_pv_by_name K pv_name) = inr false
  end.
Proof.
  unfold outcome, validate_pv_delete, retry. intros H.
  destruct (retry_from_returned _ _ _ _ _ _ _ H) as [s0 H0].
  exact (validate_pv_delete_once_returned _ _ _ H0).
Qed.

End ValidatePVDeleteProofs.

(** ** [is_volume_present_in_backend] *)

Section VolumeInBackendProofs.

Variable env : Env.
Variable initial_CEPHFILESYSTEM_NAME : string.

Let present (interface image_uuid : string) (pool_name : option string) : M bool :=
  is_volume_present_in_backend env initial_CEPHFILESYSTEM_NAME
    interface image_uuid pool_name.

Let tools_pod : event := Call "pod.get_ceph_tools_pod" [].

(** X16.  For an interface that is neither [CephBlockPool] nor
    [CephFileSystem] the command is never assigned: once the tools pod
    is found, [UnboundLocalError] is raised and no ceph command is
    run. *)
Theorem is_volume_present_in_backend_other_interface
    (interface image_uuid : string) (pool_name : option string) (s : state) :
  (interface =? constants.CEPHBLOCKPOOL)%string = false ->
  (interface =? constants.CEPHFILESYSTEM)%string = false ->
  ans_unit env (st_journal s) tools_pod = inr tt ->
  present interface image_uuid pool_name s
  = (push tools_pod s,
     inl (Exn UnboundLocalError
              "local variable 'cmd' referenced before assignment")).
Proof.
  intros H1 H2 Hpod. unfold present, is_volume_present_in_backend.
  unfold bind at 1. unfold ask at 1. fold tools_pod. rewrite Hpod.
  unfold bind at 1. unfold get_CEPHFILESYSTEM_NAME at 1.
  rewrite H1, H2. reflexivity.
Qed.

(** X17.  The answer [False] means that the ceph command failed with
    [CommandFailed] and a text that contains the error expected for a
    missing image or subvolume; the answer [True] means that the ceph
    command succeeded. *)
Theorem is_volume_present_in_backend_answers
    (interface image_uuid : string) (pool_name : option string) (s : state) (b : bool) :
  outcome (present interface image_uuid pool_name) s = inr b ->
  exists j cmd,
    if b then ans_unit env j (exec_ceph_cmd cmd) = inr tt
    else exists e,
           ans_unit env j (exec_ceph_cmd cmd) = inl e
           /\ exn_cls e = CommandFailed
           /\ (Py.contains ("error opening image csi-vol-" ++ image_uuid) (exn_msg e) = true
               \/ Py.contains ("Subvolume 'csi-vol-" ++ image_uuid ++ "' not found")
                              (exn_msg e) = true).
Proof.
  unfold outcome, present, is_volume_present_in_backend.
  unfold bind at 1. unfold ask at 1.
  destruct (ans_unit env (st_journal s) (Call "pod.get_ceph_tools_pod" []))
    as [e0 | []]; [discriminate |].
  unfold bind at 1. unfold get_CEPHFILESYSTEM_NAME at 1.
  set (s1 := push (Call "pod.get_ceph_tools_pod" []) s).
  set (fs_name := match CEPHFILESYSTEM_NAME s1 with
                  | Some v => v
                  | None => initial_CEPHFILESYSTEM_NAME
                  end).
  destruct (interface =? constants.CEPHBLOCKPOOL)%string;
    destruct (interface =? constants.CEPHFILESYSTEM)%string;
    cbv beta iota zeta; unfold try_except; unfold bind at 1; unfold local at 1;
    try (simpl; discriminate);
    unfold ret at 1; unfold bind at 1; unfold ask at 1;
    match goal with
    | |- context [ans_unit env (st_journal s1) (exec_ceph_cmd ?c)] =>
        destruct (ans_unit env (st_journal s1) (exec_ceph_cmd c)) as [e | []] eqn:E;
        [ destruct (isinstance e [CommandFailed]) eqn:I;
          [ unfold bind at 1; unfold local at 1; unfold ret at 1;
            unfold bind at 1; unfold assert_msg at 1;
            match goal with
            | |- context [Py.contains ?v (exn_msg e)] =>
                destruct (Py.contains v (exn_msg e)) eqn:C
            end;
            [ simpl; intros H; injection H as <-;
              exists (st_journal s1), c, e;
              split; [exact E |]; split; [exact (isinstance_one _ _ I) |];
              first [left; exact C | right; exact C]
            | simpl; discriminate ]
          | simpl; discriminate ]
        | simpl; intros H; injection H as <-;
          exists (st_journal s1), c; exact E ]
    end.
Qed.

End VolumeInBackendProofs.

(** ** [verify_pv_mounted_on_node] *)

Lemma for_each_cons {X S : Type} (x : X) (l : list X) (body : X -> S -> M S) (acc : S) :
  for_each (x :: l) body acc = bind (body x acc) (fun acc' => for_each l body acc').
Proof. reflexivity. Qed.

Lemma dict_set_absent {V : Type} (key : string) (v : V) (d : list (string * V)) :
  ~ In key (map fst d) -> dict_set key v d = d ++ [(key, v)].
Proof.
  induction d as [| [k w] rest IH]; intros H; [reflexivity |].
  simpl. destruct (k =? key)%string eqn:E.
  - apply String.eqb_eq in E. exfalso. apply H. left. exact E.
  - rewrite IH; [reflexivity |]. intros F. apply H. right. exact F.
Qed.

Lemma dict_append_last (key v : string) (cur : list string)
    (d : list (string * list string)) :
  ~ In key (map fst d) ->
  dict_append key v (d ++ [(key, cur)]) = Some (d ++ [(key, cur ++ [v])]).
Proof.
  induction d as [| [k w] rest IH]; intros H; simpl.
  - rewrite String.eqb_refl. reflexivity.
  - destruct (k =? key)%string eqn:E.
    + apply String.eqb_eq in E. exfalso. apply H. left. exact E.
    + rewrite IH; [reflexivity |]. intros F. apply H. right. exact F.
Qed.

Lemma mounted_among_cons (df_on_node pv : string) (rest : list string) :
  mounted_among df_on_node (pv :: rest)
  = if Py.contains ("/pv/" ++ pv ++ "/") df_on_node
    then pv :: mounted_among df_on_node rest
    else mounted_among df_on_node rest.
Proof. reflexivity. Qed.

Section PVMountedProofs.

Variable env : Env.

(** What is found for a node: what [df] on the node answered, and the
    PVs of the node that the answer shows. *)
Let found_for (entry result : string * list string) : Prop :=
  exists j df_on_node,
    ans_str env j (Call "run_cmd" [("oc debug nodes/" ++ fst entry ++ " -- df")%string])
    = inr df_on_node
    /\ snd result = mounted_among df_on_node (snd entry).

Lemma note_mounted_all (node_name df_on_node : string)
    (acc : list (string * list string)) :
  ~ In node_name (map fst acc) ->
  forall (pvs cur : list string) (s : state),
    for_each pvs (note_mounted node_name df_on_node) (acc ++ [(node_name, cur)]) s
    = (s, inr (acc ++ [(node_name, cur ++ mounted_among df_on_node pvs)])).
Proof.
  intros H. induction pvs as [| pv rest IH]; intros cur s.
  - simpl. rewrite app_nil_r. reflexivity.
  - simpl for_each. unfold bind. unfold note_mounted at 1.
    rewrite mounted_among_cons.
    destruct (Py.contains ("/pv/" ++ pv ++ "/") df_on_node).
    + rewrite (dict_append_last _ _ _ _ H). unfold ret at 1.
      rewrite IH. rewrite <- app_assoc. reflexivity.
    + unfold ret at 1. rewrite IH. reflexivity.
Qed.

Lemma check_nodes_spec (l : list (string * list string)) :
  forall acc : list (string * list string),
    NoDup (map fst acc ++ map fst l) ->
    yields (fun r => exists results,
                r = acc ++ results
                /\ map fst results = map fst l
                /\ Forall2 found_for l results)
           (for_each l (check_node env) acc).
Proof.
  induction l as [| [node_name pvs] rest IH]; intros acc ND.
  - simpl. apply yields_ret. exists []. rewrite app_nil_r. repeat split. constructor.
  - rewrite for_each_cons. intros s r. unfold bind at 1. unfold check_node at 1.
    unfold bind at 1. unfold run_cmd, call_str, ask.
    set (cmd := Call "run_cmd" [("oc debug nodes/" ++ node_name ++ " -- df")%string]).
    destruct (ans_str env (st_journal s) cmd) as [e | df] eqn:E;
      [simpl; discriminate |].
    assert (Hni : ~ In node_name (map fst acc)).
    { intros F. simpl in ND. apply NoDup_remove_2 in ND. apply ND.
      apply in_or_app. left. exact F. }
    rewrite (dict_set_absent _ _ _ Hni).
    rewrite (note_mounted_all _ df _ Hni). simpl app.
    intros H.
    assert (ND' : NoDup (map fst (acc ++ [(node_name, mounted_among df pvs)])
                         ++ map fst rest)).
    { rewrite map_app. simpl map. rewrite <- app_assoc. exact ND. }
    destruct (IH _ ND' _ _ H) as (results & -> & Hk & Hf).
    exists ((node_name, mounted_among df pvs) :: results).
    rewrite <- app_assoc. split; [reflexivity |]. split; [simpl; congruence |].
    constructor; [| exact Hf].
    exists (st_journal s), df. split; [exact E | reflexivity].
Qed.

(** X18.  What [verify_pv_mounted_on_node] returns has the nodes of its
    argument, in the same order, and for each node the PVs of the node
    whose mount point shows in the answer of [df] on that node, in the
    order of the argument: no PV is added, none changes node. *)
Theorem verify_pv_mounted_on_node_filters (node_pv_dict : list (string * list string)) :
  NoDup (map fst node_pv_dict) ->
  yields (fun existing_pvs =>
            map fst existing_pvs = map fst node_pv_dict
            /\ Forall2
                 (fun entry result =>
                    exists j df_on_node,
                      ans_str env j
                        (Call "run_cmd"
                              [("oc debug nodes/" ++ fst entry ++ " -- df")%string])
                      = inr df_on_node
                      /\ snd result = mounted_among df_on_node (snd entry))
                 node_pv_dict existing_pvs)
         (verify_pv_mounted_on_node env node_pv_dict).
Proof.
  intros ND. unfold verify_pv_mounted_on_node.
  intros s r H.
  destruct (check_nodes_spec node_pv_dict [] ND s r H) as (results & -> & Hk & Hf).
  split; [exact Hk | exact Hf].
Qed.

End PVMountedProofs.

(** ** [wait_for_resource_state]: a wait that times out *)

Section WaiterTimeout.

Variable env : Env.

Let wait_call (resource : Resource) (status : string) (timeout : nat) : event :=
  Call "resource.ocp.wait_for_resource"
       [kw "condition" status; kw "resource_name" (res_name resource);
        kw "timeout" (repr_nat timeout)].

Let failed_entry (resource : Resource) (status : string) : event :=
  Log ERROR (res_kind resource ++ " " ++ res_name resource
             ++ " failed to reach " ++ status)%string.

Let reload (resource : Resource) : event := Call "resource.reload" [res_name resource].
Let describe (resource : Resource) : event :=
  Call "resource.describe" [res_name resource].

(** X19.  When the wait raises [TimeoutExpiredError], the failure is logged,
    the resource is reloaded and described, and
    [ResourceWrongStatusException] is raised in its place; an exception
    of [reload] or [describe] is raised instead when one of them
    fails.  An exception of the wait of any other class is raised as it
    is, with nothing logged. *)
Theorem wait_for_resource_state_timeout
    (resource : Resource) (status : string) (timeout : nat) (s : state) (e : exn) :
  (res_name resource =? constants.DEFAULT_STORAGECLASS_CEPHFS)%string = false ->
  (res_name resource =? constants.DEFAULT_STORAGECLASS_RBD)%string = false ->
  ans_bool env (st_journal s) (wait_call resource status timeout) = inl e ->
  let run := wait_for_resource_state env resource status timeout in
  let j1 := st_journal s ++ [wait_call resource status timeout;
                            failed_entry resource status] in
  (exn_cls e <> TimeoutExpiredError ->
   run s = (push (wait_call resource status timeout) s, inl e))
  /\ (exn_cls e = TimeoutExpiredError ->
      match ans_unit env j1 (reload resource) with
      | inl e1 => outcome run s = inl e1
      | inr _ =>
          match ans_str env (j1 ++ [reload resource]) (describe resource) with
          | inl e2 => outcome run s = inl e2
          | inr _ =>
              exists e', outcome run s = inl e'
                         /\ exn_cls e' = ResourceWrongStatusException
                         /\ added run s = [wait_call resource status timeout;
                                           failed_entry resource status;
                                           reload resource; describe resource]
          end
      end).
Proof.
  intros H1 H2 Hans run j1. subst run.
  unfold wait_for_resource_state. rewrite H1, H2.
  change (false || false) with false. cbv iota.
  fold (wait_call resource status timeout).
  fold (failed_entry resource status). fold (reload resource). fold (describe resource).
  match goal with
  | |- context [try_except ?b ?c ?h] => set (body := b); set (handler := h)
  end.
  assert (Hbody : body s = (push (wait_call resource status timeout) s, inl e)).
  { unfold body, bind, ask. rewrite Hans. reflexivity. }
  split.
  - intros Hcls.
    assert (I : isinstance e [TimeoutExpiredError] = false).
    { destruct (isinstance e [TimeoutExpiredError]) eqn:I; [| reflexivity].
      apply isinstance_one in I. contradiction. }
    unfold bind at 1. unfold try_except. rewrite Hbody, I. reflexivity.
  - intros Hcls.
    assert (I : isinstance e [TimeoutExpiredError] = true).
    { unfold isinstance. rewrite Hcls. reflexivity. }
    match goal with
    | |- context [outcome ?m s] => set (run := m)
    end.
    assert (Hrun :
      run s
      = match ans_unit env j1 (reload resource) with
        | inl e1 =>
            (push (reload resource)
               (push (failed_entry resource status)
                  (push (wait_call resource status timeout) s)), inl e1)
        | inr _ =>
            match ans_str env (j1 ++ [reload resource]) (describe resource) with
            | inl e2 =>
                (push (describe resource)
                   (push (reload resource)
                      (push (failed_entry resource status)
                         (push (wait_call resource status timeout) s))), inl e2)
            | inr d =>
                (push (describe resource)
                   (push (reload resource)
                      (push (failed_entry resource status)
                         (push (wait_call resource status timeout) s))),
                 inl (Exn ResourceWrongStatusException
                          (res_name resource ++ ", " ++ d)%string))
            end
        end).
    { unfold run. unfold bind at 1. unfold try_except. rewrite Hbody, I.
      unfold handler, j1, failed_entry, reload, describe, wait_call.
      unfold bind at 1. unfold logger at 1.
      unfold bind at 1. unfold ask at 1.
      repeat rewrite push_journal. repeat rewrite <- app_assoc. cbn [app].
      match goal with
      | |- context [ans_unit env ?j ?ev] => destruct (ans_unit env j ev) as [e1 | u]
      end; [reflexivity |].
      unfold bind at 1. unfold ask at 1.
      repeat rewrite push_journal. repeat rewrite <- app_assoc. cbn [app].
      match goal with
      | |- context [ans_str env ?j ?ev] => destruct (ans_str env j ev) as [e2 | d]
      end; reflexivity. }
    destruct (ans_unit env j1 (reload resource)) as [e1 | u];
      [exact (outcome_eq _ _ _ _ Hrun) |].
    destruct (ans_str env (j1 ++ [reload resource]) (describe resource))
      as [e2 | d]; [exact (outcome_eq _ _ _ _ Hrun) |].
    eexists. split; [exact (outcome_eq _ _ _ _ Hrun) |]. split; [reflexivity |].
    apply (added_eq _ _ _ _ _ Hrun).
    repeat rewrite push_journal. repeat rewrite <- app_assoc. reflexivity.
Qed.


End WaiterTimeout.

(** ** The Subscription manifest *)

Lemma option_string_eqb_refl (a : option string) : option_string_eqb a a = true.
Proof. apply option_string_eqb_eq. reflexivity. Qed.

Lemma emits_log_then {A B : Type} (P : event -> bool) (lvl : level) (msg : string)
    (x : A) (f : A -> M B) :
  P (Log lvl msg) = true -> emits P (f x) ->
  emits P (bind (bind (logger lvl msg) (fun _ => ret x)) f).
Proof.
  intros HP Hf s. unfold bind, logger, ret.
  destruct (Hf (push (Log lvl msg) s)) as (l & E & F).
  exists (Log lvl msg :: l). rewrite E, push_journal, <- app_assoc.
  split; [reflexivity |]. simpl. rewrite HP, F. reflexivity.
Qed.

Section SubscriptionManifest.

Variables (K : Names) (cfg : Config) (env : Env).

Lemma subscribe_ocs_manifest :
  emits (manifest_as_configured K cfg) (subscribe_ocs K cfg env).
Proof.
  unfold subscribe_ocs.
  destruct (Py.truthy (subscription_plan_approval cfg)) eqn:Ha;
    destruct (Py.truthy (ocs_csv_channel cfg)) eqn:Hc;
    destruct (stage cfg) eqn:Hs;
    destruct (live_deployment cfg) eqn:Hl;
    repeat first
      [ match goal with
        | |- emits _ (dump_data_to_temp_yaml _ _ _) =>
            unfold dump_data_to_temp_yaml; apply emits_ask;
            unfold manifest_as_configured, subscription_as_configured;
            rewrite Ha, Hc, Hs, Hl; cbn [installPlanApproval channel source];
            rewrite ?option_string_eqb_refl;
            first [ reflexivity
                  | destruct (ocs_csv_channel cfg); [reflexivity | discriminate Hc] ]
        end
      | apply emits_log_then; [reflexivity |]
      | emit_step
      | progress unfold run_cmd, NamedTemporaryFile, call_unit, call_str ].
Qed.

End SubscriptionManifest.

(** X20.  Without local storage (whose set-up writes a Subscription of
    its own, for the local storage operator), every Subscription
    manifest that [deploy_cluster] writes is the one of [subscribe_ocs],
    and it is as configured: it carries the configured approval mode
    when there is one, the configured channel when there is one and a
    channel in any case, and as its source that of a live deployment
    when [live_deployment] is set, even if [stage] is set too, and the
    stage operator source when only [stage] is set. *)
Theorem subscription_manifest_as_configured
    (K : Names) (cfg : Config) (env : Env) (class_name log_cli_level : string)
    (s : state) :
  local_storage cfg = false ->
  forallb (manifest_as_configured K cfg)
          (added (deploy_cluster K cfg env class_name log_cli_level) s) = true.
Proof.
  intros _. apply emits_added.
  repeat first
    [ match goal with
      | |- emits _ (subscribe_ocs _ _ _) => apply subscribe_ocs_manifest
      end
    | emit_step
    | progress
        unfold deploy_cluster, deploy_cluster_ocp, deploy_cluster_ocs,
          deploy_ocs_and_collect, deploy_ocs, install_ocs, probe_ceph_cluster,
          configure_monitoring, verify_ceph_health, ceph_health_check,
          patch_default_sc_to_non_default, deploy_with_external_mode,
          external_post_deploy_validation, deploy_ocs_via_operator, wait_for_csv,
          create_ocs_operator_source, deployment_with_ui, storage_cluster_spec,
          generic_deviceset, ibm_power_deviceset, smallest_pv_size, index, float,
          deploy_ocp, post_ocp_deploy, collect_ocs_logs, retry,
          OCP_get, OCP_wait_for_resource,
          run_cmd, NamedTemporaryFile, dump_data_to_temp_yaml,
          call_unit, call_bool, call_str, call_strs ].
Qed.

(** ** Attributes that a computation leaves alone *)

Section KeepRules.

Context {A B X : Type}.
Variable f : state -> X.

Lemma keeps_bind (m : M A) (k : A -> M B) :
  keeps f m -> (forall a, keeps f (k a)) -> keeps f (bind m k).
Proof.
  intros Hm Hk s. unfold bind. specialize (Hm s).
  destruct (m s) as [s' [e | a]]; simpl in *; [exact Hm |].
  rewrite (Hk a s'). exact Hm.
Qed.

Lemma keeps_try_except (m : M A) (classes : list exn_class) (h : exn -> M A) :
  keeps f m -> (forall e, keeps f (h e)) -> keeps f (try_except m classes h).
Proof.
  intros Hm Hh s. unfold try_except. specialize (Hm s).
  destruct (m s) as [s' [e | a]]; simpl in *; [| exact Hm].
  destruct (isinstance e classes); [| exact Hm].
  rewrite (Hh e s'). exact Hm.
Qed.

Lemma keeps_try_except_Exception (m : M A) (h : exn -> M A) :
  keeps f m -> (forall e, keeps f (h e)) -> keeps f (try_except_Exception m h).
Proof.
  intros Hm Hh s. unfold try_except_Exception. specialize (Hm s).
  destruct (m s) as [s' [e | a]]; simpl in *; [| exact Hm].
  rewrite (Hh e s'). exact Hm.
Qed.

End KeepRules.

Lemma keeps_when {X : Type} (f : state -> X) (b : bool) (m : M unit) :
  keeps f m -> keeps f (when b m).
Proof. intros H. destruct b; [exact H | intros s; reflexivity]. Qed.

Lemma keeps_for_each {X Y S : Type} (f : state -> X) (l : list Y)
    (body : Y -> S -> M S) (acc : S) :
  (forall y a, keeps f (body y a)) -> keeps f (for_each l body acc).
Proof.
  intros H. revert acc. induction l as [| y rest IH]; intros acc; simpl.
  - intros s. reflexivity.
  - apply keeps_bind; [apply H | intros a; apply IH].
Qed.

Lemma keeps_retry_from {X Y : Type} (f : state -> X) (classes : list exn_class)
    (more delay backoff : nat) (m : M Y) :
  (forall n s, f (fst (sleep n s)) = f s) -> keeps f m ->
  keeps f (retry_from classes more delay backoff m).
Proof.
  intros Hs Hm. revert delay. induction more as [| n IH]; intros delay; simpl.
  - exact Hm.
  - apply keeps_try_except; [exact Hm |].
    intros e. apply keeps_bind; [intros s; apply Hs | intros _; apply IH].
Qed.

Ltac keep_step :=
  first
    [ apply keeps_bind; [| intros ?]
    | apply keeps_try_except; [| intros ?]
    | apply keeps_try_except_Exception; [| intros ?]
    | apply keeps_when
    | apply keeps_for_each; intros ? ?
    | apply keeps_retry_from; [intros ? ?; reflexivity |]
    | match goal with
      | |- keeps _ (if ?b then _ else _) => destruct b
      | |- keeps _ (match ?x with _ => _ end) => destruct x
      | |- keeps _ (let (_, _) := ?x in _) => destruct x
      | |- keeps _ (ret _) => intros ?; reflexivity
      | |- keeps _ (raise _) => intros ?; reflexivity
      | |- keeps _ (logger _ _) => intros ?; reflexivity
      | |- keeps _ (sleep _) => intros ?; reflexivity
      | |- keeps _ (ask _ _) => intros ?; reflexivity
      | |- keeps _ (assert _) => unfold assert
      | |- keeps _ get_DEFAULT_STORAGECLASS => intros ?; reflexivity
      | |- keeps _ (set_DEFAULT_STORAGECLASS _) => intros ?; reflexivity
      | |- keeps _ (set_CEPHFILESYSTEM_NAME _) => intros ?; reflexivity
      end ].

Section FailureFlag.

Variables (K : Names) (cfg : Config) (env : Env) (class_name : string).

Lemma deploy_cluster_ocs_keeps_flag :
  keeps is_ocp_deployment_failed (deploy_cluster_ocs K cfg env class_name).
Proof.
  repeat first [keep_step | progress unfold_deployment].
Qed.

Lemma installation_keeps_flag (log_cli_level : string) :
  keeps is_ocp_deployment_failed (deploy_ocp env log_cli_level ;; post_ocp_deploy env).
Proof.
  repeat first [keep_step | progress unfold_deployment].
Qed.

(** X21.  [config.RUN["is_ocp_deployment_failed"]] records a failure of the
    installation of the platform, and nothing else: after
    [deploy_cluster] it is set if it was set before or if [deploy_ocp]
    or [post_ocp_deploy] raised, and in no other case: the storage
    phase, whatever happens in it, does not touch it, and neither does
    a failure of the test whether the cluster is running. *)
Theorem failure_flag_records_installation (log_cli_level : string) (s : state) :
  is_ocp_deployment_failed
    (fst (deploy_cluster K cfg env class_name log_cli_level s))
  = is_ocp_deployment_failed s
    || (negb (skip_ocp_deployment cfg)
        && match ans_bool env (st_journal s) (Call "is_cluster_running" [cluster_path cfg]) with
           | inr false =>
               match outcome (deploy_ocp env log_cli_level ;; post_ocp_deploy env)
                             (push (Call "is_cluster_running" [cluster_path cfg]) s) with
               | inl _ => true
               | inr _ => false
               end
           | _ => false
           end).
Proof.
  unfold deploy_cluster.
  assert (Hocs := deploy_cluster_ocs_keeps_flag).
  assert (Hinst := installation_keeps_flag log_cli_level).
  unfold bind at 1.
  destruct (deploy_cluster_ocp cfg env log_cli_level s) as [s1 r] eqn:E.
  assert (Hflag : is_ocp_deployment_failed s1
                  = is_ocp_deployment_failed s
                    || (negb (skip_ocp_deployment cfg)
                        && match ans_bool env (st_journal s)
                                   (Call "is_cluster_running" [cluster_path cfg]) with
                           | inr false =>
                               match outcome (deploy_ocp env log_cli_level ;;
                                              post_ocp_deploy env)
                                             (push (Call "is_cluster_running"
                                                         [cluster_path cfg]) s) with
                               | inl _ => true
                               | inr _ => false
                               end
                           | _ => false
                           end)).
  { revert E. unfold deploy_cluster_ocp, when.
    destruct (skip_ocp_deployment cfg);
      [change (negb true) with false | change (negb false) with true]; cbv iota.
    - unfold ret. intros E. simpl in E; inversion E; subst.
      rewrite orb_false_r. reflexivity.
    - unfold bind at 1. unfold call_bool, ask. cbv beta.
      set (s0 := push (Call "is_cluster_running" [cluster_path cfg]) s).
      destruct (ans_bool env (st_journal s) (Call "is_cluster_running" [cluster_path cfg]))
        as [e | [|]].
      + intros E. simpl in E; inversion E; subst. rewrite orb_false_r. reflexivity.
      + unfold logger. intros E. simpl in E; inversion E; subst.
        rewrite orb_false_r. reflexivity.
      + unfold try_except_Exception, outcome. specialize (Hinst s0).
        destruct ((deploy_ocp env log_cli_level ;; post_ocp_deploy env) s0)
          as [s' [e | u]]; simpl in Hinst |- *.
        * intros E.
          assert (F : is_ocp_deployment_failed s1 = true).
          { revert E. unfold bind at 1. unfold set_is_ocp_deployment_failed at 1.
            unfold bind at 1. unfold logger at 1. unfold bind at 1. unfold when.
            destruct (gather_on_deploy_failure cfg).
            - unfold collect_ocs_logs, call_unit, ask.
              match goal with
              | |- context [ans_unit env ?j ?ev] => destruct (ans_unit env j ev)
              end; intros E; simpl in E; inversion E; subst; reflexivity.
            - unfold ret, raise. intros E. simpl in E; inversion E; subst. reflexivity. }
          rewrite F. rewrite orb_true_r. reflexivity.
        * intros E. simpl in E; inversion E; subst.
          rewrite Hinst, orb_false_r. reflexivity. }
  destruct r as [e | u]; simpl fst.
  - exact Hflag.
  - rewrite (Hocs s1). exact Hflag.
Qed.

End FailureFlag.

(** ** The StorageCluster manifest *)

Lemma emits_after {A B : Type} (P : event -> bool) (R : A -> Prop)
    (m : M A) (f : A -> M B) :
  yields R m -> emits P m -> (forall a, R a -> emits P (f a)) -> emits P (bind m f).
Proof.
  intros Hy Hm Hf s. unfold bind. destruct (Hm s) as (l & E & F).
  specialize (Hy s).
  destruct (m s) as [s' [e | a]]; simpl in *.
  - exists l. auto.
  - destruct (Hf a (Hy a eq_refl) s') as (l' & E' & F'). exists (l ++ l').
    rewrite E', E, app_assoc, forallb_app, F, F'. auto.
Qed.

Section ClusterManifest.

Variables (K : Names) (cfg : Config) (env : Env) (class_name : string).

Lemma ibm_power_devicesets (l : list nat) :
  forall (c : StorageCluster) (ds : list DeviceSet),
    yields (fun r => sc_name (fst r) = sc_name c
                     /\ length (snd r) = length ds + length l)
           (for_each l (ibm_power_deviceset K cfg env) (c, ds)).
Proof.
  induction l as [| i rest IH]; intros c ds.
  - simpl. apply yields_ret. simpl. split; [reflexivity | lia].
  - rewrite for_each_cons.
    apply (yields_after (fun r => sc_name (fst r) = sc_name c
                                  /\ length (snd r) = S (length ds))).
    + unfold ibm_power_deviceset.
      apply yields_bind. intros d0. apply yields_bind. intros d1.
      destruct (local_storage cfg); apply yields_ret; simpl;
        rewrite length_app; simpl; split; try reflexivity; lia.
    + intros [c' ds'] [Hn Hl]. simpl in Hn, Hl.
      eapply yields_weaken; [| apply IH].
      intros r [H1 H2]. simpl length. split; [congruence | lia].
Qed.

Lemma generic_deviceset_name (c : StorageCluster) :
  yields (fun r => sc_name (fst (fst r)) = sc_name c) (generic_deviceset K cfg env c).
Proof.
  unfold generic_deviceset.
  apply yields_bind; intros d0. apply yields_bind; intros d1.
  apply yields_bind; intros sc. apply yields_bind; intros v.
  apply yields_bind; intros ocp_s. apply yields_bind; intros ocp_v.
  destruct (local_storage cfg); cbv zeta;
    repeat match goal with
           | |- yields _ (if ?b then _ else _) => destruct b
           | |- yields _ (let (_, _) := (if ?b then _ else _) in _) => destruct b
           end;
    apply yields_ret; cbn [fst snd];
    repeat match goal with
           | |- context [if ?b then _ else _] => destruct b
           end;
    reflexivity.
Qed.

Lemma storage_cluster_spec_as_configured :
  yields (fun c => sc_name c = storage_cluster_name cfg
                   /\ devices_as_configured K cfg c = true)
         (storage_cluster_spec K cfg env).
Proof.
  unfold storage_cluster_spec. apply yields_bind. intros template.
  apply (yields_after
           (fun r : StorageCluster * list DeviceSet * option Py.pyfloat =>
              sc_name (fst (fst r)) = storage_cluster_name cfg
              /\ length (snd (fst r))
                 = if (platform cfg =? IBM_POWER_PLATFORM K)%string
                   then number_of_storage_nodes cfg else 1)).
  - destruct (platform cfg =? IBM_POWER_PLATFORM K)%string.
    + apply (yields_after
               (fun r : StorageCluster * list DeviceSet =>
                  sc_name (fst r) = storage_cluster_name cfg
                  /\ length (snd r) = number_of_storage_nodes cfg)).
      * eapply yields_weaken; [| apply ibm_power_devicesets].
        intros r [H1 H2]. rewrite length_seq in H2. simpl in H1, H2. auto.
      * intros [c ds] H. apply yields_ret. exact H.
    + apply (yields_after
               (fun r : StorageCluster * DeviceSet * Py.pyfloat =>
                  sc_name (fst (fst r)) = storage_cluster_name cfg)).
      * eapply yields_weaken; [| apply generic_deviceset_name].
        intros r H. exact H.
      * intros [[c d] v] H. apply yields_ret. simpl in *. auto.
  - intros [[c ds] v] [Hn Hl]. simpl in Hn, Hl.
    unfold devices_as_configured.
    destruct (encryption_at_rest cfg).
    + destruct v as [v |]; [| apply yields_raise].
      destruct (Py.lt v v4_6).
      * apply yields_bind. intros _. apply yields_raise.
      * apply yields_bind. intros _. apply yields_ret.
        destruct (host_network cfg); simpl; rewrite Hl, Nat.eqb_refl;
          split; first [exact Hn | reflexivity].
    + apply yields_ret.
      destruct (host_network cfg); simpl; rewrite Hl, Nat.eqb_refl;
        split; first [exact Hn | reflexivity].
Qed.

Let P : event -> bool := cluster_manifest_as_configured K cfg.

Lemma storage_cluster_spec_writes_nothing : emits P (storage_cluster_spec K cfg env).
Proof. emit_with unfold_deployment. Qed.

Lemma subscribe_ocs_no_cluster_manifest : emits P (subscribe_ocs K cfg env).
Proof. emit_with unfold_deployment. Qed.

Lemma deploy_ocs_via_operator_manifest : emits P (deploy_ocs_via_operator K cfg env).
Proof.
  unfold deploy_ocs_via_operator.
  repeat first
    [ match goal with
      | |- emits _ (bind (storage_cluster_spec _ _ _) _) =>
          apply (emits_after P _ _ _ storage_cluster_spec_as_configured
                             storage_cluster_spec_writes_nothing);
          intros c [Hname Hdev]
      | |- emits _ (subscribe_ocs _ _ _) => apply subscribe_ocs_no_cluster_manifest
      | |- emits _ (dump_data_to_temp_yaml _ (StorageClusterDoc _) _) =>
          unfold dump_data_to_temp_yaml; apply emits_ask;
          unfold P, cluster_manifest_as_configured, cluster_as_configured;
          rewrite Hname, Hdev, String.eqb_refl, orb_true_r; reflexivity
      end
    | emit_step
    | progress unfold wait_for_csv, create_ocs_operator_source, deployment_with_ui,
        run_cmd, NamedTemporaryFile, call_unit, call_bool, call_str, call_strs ].
Qed.

Lemma deploy_with_external_mode_manifest :
  external_mode cfg = true -> emits P (deploy_with_external_mode K cfg env).
Proof.
  intros He. unfold deploy_with_external_mode.
  repeat first
    [ match goal with
      | |- emits _ (subscribe_ocs _ _ _) => apply subscribe_ocs_no_cluster_manifest
      | |- emits _ (dump_data_to_temp_yaml _ (StorageClusterDoc _) _) =>
          unfold dump_data_to_temp_yaml; apply emits_ask;
          unfold P, cluster_manifest_as_configured, cluster_as_configured;
          cbn [sc_name]; rewrite He, String.eqb_refl; reflexivity
      end
    | emit_step
    | progress unfold wait_for_csv, create_ocs_operator_source,
        external_post_deploy_validation, dump_data_to_temp_yaml,
        run_cmd, NamedTemporaryFile, call_unit, call_bool, call_str, call_strs ].
Qed.

(** X22.  Every StorageCluster manifest that [deploy_cluster] writes carries
    the configured name; outside external mode it has one device set
    for each storage node on IBM Power and exactly one device set on
    the other platforms, whatever the template holds, the host network
    switched on when [host_network] is set, and encryption switched on
    when [encryption_at_rest] is set. *)
Theorem cluster_manifest_is_as_configured (log_cli_level : string) (s : state) :
  forallb (cluster_manifest_as_configured K cfg)
          (added (deploy_cluster K cfg env class_name log_cli_level) s) = true.
Proof.
  apply emits_added. fold P.
  unfold deploy_cluster, deploy_cluster_ocs, deploy_ocs_and_collect, deploy_ocs,
    install_ocs.
  destruct (external_mode cfg) eqn:He.
  - repeat first
      [ match goal with
        | |- emits _ (deploy_with_external_mode _ _ _) =>
            apply deploy_with_external_mode_manifest; exact He
        end
      | emit_step
      | progress unfold deploy_cluster_ocp, probe_ceph_cluster, deploy_ocp,
          post_ocp_deploy, collect_ocs_logs, index, OCP_get, run_cmd,
          call_unit, call_bool, call_str, call_strs ].
  - repeat first
      [ match goal with
        | |- emits _ (deploy_ocs_via_operator _ _ _) =>
            apply deploy_ocs_via_operator_manifest
        end
      | emit_step
      | progress unfold deploy_cluster_ocp, probe_ceph_cluster, deploy_ocp,
          post_ocp_deploy, collect_ocs_logs, index, OCP_get, run_cmd,
          configure_monitoring, verify_ceph_health, ceph_health_check,
          patch_default_sc_to_non_default, retry, OCP_wait_for_resource,
          call_unit, call_bool, call_str, call_strs ].
Qed.

End ClusterManifest.


(** ** [self.DEFAULT_STORAGECLASS] *)

(** X23.  Unless a custom storage class is configured, [deploy_cluster]
    never assigns [self.DEFAULT_STORAGECLASS]: the class that
    [patch_default_sc_to_non_default] reads at the end of [deploy_ocs] is
    the one the platform class started with, whatever the collaborators
    answer. *)
Theorem default_storage_class_kept
    (K : Names) (cfg : Config) (env : Env) (class_name log_cli_level : string) :
  CUSTOM_STORAGE_CLASS_PATH cfg = None ->
  keeps DEFAULT_STORAGECLASS (deploy_cluster K cfg env class_name log_cli_level).
Proof.
  intros H.
  repeat first
    [ match goal with
      | |- keeps _ (match CUSTOM_STORAGE_CLASS_PATH cfg with _ => _ end) => rewrite H
      | |- keeps _ (set_is_ocp_deployment_failed _) => intros ?; reflexivity
      end
    | keep_step
    | progress unfold_deployment ].
Qed.

(** ** [create_catalog_source] *)

Section CatalogSourceProofs.

Variables (K : Names) (cfg : Config) (env : Env).
Variable ans_catalog : journal -> event -> exn + CatalogSourceData.
Variables (ocs_registry_image : option string) (stage_index_image : option string)
  (stage_index_image_tag : option string) (default_latest_tag : option string)
  (default_ocs_registry_image : option string) (upgrade_configured : bool)
  (us_ds : option string) (OSBS_BOUNDLE_IMAGE : string)
  (STAGE_IMAGE_CONTENT_SOURCE_POLICY_YAML : string).

Let create (image : option string) (ignore_upgrade : bool) : M unit :=
  create_catalog_source K cfg env ans_catalog ocs_registry_image false
    stage_index_image stage_index_image_tag default_latest_tag
    default_ocs_registry_image upgrade_configured us_ds OSBS_BOUNDLE_IMAGE
    STAGE_IMAGE_CONTENT_SOURCE_POLICY_YAML image ignore_upgrade.

Let adding : event := Log INFO "Adding CatalogSource".
Let load : event := Call "templating.load_yaml" [CATALOG_SOURCE_YAML (TOP_DIR K)].
Let temporary : event :=
  Call "tempfile.NamedTemporaryFile"
       [kw "mode" "w+"; kw "prefix" "catalog_source_manifest"; kw "delete" "False"].

Lemma catalog_tail_appends (path : string) (s : state) :
  exists l,
    st_journal
      (fst ((run_cmd env ("oc create -f " ++ path) (Some 2400) ;;
             call_unit env "CatalogSource"
               [kw "resource_name" OPERATOR_CATALOG_SOURCE_NAME;
                kw "namespace" MARKETPLACE_NAMESPACE] ;;
             call_unit env "CatalogSource.wait_for_state" ["READY"%string]) s))
    = st_journal s ++ l.
Proof.
  assert (H : emits anything
                (run_cmd env ("oc create -f " ++ path) (Some 2400) ;;
                 call_unit env "CatalogSource"
                   [kw "resource_name" OPERATOR_CATALOG_SOURCE_NAME;
                    kw "namespace" MARKETPLACE_NAMESPACE] ;;
                 call_unit env "CatalogSource.wait_for_state" ["READY"%string])).
  { emit_with unfold_deployment. }
  destruct (H s) as (l & E & _). exists l. exact E.
Qed.

(** X24.  An image reference that does not split at [":"] into exactly two
    parts loses its tag.  Outside the stage index case, when the
    reference is one with a registry port or a digest (or has no tag at
    all), no DS tag is asked for, and the template is the catalog source
    of the operator, the manifest written names the text before the first
    colon with the tag [latest], or [latest-4.6] on IBM Power. *)
Theorem catalog_source_image_tag_dropped
    (image before_colon path : string) (ignore_upgrade : bool)
    (template : CatalogSourceData) (default_image : string) (s : state) :
  image <> EmptyString ->
  image_and_tag image = (before_colon, None) ->
  before_colon <> EmptyString ->
  us_ds <> Some "DS"%string ->
  ans_catalog (st_journal s ++ [adding]) load = inr template ->
  cs_kind template = "CatalogSource"%string ->
  cs_name template = OPERATOR_CATALOG_SOURCE_NAME ->
  default_ocs_registry_image = Some default_image ->
  ans_str env (st_journal s ++ [adding; load]) temporary = inr path ->
  exists rest,
    added (create (Some image) ignore_upgrade) s
    = [adding; load; temporary;
       dump_catalog_source
         (mkCatalogSource "CatalogSource" OPERATOR_CATALOG_SOURCE_NAME
            (before_colon ++ ":"
             ++ (if (Py.lower (platform cfg) =? IBM_POWER_PLATFORM K)%string
                 then "latest-4.6" else "latest"))%string)
         path] ++ rest.
Proof.
  intros Himage Hsplit Hbefore Hds Hload Hkind Hname Hdefault Htmp.
  assert (Ti : Py.truthy (Some image) = true).
  { simpl. destruct (image =? "")%string eqn:E; [| reflexivity].
    apply String.eqb_eq in E. contradiction. }
  assert (Tb : (before_colon =? "")%string = false).
  { destruct (before_colon =? "")%string eqn:E; [| reflexivity].
    apply String.eqb_eq in E. contradiction. }
  assert (Td : option_string_eqb us_ds (Some "DS"%string) = false).
  { apply option_string_eqb_neq. exact Hds. }
  assert (Hrun : exists rest,
             st_journal (fst (create (Some image) ignore_upgrade s))
             = st_journal s
               ++ [adding; load; temporary;
                   dump_catalog_source
                     (mkCatalogSource "CatalogSource" OPERATOR_CATALOG_SOURCE_NAME
                        (before_colon ++ ":"
                         ++ (if (Py.lower (platform cfg) =? IBM_POWER_PLATFORM K)%string
                             then "latest-4.6" else "latest"))%string)
                     path] ++ rest).
  { unfold create, create_catalog_source.
    rewrite Ti. change (negb true) with false. cbv iota.
    unfold bind at 1. unfold logger at 1. fold adding. cbv beta iota.
    unfold bind at 1. unfold ret at 1. cbv beta iota.
    rewrite Hsplit. cbv iota beta.
    change (Py.truthy None) with false. change (negb false) with true.
    rewrite Td. change (true && false) with false. cbv iota.
    unfold bind at 1. unfold ret at 1. cbv beta iota.
    unfold bind at 1. unfold ask at 1. fold load. cbv beta iota.
    rewrite push_journal, Hload. cbv beta iota.
    rewrite Hkind, Hname, Tb, Hdefault.
    change (negb false) with true.
    change ("CatalogSource" =? "CatalogSource")%string with true.
    change (OPERATOR_CATALOG_SOURCE_NAME =? OPERATOR_CATALOG_SOURCE_NAME)%string
      with true.
    change (true || Py.truthy
                      (if (Py.lower (platform cfg) =? IBM_POWER_PLATFORM K)%string
                       then Some "latest-4.6"%string else None)) with true.
    change (true && true && true) with true. cbv iota.
    unfold bind at 1. unfold bind at 1. unfold ret at 1. unfold ret at 1.
    cbv beta iota.
    unfold bind at 1. unfold NamedTemporaryFile, call_str. unfold ask at 1.
    fold temporary. cbv beta iota.
    repeat rewrite push_journal. repeat rewrite <- app_assoc. cbn [app].
    rewrite Htmp. cbv beta iota.
    unfold bind at 1. unfold ask at 1. cbv beta iota.
    match goal with
    | |- context [dump_catalog_source ?d path] =>
        set (manifest := dump_catalog_source d path)
    end.
    assert (Hm : manifest
                 = dump_catalog_source
                     (mkCatalogSource "CatalogSource" OPERATOR_CATALOG_SOURCE_NAME
                        (before_colon ++ ":"
                         ++ (if (Py.lower (platform cfg) =? IBM_POWER_PLATFORM K)%string
                             then "latest-4.6" else "latest"))%string) path).
    { unfold manifest.
      destruct (Py.lower (platform cfg) =? IBM_POWER_PLATFORM K)%string; reflexivity. }
    rewrite <- Hm. clearbody manifest.
    match goal with
    | |- context [ans_unit env ?j manifest] => destruct (ans_unit env j manifest) as [e | []]
    end.
    - exists []. simpl fst.
      repeat rewrite push_journal. repeat rewrite <- app_assoc. reflexivity.
    - destruct (catalog_tail_appends path
                  (push manifest (push temporary (push load (push adding s)))))
        as (l & E).
      exists l. rewrite E.
      repeat rewrite push_journal. repeat rewrite <- app_assoc. reflexivity. }
  destruct Hrun as (rest & E). exists rest. apply added_app. exact E.
Qed.

End CatalogSourceProofs.

(** * Runs of the further properties *)

Section MoreRuns.

Import Demo Scenario Cases.

Lemma ui_deployment_witness :
  added (deploy_ocs_via_operator names console env_fine) start
  = [Call "create_catalog_source" [];
     Log INFO "Deployment of OCS will be done by openshift-console";
     Call "OpenshiftConsole" ["chrome"];
     Call "OpenshiftConsole.run_openshift_console"
          [kw "suite" "ceph-storage-install"; kw "env_vars" (kw "OCS_LIVE" "0");
           kw "log_suffix" "ui-deployment"]].
Proof.
  apply (proj1 (proj2 (ui_deployment_leaves_cluster_to_console
                         names console env_fine start eq_refl))).
  reflexivity.
Defined.

Lemma external_mode_skips_witness :
  forallb no_converged_check
          (added (deploy_ocs names external_without_details env_fine "AWSIPI") start)
  = true.
Proof.
  apply (external_mode_skips_converged_checks
           names external_without_details env_fine "AWSIPI" start).
  reflexivity.
Defined.

Lemma external_mode_details_witness :
  (exists e,
      outcome (deploy_with_external_mode names external_without_details env_fine) start
      = inl e)
  /\ forallb no_secret_or_cluster_manifest
       (added (deploy_with_external_mode names external_without_details env_fine) start)
     = true
  /\ outcome (deploy_with_external_mode names external_without_details env_fine) start
     = inl missing_details
  /\ in_order subscribed_and_awaited
       (added (deploy_with_external_mode names external_without_details env_fine) start)
     = true.
Proof.
  destruct (external_mode_needs_cluster_details
              names external_without_details env_fine start)
    as (H1 & H2 & H3); [reflexivity |].
  split; [exact H1 |]. split; [exact H2 |].
  apply H3; [exact env_fine_cooperative |].
  intros j ev. eexists. reflexivity.
Defined.


Lemma failed_success_collection_witness :
  outcome (deploy_cluster names collecting env_collection_fails "AWSIPI" "DEBUG") start
  = inl collection_failed
  /\ st_journal
       (fst (deploy_cluster names collecting env_collection_fails "AWSIPI" "DEBUG" start))
     = st_journal (fst (deploy_ocs names collecting env_collection_fails "AWSIPI" start))
       ++ collect_success_call :: Log ERROR (exn_msg collection_failed)
          :: (if gather_on_deploy_failure collecting
              then [collect_ocp_logs_call; collect_ocs_logs_call] else []).
Proof.
  apply (failed_success_collection_fails_deployment
           names collecting env_collection_fails "AWSIPI" "DEBUG" start start
           (fst (deploy_ocs names collecting env_collection_fails "AWSIPI" start))
           collection_failed);
    [reflexivity | reflexivity | reflexivity | vm_compute; reflexivity
    | vm_compute; reflexivity | intros _; split; vm_compute; reflexivity].
Defined.

Lemma get_device_paths_without_listing_witness :
  get_device_paths names power env_workers (Some "/dev/SDB") 4 3 2 ["w0"; "w1"] start
  = (start, inr ["/dev/sdb"%string])
  /\ get_device_paths names gcp env_workers None 4 3 2 ["w0"; "w1"] start
     = (start, inl (unsupported_platform "gcp")).
Proof.
  split.
  - exact (proj1 (get_device_paths_without_listing
                    names power env_workers (Some "/dev/SDB"%string) 4 3 2
                    ["w0"; "w1"]%string start) eq_refl "/dev/SDB"%string eq_refl).
  - apply (proj2 (get_device_paths_without_listing
                    names gcp env_workers None 4 3 2 ["w0"; "w1"]%string start)).
    reflexivity.
Defined.

Lemma get_device_paths_by_id_witness :
  yields (Forall (by_id_path "wwn"))
         (get_device_paths names vsphere env_workers None 4 3 2 ["w0"; "w1"])
  /\ outcome (get_device_paths names vsphere env_workers None 4 3 2 ["w0"; "w1"]) start
     = inr ["/dev/disk/by-id/wwn-0x5000c500a1b2c3d4";
            "/dev/disk/by-id/wwn-0x5000c500a1b2c3d4"]%string.
Proof.
  split; [| vm_compute; reflexivity].
  apply (get_device_paths_by_id names vsphere env_workers None 4 3 2 "wwn");
    reflexivity.
Defined.

Lemma get_device_paths_listing_only_witness :
  throws_only
    (fun e => exists j ev, is_run_cmd ev = true /\ ans_str env_workers j ev = inl e)
    (get_device_paths names aws env_workers None 4 3 2 ["w0"; "w1"]).
Proof.
  apply (get_device_paths_fails_with_listing_only
           names aws env_workers None 4 3 2 "nvme-Amazon_EC2_NVMe_Instance_Storage");
    reflexivity.
Defined.

Lemma get_device_paths_blank_witness :
  yields (fun paths => paths = [])
         (get_device_paths names baremetal env_workers (Some "ST 4000") 4 3 2 ["w0"]).
Proof.
  apply (get_device_paths_pattern_with_blank
           names baremetal env_workers (Some "ST 4000"%string) 4 3 2 "ST 4000");
    reflexivity.
Defined.

Lemma label_and_taint_nodes_without_worker_witness :
  label_and_taint_nodes aws env_fine only_masters 3 0 false "node-role.kubernetes.io/infra=''"
    show_zones show_nodes show_names start
  = (push (Call "OCP.get" [kw "kind" "node"]) start, inl no_worker_found).
Proof.
  apply (label_and_taint_nodes_without_worker
           aws env_fine only_masters 3 0 false "node-role.kubernetes.io/infra=''"
           show_zones show_nodes show_names
           (Some [master "m0"; master "m1"]) start); reflexivity.
Defined.

Lemma label_and_taint_nodes_too_few_workers_witness :
  outcome (label_and_taint_nodes aws env_fine two_workers 3 0 false
             "node-role.kubernetes.io/infra=''" show_zones show_nodes show_names) start
  = inl (not_enough_workers 3 0 2)
  /\ forallb no_exec_oc_cmd
       (added (label_and_taint_nodes aws env_fine two_workers 3 0 false
                 "node-role.kubernetes.io/infra=''" show_zones show_nodes show_names)
              start) = true
  /\ length (added (label_and_taint_nodes aws env_fine two_workers 3 0 false
                      "node-role.kubernetes.io/infra=''" show_zones show_nodes show_names)
                   start) = 5.
Proof.
  apply (label_and_taint_nodes_too_few_workers
           aws env_fine two_workers 3 0 false "node-role.kubernetes.io/infra=''"
           show_zones show_nodes show_names
           (Some [master "m0"; worker "w0" "us-east-2a"; worker "w1" "us-east-2b"]) start).
  - reflexivity.
  - discriminate.
  - left. vm_compute. reflexivity.
Defined.

Lemma verify_pvs_created_witness :
  exists j items,
    one_available j get_pv = inr items
    /\ Z.of_nat (length items) = 1%Z
    /\ forallb pv_available items = true
    /\ (0 < 1)%Z.
Proof.
  apply (verify_pvs_created_returns_when_all_available one_available 1 start).
  vm_compute. reflexivity.
Defined.

Lemma validate_pv_delete_witness :
  exists j e, ans_bool env_pv_gone j (get_pv_by_name names "pvc-1") = inl e
              /\ exn_cls e = CommandFailed.
Proof.
  apply (validate_pv_delete_returns names env_pv_gone "pvc-1" start (PyBool true)).
  vm_compute. reflexivity.
Defined.

Lemma is_volume_present_in_backend_other_interface_witness :
  is_volume_present_in_backend env_fine "ocs-storagecluster-cephfilesystem"
    "NFS" "f301898c" None start
  = (push (Call "pod.get_ceph_tools_pod" []) start,
     inl (Exn UnboundLocalError "local variable 'cmd' referenced before assignment")).
Proof.
  apply (is_volume_present_in_backend_other_interface
           env_fine "ocs-storagecluster-cephfilesystem" "NFS" "f301898c" None start);
    reflexivity.
Defined.

Lemma is_volume_present_in_backend_answers_witness :
  exists j cmd e,
    ans_unit env_no_image j (exec_ceph_cmd cmd) = inl e
    /\ exn_cls e = CommandFailed
    /\ (Py.contains "error opening image csi-vol-f301898c" (exn_msg e) = true
        \/ Py.contains "Subvolume 'csi-vol-f301898c' not found" (exn_msg e) = true).
Proof.
  destruct (is_volume_present_in_backend_answers
              env_no_image "ocs-storagecluster-cephfilesystem"
              constants.CEPHBLOCKPOOL "f301898c" (Some "rbd-pool"%string) start false)
    as (j & cmd & H); [vm_compute; reflexivity |].
  exists j, cmd. exact H.
Defined.

Lemma verify_pv_mounted_on_node_witness :
  yields (fun existing_pvs =>
            map fst existing_pvs = ["node1"; "node2"]%string
            /\ Forall2
                 (fun entry result =>
                    exists j df_on_node,
                      ans_str env_workers j
                        (Call "run_cmd"
                              [("oc debug nodes/" ++ fst entry ++ " -- df")%string])
                      = inr df_on_node
                      /\ snd result = mounted_among df_on_node (snd entry))
                 [("node1", ["pvc-1"; "pvc-2"; "pvc-3"]); ("node2", ["pvc-4"])]%string
                 existing_pvs)
         (verify_pv_mounted_on_node env_workers
            [("node1", ["pvc-1"; "pvc-2"; "pvc-3"]); ("node2", ["pvc-4"])]%string).
Proof.
  apply (verify_pv_mounted_on_node_filters env_workers
           [("node1", ["pvc-1"; "pvc-2"; "pvc-3"]); ("node2", ["pvc-4"])]%string).
  repeat constructor; simpl; intuition discriminate.
Defined.

Lemma wait_for_resource_state_timeout_witness :
  exists e',
    outcome (wait_for_resource_state env_timeout some_pvc "Bound" 60) start = inl e'
    /\ exn_cls e' = ResourceWrongStatusException
    /\ added (wait_for_resource_state env_timeout some_pvc "Bound" 60) start
       = [Call "resource.ocp.wait_for_resource"
               [kw "condition" "Bound"; kw "resource_name" "pvc-test-1";
                kw "timeout" "60"];
          Log ERROR "PersistentVolumeClaim pvc-test-1 failed to reach Bound";
          Call "resource.reload" ["pvc-test-1"];
          Call "resource.describe" ["pvc-test-1"]]%string.
Proof.
  exact (proj2 (wait_for_resource_state_timeout
                  env_timeout some_pvc "Bound" 60 start timed_out
                  eq_refl eq_refl eq_refl) eq_refl).
Defined.

Lemma default_storage_class_kept_witness :
  keeps DEFAULT_STORAGECLASS (deploy_cluster names aws env_fine "AWSIPI" "DEBUG")
  /\ DEFAULT_STORAGECLASS (fst (deploy_cluster names aws env_fine "AWSIPI" "DEBUG" start))
     = Some "gp2"%string.
Proof.
  split; [| vm_compute; reflexivity].
  apply (default_storage_class_kept names aws env_fine "AWSIPI" "DEBUG"). reflexivity.
Defined.

Lemma catalog_source_image_tag_dropped_witness :
  exists rest,
    added (create_catalog_source names aws env_fine catalog_template None false
             None None None (Some "quay.io/rhceph-dev/ocs-olm-operator:latest-4.6")
             false None "registry-proxy.engineering.redhat.com/rh-osbs/iib"
             "/opt/ocs-ci/ocs_ci/templates/ocs-deployment/stageImageContentSourcePolicy.yaml"
             (Some image_with_port) false) start
    = [Log INFO "Adding CatalogSource";
       Call "templating.load_yaml"
            ["/opt/ocs-ci/ocs_ci/templates/ocs-deployment/catalog-source.yaml"];
       Call "tempfile.NamedTemporaryFile"
            ["mode=w+"; "prefix=catalog_source_manifest"; "delete=False"];
       Call "templating.dump_data_to_temp_yaml"
            ["kind=CatalogSource"; "metadata.name=ocs-catalogsource";
             "spec.image=registry.example.com:latest";
             "/tmp/catalog_source_manifestk3xw0a"]]%string ++ rest.
Proof.
  apply (catalog_source_image_tag_dropped
           names aws env_fine catalog_template None None None None
           (Some "quay.io/rhceph-dev/ocs-olm-operator:latest-4.6"%string) false None
           "registry-proxy.engineering.redhat.com/rh-osbs/iib"
           "/opt/ocs-ci/ocs_ci/templates/ocs-deployment/stageImageContentSourcePolicy.yaml"
           image_with_port "registry.example.com" "/tmp/catalog_source_manifestk3xw0a"
           false
           (mkCatalogSource "CatalogSource" "ocs-catalogsource"
              "quay.io/rhceph-dev/ocs-olm-operator:latest-4.6")
           "quay.io/rhceph-dev/ocs-olm-operator:latest-4.6" start);
    first [discriminate | reflexivity].
Defined.

Lemma subscription_manifest_witness :
  forallb (manifest_as_configured names manual)
          (added (deploy_cluster names manual env_fine "AWSIPI" "DEBUG") start) = true
  /\ In (DumpYaml (SubscriptionDoc (mkSubscription (Some "Manual") (Some "stable-4.6") None))
                  "/tmp/subscription_manifestk3xw0a")
        (added (deploy_cluster names manual env_fine "AWSIPI" "DEBUG") start).
Proof.
  split.
  - apply (subscription_manifest_as_configured
             names manual env_fine "AWSIPI" "DEBUG" start).
    reflexivity.
  - vm_compute. repeat (first [left; reflexivity | right]).
Defined.

End MoreRuns.
